(** * GridCalUi: table models, undo history, clipboard export and file threads

    A shallow embedding of the Python sources under [src/GridCalUi]:
    - [GuiFunctions.py]: [ComboDelegate], [PandasModel], [ObjectsModel],
    [ObjectHistory], [ProfilesModel], [MeasurementsModel], [get_list_model],
    [get_checked_indices], [fill_model_from_dict], [get_tree_model];
    - [Session/results_model.py]: [fast_data_to_text],
    [fast_data_to_numpy_text], [ResultsModel];
    - [Session/file_handler.py]: [FileOpenThread], [FileSaveThread];
    - [TowerBuilder/table_models.py]: [WiresTable], [TowerModel].

    Python exceptions are values of [exn] carried by the [result] monad
    (a call that raises is not followed further: what it had written before
    raising is not kept),
    Python lists are [list]s indexed the way Python indexes them (negative
    indices count from the end), objects are finite maps from attribute
    names to values, and numpy arrays that the code mutates in place live in
    an explicit heap so that aliasing is visible. *)

From Stdlib Require Import ZArith QArith Lia.
From stdpp Require Import base option list strings pretty gmap.

Local Open Scope string_scope.
Local Open Scope list_scope.
Local Open Scope Z_scope.

(** ** Python results and exceptions *)

Inductive exn : Type :=
| IndexError
| KeyError
| AttributeError
| TypeError
| ValueError
| SystemError.

Inductive result (A : Type) : Type :=
| Ok (a : A)
| Raise (e : exn).

Arguments Ok {A} a.
Arguments Raise {A} e.

#[global] Instance result_ret : MRet result := fun _ a => Ok a.

#[global] Instance result_bind : MBind result := fun _ _ f r =>
  match r with
  | Ok a => f a
  | Raise e => Raise e
  end.

#[global] Instance result_fmap : FMap result := fun _ _ f r =>
  match r with
  | Ok a => Ok (f a)
  | Raise e => Raise e
  end.

Definition of_option {A} (e : exn) (o : option A) : result A :=
  match o with
  | Some a => Ok a
  | None => Raise e
  end.

(** ** Python sequences *)

Module Py.

(** [l[i]] resolves a negative [i] against the length and raises
    [IndexError] outside [-len, len). *)
Definition index (n : nat) (i : Z) : result nat :=
  if (0 <=? i) && (i <? Z.of_nat n) then Ok (Z.to_nat i)
  else if (- Z.of_nat n <=? i) && (i <? 0) then Ok (Z.to_nat (Z.of_nat n + i))
  else Raise IndexError.

Definition getitem {A} (l : list A) (i : Z) : result A :=
  k ← index (length l) i; of_option IndexError (l !! k).

Definition setitem {A} (l : list A) (i : Z) (x : A) : result (list A) :=
  k ← index (length l) i; Ok (<[k:=x]> l).

(** [l.pop()] *)
Definition pop {A} (l : list A) : result (A * list A) :=
  match last l with
  | Some x => Ok (x, removelast l)
  | None => Raise IndexError
  end.

(** [l.pop(0)] *)
Definition pop0 {A} (l : list A) : result (A * list A) :=
  match l with
  | x :: l' => Ok (x, l')
  | [] => Raise IndexError
  end.

(** [x in l] for integer lists *)
Definition mem_Z (x : Z) (l : list Z) : bool := bool_decide (x ∈ l).

Definition mem_str (x : string) (l : list string) : bool := bool_decide (x ∈ l).

(** [sep.join(l)] *)
Fixpoint join (sep : string) (l : list string) : string :=
  match l with
  | [] => ""
  | [x] => x
  | x :: l' => x +:+ sep +:+ join sep l'
  end.

(** A dict whose keys are integers, in insertion order. *)
Fixpoint dict_set {V} (d : list (Z * V)) (k : Z) (v : V) : list (Z * V) :=
  match d with
  | [] => [(k, v)]
  | (k', v') :: d' => if Z.eqb k k' then (k, v) :: d' else (k', v') :: dict_set d' k v
  end.

End Py.

(** Monadic left fold: a Python [for] loop whose body may raise. *)
Fixpoint foldM {A B} (f : A -> B -> result A) (l : list B) (a : A) : result A :=
  match l with
  | [] => Ok a
  | b :: l' => a' ← f a b; foldM f l' a'
  end.

(** ** [ObjectHistory] *)

Module ObjectHistory.

Section History.

(** The payload of a state: the dict [{column index -> profile array}]. *)
Context {D : Type}.

Record t : Type := mk {
  max_undo_states : Z;
  position : Z;
  undo_stack : list (string * D);
  redo_stack : list (string * D)
}.

Definition init (max_undo_states : Z) : t :=
  {| max_undo_states := max_undo_states;
     position := 0;
     undo_stack := [];
     redo_stack := [] |}.

Definition add_state (h : t) (action_name : string) (data : D) : result t :=
  us ← (if max_undo_states h + 1 <? Z.of_nat (length (undo_stack h))
        then '(_, us) ← Py.pop0 (undo_stack h); Ok us
        else Ok (undo_stack h));
  let us' := us ++ [(action_name, data)] in
  Ok {| max_undo_states := max_undo_states h;
        position := Z.of_nat (length us') - 1;
        undo_stack := us';
        redo_stack := redo_stack h |}.

Definition redo (h : t) : result ((string * D) * t) :=
  '(val, rs) ← Py.pop (redo_stack h);
  Ok (val, {| max_undo_states := max_undo_states h;
              position := position h;
              undo_stack := undo_stack h ++ [val];
              redo_stack := rs |}).

Definition undo (h : t) : result ((string * D) * t) :=
  '(val, us) ← Py.pop (undo_stack h);
  Ok (val, {| max_undo_states := max_undo_states h;
              position := position h;
              undo_stack := us;
              redo_stack := redo_stack h ++ [val] |}).

Definition can_redo (h : t) : bool := 0 <? Z.of_nat (length (redo_stack h)).

Definition can_undo (h : t) : bool := 0 <? Z.of_nat (length (undo_stack h)).

(** A sequence of [add_state] calls. *)
Definition add_states (h : t) (l : list (string * D)) : result t :=
  foldM (fun h '(a, d) => add_state h a d) l h.

End History.

Arguments t D : clear implicits.

End ObjectHistory.

(** ** Qt model indices and roles *)

Record QModelIndex : Type := mkIndex {
  row : Z;
  column : Z;
  isValid : bool
}.

Inductive ItemDataRole : Type :=
| DisplayRole
| EditRole
| ToolTipRole
| BackgroundRole.

#[global] Instance ItemDataRole_eq_dec : EqDecision ItemDataRole.
Proof. solve_decision. Defined.

(** ** [ProfilesModel] *)

Module ProfilesModel.

Section Profiles.

(** The values held by the cells of a profile array. *)
Context {V : Type}.

(** numpy arrays are mutated in place and shared between the elements
    and the history, so they live in a heap and are named by address. *)
Definition addr : Type := nat.

Definition deref (hp : list (list V)) (a : addr) : result (list V) :=
  of_option SystemError (hp !! a).

(** [array.copy()] *)
Definition copy (hp : list (list V)) (arr : list V) : list (list V) * addr :=
  (hp ++ [arr], length hp).

(** A device of the circuit: the table from magnitude to the name of
    the attribute that holds its profile, and its array attributes. *)
Record element : Type := mkElement {
  name : string;
  properties_with_profile : gmap string string;
  attrs : gmap string addr
}.

Record t : Type := mk {
  magnitude : string;
  non_editable_indices : list Z;
  r : Z;
  c : Z;
  elements : list element;
  history : ObjectHistory.t (list (Z * addr));
  heap : list (list V)
}.

Definition rowCount (m : t) : Z := r m.

Definition columnCount (m : t) : Z := c m.

(** [getattr(self.elements[col], self.elements[col].properties_with_profile[self.magnitude])] *)
Definition profile_ref (m : t) (col : Z) : result addr :=
  e ← Py.getitem (elements m) col;
  profile_property ← of_option KeyError (properties_with_profile e !! magnitude m);
  of_option AttributeError (attrs e !! profile_property).

(** The array [data] reads its cells from. *)
Definition profile_array (m : t) (col : Z) : result (list V) :=
  a ← profile_ref m col; deref (heap m) a.

Definition add_state (m : t) (columns : list Z) (action_name : string) : result t :=
  '(hp, data) ← foldM (fun '(hp, data) col =>
                       a ← profile_ref m col;
                       arr ← deref hp a;
                       let '(hp', a') := copy hp arr in
                       Ok (hp', Py.dict_set data col a'))
  columns (heap m, []);
  h ← ObjectHistory.add_state (history m) action_name data;
  Ok {| magnitude := magnitude m;
        non_editable_indices := non_editable_indices m;
        r := r m; c := c m;
        elements := elements m;
        history := h;
        heap := hp |}.

(** [range(n)] *)
Definition range (n : Z) : list Z := Z.of_nat <$> seq 0 (Z.to_nat n).

Definition init (time_profile_len : nat) (elms : list element) (hp : list (list V))
  (magn : string) (max_undo_states : Z) : result t :=
  let m := {| magnitude := magn;
              non_editable_indices := [];
              r := Z.of_nat time_profile_len;
              c := Z.of_nat (length elms);
              elements := elms;
              history := ObjectHistory.init max_undo_states;
              heap := hp |} in
  add_state m (range (columnCount m)) "initial".

Definition setData (m : t) (index : QModelIndex) (value : V) : result (bool * t) :=
  let ci := column index in
  let ri := row index in
  if negb (Py.mem_Z ci (non_editable_indices m)) then
    a ← profile_ref m ci;
    arr ← deref (heap m) a;
    arr' ← Py.setitem arr ri value;
    m' ← add_state {| magnitude := magnitude m;
                      non_editable_indices := non_editable_indices m;
                      r := r m; c := c m;
                      elements := elements m;
                      history := history m;
                      heap := <[a:=arr']> (heap m) |} [ci] "";
    Ok (true, m')
  else Ok (true, m).

(** [setattr(self.elements[col], profile_property, array)] for every
    item of the dict, in insertion order. *)
Definition restore (m : t) (data : list (Z * addr)) : result t :=
  elms ← foldM (fun elms '(col, array) =>
                k ← Py.index (length elms) col;
                e ← of_option IndexError (elms !! k);
                profile_property ← of_option KeyError
                (properties_with_profile e !! magnitude m);
                Ok (<[k:={| name := name e;
                            properties_with_profile := properties_with_profile e;
                            attrs := <[profile_property:=array]> (attrs e) |}]> elms))
  data (elements m);
  Ok {| magnitude := magnitude m;
        non_editable_indices := non_editable_indices m;
        r := r m; c := c m;
        elements := elms;
        history := history m;
        heap := heap m |}.

Definition undo (m : t) : result t :=
  if ObjectHistory.can_undo (history m) then
    '((action, data), h) ← ObjectHistory.undo (history m);
    restore {| magnitude := magnitude m;
               non_editable_indices := non_editable_indices m;
               r := r m; c := c m;
               elements := elements m;
               history := h;
               heap := heap m |} data
  else Ok m.

Definition redo (m : t) : result t :=
  if ObjectHistory.can_redo (history m) then
    '((action, data), h) ← ObjectHistory.redo (history m);
    restore {| magnitude := magnitude m;
               non_editable_indices := non_editable_indices m;
               r := r m; c := c m;
               elements := elements m;
               history := h;
               heap := heap m |} data
  else Ok m.

End Profiles.

Arguments t V : clear implicits.

End ProfilesModel.

(** ** Python values *)

(** Floats are compared, never computed with, by the code modelled here:
    a float is a rational, an infinity or a NaN, and its comparisons are
    those of IEEE 754 (every comparison with a NaN is false, [!=] true). *)
Inductive pyfloat : Type :=
| FNan
| FInf (negative : bool)
| FFin (q : Q).

Inductive pyval : Type :=
| VNone
| VBool (b : bool)
| VInt (z : Z)
| VFloat (f : pyfloat)
| VComplex (re im : pyfloat)
| VStr (s : string).

Module PyVal.

(** [f != 0], [f < n] and [f > n] on floats, [n] an integer *)
Definition float_ne_zero (f : pyfloat) : bool :=
  match f with
  | FFin q => negb (Qeq_bool q 0)
  | _ => true
  end.

Definition float_lt (f : pyfloat) (n : Z) : bool :=
  match f with
  | FNan => false
  | FInf negative => negative
  | FFin q => negb (Qle_bool (inject_Z n) q)
  end.

Definition float_gt (f : pyfloat) (n : Z) : bool :=
  match f with
  | FNan => false
  | FInf negative => negb negative
  | FFin q => negb (Qle_bool q (inject_Z n))
  end.

(** [val != 0] *)
Definition ne_zero (v : pyval) : bool :=
  match v with
  | VNone => true
  | VBool b => b
  | VInt z => negb (z =? 0)
  | VFloat f => float_ne_zero f
  | VComplex re im => float_ne_zero re || float_ne_zero im
  | VStr _ => true
  end.

(** [val < n] and [val > n] against an integer literal; ordering
    comparisons of [None], [str] and [complex] with an [int] raise. *)
Definition lt (v : pyval) (n : Z) : result bool :=
  match v with
  | VBool b => Ok ((if b then 1 else 0) <? n)
  | VInt z => Ok (z <? n)
  | VFloat f => Ok (float_lt f n)
  | _ => Raise TypeError
  end.

Definition gt (v : pyval) (n : Z) : result bool :=
  match v with
  | VBool b => Ok (n <? (if b then 1 else 0))
  | VInt z => Ok (n <? z)
  | VFloat f => Ok (float_gt f n)
  | _ => Raise TypeError
  end.

(** [a == b] on floats and on values (numbers compare by value across
    [bool], [int], [float] and [complex]). *)
Definition float_eqb (a b : pyfloat) : bool :=
  match a, b with
  | FFin p, FFin q => Qeq_bool p q
  | FInf n1, FInf n2 => Bool.eqb n1 n2
  | _, _ => false
  end.

Definition as_complex (v : pyval) : option (pyfloat * pyfloat) :=
  match v with
  | VBool b => Some (FFin (inject_Z (if b then 1 else 0)), FFin 0)
  | VInt z => Some (FFin (inject_Z z), FFin 0)
  | VFloat f => Some (f, FFin 0)
  | VComplex re im => Some (re, im)
  | _ => None
  end.

Definition eqb (a b : pyval) : bool :=
  match a, b with
  | VNone, VNone => true
  | VStr s, VStr t => String.eqb s t
  | _, _ =>
      match as_complex a, as_complex b with
      | Some (r1, i1), Some (r2, i2) => float_eqb r1 r2 && float_eqb i1 i2
      | _, _ => false
      end
  end.

(** In the words of the specification: a number, and a number equal to
    zero (a zero real number, or a complex number whose real and
    imaginary parts are zero). *)
Definition is_number (v : pyval) : bool :=
  match v with
  | VBool _ | VInt _ | VFloat _ | VComplex _ _ => true
  | VNone | VStr _ => false
  end.


Definition float_is_zero (f : pyfloat) : bool :=
  match f with
  | FFin q => Qeq_bool q 0
  | _ => false
  end.

Definition is_zero (v : pyval) : bool :=
  match v with
  | VBool b => negb b
  | VInt z => z =? 0
  | VFloat f => float_is_zero f
  | VComplex re im => float_is_zero re && float_is_zero im
  | VNone | VStr _ => false
  end.


End PyVal.

(** A Python object: its attributes by name. *)
Abbreviation pyobj := (gmap string pyval).

Definition getattr (o : pyobj) (attr : string) : result pyval :=
  of_option AttributeError (o !! attr).

Definition setattr (o : pyobj) (attr : string) (v : pyval) : pyobj :=
  <[attr:=v]> o.

(** ** numpy arrays of two dimensions *)

Record ndarray (A : Type) : Type := mkArray {
  shape : Z * Z;
  cells : list (list A)
}.

Arguments mkArray {A} shape cells.
Arguments shape {A} n.
Arguments cells {A} n.

Module Np.

(** [data[r, :]] *)
Definition getrow {A} (data : ndarray A) (r : Z) : result (list A) :=
  Py.getitem (cells data) r.

(** [data[r, c]] *)
Definition getitem {A} (data : ndarray A) (r c : Z) : result A :=
  line ← getrow data r; Py.getitem line c.

(** [data[r, c] = x] *)
Definition setitem {A} (data : ndarray A) (r c : Z) (x : A) : result (ndarray A) :=
  k ← Py.index (length (cells data)) r;
  line ← of_option IndexError (cells data !! k);
  line' ← Py.setitem line c x;
  Ok (mkArray (shape data) (<[k:=line']> (cells data))).

(** [data[:, col] = x] *)
Definition setcol {A} (data : ndarray A) (c : Z) (x : A) : result (ndarray A) :=
  rows ← foldM (fun acc line => line' ← Py.setitem line c x; Ok (acc ++ [line']))
  (cells data) [];
  Ok (mkArray (shape data) rows).

(** An array is well formed when its rows agree with its shape. *)
Definition wf {A} (data : ndarray A) : Prop :=
  Z.of_nat (length (cells data)) = (shape data).1 /\
  Forall (fun line => Z.of_nat (length line) = (shape data).2) (cells data).

End Np.

(** The element type of an array, as far as the export code uses it:
    the sum of a row, its comparison with [0.0], and [str]. *)
Class Dtype (A : Type) : Type := {
  np_sum : list A -> A;
  np_ne_zero : A -> bool;
  np_str : A -> string
}.

(** ** [Session/results_model.py] *)

(** The characters written ['\t'] and ['\n'] in the source. *)
Definition TAB : string := String (Ascii.ascii_of_nat 9) EmptyString.

Definition NL : string := String (Ascii.ascii_of_nat 10) EmptyString.

Section TextExport.

(** Cells and index labels; [str_index] is [str] on an index label. *)
Context {A : Type} `{Dtype A} {I : Type} (str_index : I -> string).

(** [enumerate(index)] *)
Definition enumerate (index : list I) : list (Z * I) :=
  zip (Z.of_nat <$> seq 0 (length index)) index.

Definition fast_data_to_text (data : ndarray A) (columns : list string)
  (index : list I) : result string :=
  (* header first *)
  let txt := TAB +:+ Py.join TAB columns +:+ NL in
  (* data *)
  foldM (fun txt '(t, index_value) =>
         line ← Np.getrow data t;
         if np_ne_zero (np_sum line)
         then Ok (txt +:+ str_index index_value +:+ TAB
                  +:+ Py.join TAB (np_str <$> line) +:+ NL)
         else Ok txt)
  (enumerate index) txt.

End TextExport.

(** What [fast_data_to_numpy_text] tells apart in its argument: an array
    of one dimension, of two, or of any other number of dimensions. *)
Inductive np_data (A : Type) : Type :=
| Arr1 (l : list A)
| Arr2 (d : ndarray A)
| ArrN.

Arguments Arr1 {A} l.
Arguments Arr2 {A} d.
Arguments ArrN {A}.

Section NumpyText.

(** [fmt] is ['{0:.6f}'.format] on a cell. *)
Context {A : Type} (fmt : A -> string).

(** [data[:, 0]]: numpy checks the column against the shape, also on an
    array without rows. *)
Definition first_column (d : ndarray A) : result (list A) :=
  if 0 <? (shape d).2 then
    foldM (fun acc line => x ← Py.getitem line 0; Ok (acc ++ [x])) (cells d) []
  else Raise IndexError.

Definition fast_data_to_numpy_text (data : np_data A) : result string :=
  match data with
  | Arr1 l => Ok ("[" +:+ Py.join ", " (fmt <$> l) +:+ "]")
  | Arr2 d =>
      if 1 <? (shape d).2 then
        (* header first *)
        let txt := "[" in
        (* data *)
        txt ← foldM (fun (txt : string) t =>
                     line ← Np.getrow d t;
                     Ok (txt +:+ "[" +:+ Py.join ", " (fmt <$> line) +:+ "]," +:+ NL))
        (ProfilesModel.range (shape d).1) txt;
        Ok (txt +:+ "]")
      else
        l ← first_column d;
        Ok ("[" +:+ Py.join ", " (fmt <$> l) +:+ "]")
  | ArrN => Ok "[]"
  end.

End NumpyText.


(** *** The exported text, line by line

    These follow the words of the specification and not the code: a text
    is a sequence of rows, each ended by a newline; the header row is an
    empty corner cell and the column names; a data row is the index value
    and the cell values of the row, all joined by tabs. *)

Definition text_of_rows (rows : list string) : string :=
  foldr (fun line txt => line +:+ NL +:+ txt) "" rows.


Definition data_row {I : Type} (str_index : I -> string) (index_value : I)
  (line : list string) : string :=
  str_index index_value +:+ TAB +:+ Py.join TAB line.

Section ExportedRows.

Context {A : Type} `{Dtype A} {I : Type} (str_index : I -> string).



End ExportedRows.

(** A row passes a test that may raise when the test returns [True]. *)
Definition passes {B : Type} (test : B -> result bool) (x : B) : bool :=
  match test x with
  | Ok b => b
  | Raise _ => false
  end.

(** The system clipboard holds a text. *)
Definition clipboard : Type := string.

Module ResultsModel.

(** The [ResultsTable] of the engine, as far as the model reads it:
    its attributes, and what its [get_data] method returns. *)
Record ResultsTable (A I : Type) : Type := mkTable {
  data_c : ndarray A;
  cols_c : list string;
  index_c : list I;
  editable : bool;
  editable_min_idx : Z;
  r : Z;
  c : Z;
  format_string : string;
  get_data : list I * list string * ndarray A
}.

Arguments data_c {A I} _.
Arguments cols_c {A I} _.
Arguments index_c {A I} _.
Arguments editable {A I} _.
Arguments editable_min_idx {A I} _.
Arguments r {A I} _.
Arguments c {A I} _.
Arguments format_string {A I} _.
Arguments get_data {A I} _.

Section Model.

Context {A I : Type}.

(** [val.__format__(format_string)] belongs to Python. *)
Context (format : string -> pyval -> result string).

Definition rowCount (table : ResultsTable A I) : Z := r table.

Definition columnCount (table : ResultsTable A I) : Z := c table.

Definition data (table : ResultsTable pyval I) (index : QModelIndex)
  (role : ItemDataRole) : result (option string) :=
  if isValid index then
    val ← Np.getitem (data_c table) (row index) (column index);
    match role with
    | DisplayRole =>
        match val with
        | VStr s => Ok (Some s)
        | VComplex re im =>
            if PyVal.float_ne_zero re || PyVal.float_ne_zero im
            then Some <$> format (format_string table) val
            else Ok (Some "0")
        | _ =>
            if PyVal.ne_zero val
            then Some <$> format (format_string table) val
            else Ok (Some "0")
        end
    | BackgroundRole => Ok None
    | _ => Ok None
    end
  else Ok None.

Context `{Dtype A} (str_index : I -> string).

Definition copy_to_clipboard (table : ResultsTable A I) (cb : clipboard)
  : result clipboard :=
  let n := Z.of_nat (length (cols_c table)) in
  if 0 <? n then
    let '(index, columns, data) := get_data table in
    txt ← fast_data_to_text str_index data columns index;
    (* copy to clipboard *)
    Ok txt
  else
    (* there are no elements *)
    Ok cb.

End Model.

End ResultsModel.

(** ** [PandasModel] *)

Module PandasModel.

(** A column label of the data frame: a string or a [ResultTypes]
    member, of which the export takes the [name]. *)
Inductive label : Type :=
| LStr (s : string)
| LResultType (name : string).

Record DataFrame (I : Type) : Type := mkFrame {
  values : ndarray pyval;
  columns : list label;
  index : list I
}.

Arguments values {I} _.
Arguments columns {I} _.
Arguments index {I} _.

Record t (I : Type) : Type := mk {
  data_c : ndarray pyval;
  cols_c : list label;
  index_c : list I;
  editable : bool;
  editable_min_idx : Z;
  r : Z;
  c : Z;
  isDate : bool;
  format_string : string
}.

Arguments data_c {I} _.
Arguments cols_c {I} _.
Arguments index_c {I} _.
Arguments editable {I} _.
Arguments editable_min_idx {I} _.
Arguments r {I} _.
Arguments c {I} _.
Arguments isDate {I} _.
Arguments format_string {I} _.

Inductive mode : Type := mode_real | mode_imag | mode_abs | mode_None.

Section Model.

Context {I : Type}.

(** What belongs to Python, numpy and pandas: [isinstance(x,
    np.datetime64)], [pd.to_datetime], [val.__format__], the [dtype]
    test, [np.abs], [str] on cells and labels, and the comparison
    [row.sum() != 0.0] on a row of strings. *)
Context (is_datetime64 : I -> bool)
        (to_datetime : list I -> list I)
        (format : string -> pyval -> result string)
        (dtype_is_complex : ndarray pyval -> bool)
        (np_abs : pyval -> pyval)
        (str_cell : pyval -> string)
        (str_index : I -> string)
        (str_sum_ne_zero : list string -> result bool).

(** A data frame has one index label per row, so [index_c[0]] exists
    whenever there is a row. *)
Definition init (data : DataFrame I) (editable : bool) (editable_min_idx : Z)
  (decimals : Z) : t I :=
  let data_c := values data in
  let index_c := index data in
  let '(r, c) := shape data_c in
  let dated := (0 <? r) && (0 <? c) &&
               match index_c with
               | i0 :: _ => is_datetime64 i0
               | [] => false
               end in
  {| data_c := data_c;
     cols_c := columns data;
     index_c := if dated then to_datetime index_c else index_c;
     editable := editable;
     editable_min_idx := editable_min_idx;
     r := r;
     c := c;
     isDate := dated;
     format_string := "." +:+ pretty decimals +:+ "f" |}.

Definition rowCount (m : t I) : Z := r m.

Definition columnCount (m : t I) : Z := c m.

Definition data (m : t I) (index : QModelIndex) (role : ItemDataRole)
  : result (option string) :=
  if isValid index && bool_decide (role = DisplayRole) then
    val ← Np.getitem (data_c m) (row index) (column index);
    match val with
    | VStr s => Ok (Some s)
    | VComplex re im =>
        if PyVal.float_ne_zero re || PyVal.float_ne_zero im
        then Some <$> format (format_string m) val
        else Ok (Some "0")
    | _ =>
        if PyVal.ne_zero val
        then Some <$> format (format_string m) val
        else Ok (Some "0")
    end
  else Ok None.

Definition with_data (m : t I) (d : ndarray pyval) : t I :=
  {| data_c := d;
     cols_c := cols_c m;
     index_c := index_c m;
     editable := editable m;
     editable_min_idx := editable_min_idx m;
     r := r m;
     c := c m;
     isDate := isDate m;
     format_string := format_string m |}.

Definition setData (m : t I) (index : QModelIndex) (value : pyval) : result (t I) :=
  d ← Np.setitem (data_c m) (row index) (column index) value;
  Ok (with_data m d).

Definition copy_to_column (m : t I) (row col : Z) : result (t I) :=
  x ← Np.getitem (data_c m) row col;
  d ← Np.setcol (data_c m) col x;
  Ok (with_data m d).

(** A sequence of [setData] calls. *)
Definition edits (m : t I) (l : list (QModelIndex * pyval)) : result (t I) :=
  foldM (fun m '(index, value) => setData m index value) l m.

(** [[val.name for val in names]] *)
Definition names_of (cols : list label) : result (list label) :=
  foldM (fun acc val =>
         match val with
         | LResultType name => Ok (acc ++ [LStr name])
         | LStr _ => Raise AttributeError
         end) cols [].

Definition real (v : pyval) : pyval :=
  match v with
  | VComplex re _ => VFloat re
  | _ => v
  end.

Definition imag (v : pyval) : pyval :=
  match v with
  | VComplex _ im => VFloat im
  | _ => VFloat (FFin 0)
  end.

Definition map_cells (f : pyval -> pyval) (d : ndarray pyval) : ndarray pyval :=
  mkArray (shape d) ((fun line : list pyval => f <$> line) <$> cells d).

Definition get_data (m : t I) (md : mode)
  : result (list I * list label * ndarray pyval) :=
  let n := Z.of_nat (length (cols_c m)) in
  if 0 <? n then
    (* gather values *)
    names ← match cols_c m with
            | LResultType _ :: _ => names_of (cols_c m)
            | _ => Ok (cols_c m)
            end;
    let values :=
    if dtype_is_complex (data_c m) then
      match md with
      | mode_real => map_cells real (data_c m)
      | mode_imag => map_cells imag (data_c m)
      | mode_abs => map_cells np_abs (data_c m)
      | mode_None => map_cells np_abs (data_c m)
      end
    else data_c m in
    Ok (index_c m, names, values)
  else
    (* there are no elements *)
    Ok ([], [], mkArray (0, 0) []).

(** ['\t'.join(columns)] raises when an item is not a string. *)
Definition join_labels (cols : list label) : result string :=
  strs ← foldM (fun acc val =>
                match val with
                | LStr s => Ok (acc ++ [s])
                | LResultType _ => Raise TypeError
                end) cols [];
  Ok (Py.join TAB strs).

Definition copy_to_clipboard (m : t I) (md : mode) (cb : clipboard)
  : result clipboard :=
  let n := Z.of_nat (length (cols_c m)) in
  if 0 <? n then
    '(index, columns, data) ← get_data m md;
    let data := mkArray (shape data)
    ((fun line : list pyval => str_cell <$> line) <$> cells data) in
    (* header first *)
    header ← join_labels columns;
    let txt := TAB +:+ header +:+ NL in
    (* data *)
    txt ← foldM (fun (txt : string) '((t, index_value) : Z * I) =>
                 line ← Np.getrow (A := string) data t;
                 nonzero ← str_sum_ne_zero line;
                 if (nonzero : bool)
                 then Ok (txt +:+ str_index index_value +:+ TAB
                          +:+ Py.join TAB line +:+ NL)
                 else Ok txt)
    (enumerate index) txt;
    (* copy to clipboard *)
    Ok txt
  else
    (* there are no elements *)
    Ok cb.

End Model.

End PandasModel.

(** ** [ObjectsModel] *)

Module ObjectsModel.

(** The declared type of an attribute, as far as the model tells the
    types apart. *)
Inductive tpe : Type :=
| tpe_bool
| tpe_BranchTemplate
| tpe_str
| tpe_float
| tpe_complex
| tpe_None
| tpe_Bus
| tpe_BranchType
| tpe_EnumMeta
| tpe_DeviceType (value : string)
| tpe_other.

#[global] Instance tpe_eq_dec : EqDecision tpe.
Proof. solve_decision. Defined.

(** The entries of [editable_headers]. *)
Record GCProp : Type := mkProp {
  units : string;
  tpe_of : tpe;
  definition : string
}.

Record t : Type := mk {
  attributes : list string;
  attribute_types : list tpe;
  attribute_units : list string;
  tips : list string;
  objects : list pyobj;
  editable : bool;
  non_editable_attributes : list string;
  check_unique : list string;
  r : Z;
  c : Z;
  transposed : bool;
  dictionary_of_lists : gmap string (list pyobj)
}.

Definition with_objects (m : t) (objs : list pyobj) : t :=
  {| attributes := attributes m;
     attribute_types := attribute_types m;
     attribute_units := attribute_units m;
     tips := tips m;
     objects := objs;
     editable := editable m;
     non_editable_attributes := non_editable_attributes m;
     check_unique := check_unique m;
     r := r m;
     c := c m;
     transposed := transposed m;
     dictionary_of_lists := dictionary_of_lists m |}.

Definition with_non_editable (m : t) (l : list string) : t :=
  {| attributes := attributes m;
     attribute_types := attribute_types m;
     attribute_units := attribute_units m;
     tips := tips m;
     objects := objects m;
     editable := editable m;
     non_editable_attributes := l;
     check_unique := check_unique m;
     r := r m;
     c := c m;
     transposed := transposed m;
     dictionary_of_lists := dictionary_of_lists m |}.

(** The delegates installed on the view are not part of the state; what
    [set_delegates] does to the model is to extend
    [non_editable_attributes], and to read [dictionary_of_lists]. *)
Definition set_delegates (m : t) : result t :=
  foldM (fun m i =>
         tpe ← Py.getitem (attribute_types m) i;
         match tpe with
         | tpe_bool | tpe_BranchTemplate | tpe_str | tpe_float | tpe_complex => Ok m
         | tpe_None =>
             if Z.of_nat (length (non_editable_attributes m)) =? 0 then
               attr ← Py.getitem (attributes m) i;
               Ok (with_non_editable m (non_editable_attributes m ++ [attr]))
             else Ok m
         | tpe_EnumMeta | tpe_BranchType => Ok m
         | tpe_DeviceType value =>
             _ ← of_option KeyError (dictionary_of_lists m !! value);
             Ok m
         | tpe_Bus | tpe_other => Ok m
         end)
  (ProfilesModel.range (c m)) m.

Definition init (objects : list pyobj) (editable_headers : list (string * GCProp))
  (editable : bool) (non_editable_attributes : list string) (transposed : bool)
  (check_unique : list string) (dictionary_of_lists : gmap string (list pyobj))
  : result t :=
  let attributes := fst <$> editable_headers in
  set_delegates
  {| attributes := attributes;
     attribute_types := (fun kv => tpe_of kv.2) <$> editable_headers;
     attribute_units := (fun kv => units kv.2) <$> editable_headers;
     tips := (fun kv => definition kv.2) <$> editable_headers;
     objects := objects;
     editable := editable;
     non_editable_attributes := non_editable_attributes;
     check_unique := check_unique;
     r := Z.of_nat (length objects);
     c := Z.of_nat (length attributes);
     transposed := transposed;
     dictionary_of_lists := dictionary_of_lists |}.

(** What no method of the model changes: the counts taken by the
    constructor, the attributes, the orientation and the number of objects. *)
Definition frame (m0 m : t) : Prop :=
  r m = r m0 /\
  c m = c m0 /\
  transposed m = transposed m0 /\
  attributes m = attributes m0 /\
  length (objects m) = length (objects m0).

Definition rowCount (m : t) : Z := if transposed m then c m else r m.

Definition columnCount (m : t) : Z := if transposed m then r m else c m.

(** The object and the attribute an index addresses. *)
Definition obj_idx (m : t) (index : QModelIndex) : Z :=
  if transposed m then column index else row index.

Definition attr_idx (m : t) (index : QModelIndex) : Z :=
  if transposed m then row index else column index.


Fixpoint taken_in (objs : list pyobj) (attr : string) (val : pyval) : result bool :=
  match objs with
  | [] => Ok false
  | obj :: objs' =>
      v ← getattr obj attr;
      if PyVal.eqb val v then Ok true else taken_in objs' attr val
  end.

Definition attr_taken (m : t) (attr : string) (val : pyval) : result bool :=
  taken_in (objects m) attr val.

Section SetData.

(** [BranchType(value)] and [graphic_obj.update_symbol()] belong to the
    engine and to the schematic. *)
Context (BranchType : pyval -> result pyval)
        (update_symbol : pyobj -> result unit).

Definition setData (m : t) (index : QModelIndex) (value : pyval) : result (bool * t) :=
  let obj_idx := obj_idx m index in
  let attr_idx := attr_idx m index in
  tpe ← Py.getitem (attribute_types m) attr_idx;
  (* check taken values *)
  attr ← Py.getitem (attributes m) attr_idx;
  taken ← (if Py.mem_str attr (check_unique m)
           then attr_taken m attr value
           else Ok false);
  if negb taken then
    if negb (Py.mem_str attr (non_editable_attributes m)) then
      if bool_decide (tpe = tpe_BranchType) then
        k ← Py.index (length (objects m)) obj_idx;
        obj ← of_option IndexError (objects m !! k);
        v ← BranchType value;
        let obj' := setattr obj attr v in
        _ ← update_symbol obj';
        Ok (true, with_objects m (<[k:=obj']> (objects m)))
      else
        k ← Py.index (length (objects m)) obj_idx;
        obj ← of_option IndexError (objects m !! k);
        Ok (true, with_objects m (<[k:=setattr obj attr value]> (objects m)))
    else Ok (true, m) (* the column cannot be edited *)
  else Ok (true, m).

(** A sequence of [setData] calls. *)
Definition edits (m : t) (l : list (QModelIndex * pyval)) : result t :=
  foldM (fun m '(index, value) => '(_, m') ← setData m index value; Ok m') l m.

End SetData.

(** The attributes declared with the type [None], in the order of the
    headers; for stating what [set_delegates] appends. *)
Definition none_typed (editable_headers : list (string * GCProp)) : list string :=
  (List.filter (fun kv => bool_decide (tpe_of kv.2 = tpe_None)) editable_headers).*1.

(** The list the constructor leaves in [non_editable_attributes],
    as the theorems state it: the list it was given or, when that is
    empty, the first attribute of type [None] alone. *)
Definition non_editable_after (non_editable_attributes : list string)
  (editable_headers : list (string * GCProp)) : list string :=
  match non_editable_attributes with
  | [] => take 1 (none_typed editable_headers)
  | _ => non_editable_attributes
  end.

Section Display.

(** [BranchType(value)] and the [name] of the bus an attribute holds
    belong to the engine. *)
Context (BranchType : pyval -> result pyval)
        (name_of : pyval -> result pyval).

Definition data_with_type (m : t) (index : QModelIndex) : result pyval :=
  let obj_idx := obj_idx m index in
  let attr_idx := attr_idx m index in
  attr ← Py.getitem (attributes m) attr_idx;
  tpe ← Py.getitem (attribute_types m) attr_idx;
  match tpe with
  | tpe_Bus =>
      obj ← Py.getitem (objects m) obj_idx;
      v ← getattr obj attr;
      name_of v
  | tpe_BranchType =>
      obj ← Py.getitem (objects m) obj_idx;
      v ← getattr obj attr;
      BranchType v
  | _ =>
      obj ← Py.getitem (objects m) obj_idx;
      getattr obj attr
  end.

Definition copy_to_column (m : t) (index : QModelIndex) : result t :=
  value ← data_with_type m index;
  let col := column index in
  foldM (fun m row =>
         let obj_idx := if transposed m then col else row in
         let attr_idx := if transposed m then row else col in
         attr ← Py.getitem (attributes m) attr_idx;
         if negb (Py.mem_str attr (non_editable_attributes m)) then
           k ← Py.index (length (objects m)) obj_idx;
           obj ← of_option IndexError (objects m !! k);
           Ok (with_objects m (<[k:=setattr obj attr value]> (objects m)))
         else Ok m (* the column cannot be edited *))
  (ProfilesModel.range (rowCount m)) m.

End Display.

(** The default [non_editable_attributes=list()] of the constructor is
    one list, made when the class is defined and shared by every call
    that leaves the argument out; the model keeps that very list, so what
    [set_delegates] appends to it stays in the default. The constructor
    called without the argument, given the default as it stands, returns
    the model and the default as it is afterwards. *)
Definition init_default (default : list string) (objects : list pyobj)
  (editable_headers : list (string * GCProp)) (editable : bool) (transposed : bool)
  (check_unique : list string) (dictionary_of_lists : gmap string (list pyobj))
  : result (t * list string) :=
  m ← init objects editable_headers editable default transposed check_unique
  dictionary_of_lists;
  Ok (m, non_editable_attributes m).

(** A header whose type is one of the four device types without its
    list in [dictionary_of_lists]; for stating when the constructor
    fails. *)
Definition lacks_list (dictionary_of_lists : gmap string (list pyobj))
  (kv : string * GCProp) : bool :=
  match tpe_of kv.2 with
  | tpe_DeviceType value => bool_decide (dictionary_of_lists !! value = None)
  | _ => false
  end.


End ObjectsModel.

(** ** [TowerBuilder/table_models.py] *)

(** The callables held by the [converter] tables. *)
Inductive converter : Type :=
| conv_str
| conv_float
| conv_int.

Section Converters.

(** [str(value)], [float(value)] and [int(value)] belong to Python. *)
Context (py_str : pyval -> string)
        (py_float : pyval -> result pyfloat)
        (py_int : pyval -> result Z).

Definition convert (conv : converter) (value : pyval) : result pyval :=
  match conv with
  | conv_str => Ok (VStr (py_str value))
  | conv_float => VFloat <$> py_float value
  | conv_int => VInt <$> py_int value
  end.

End Converters.

(** [wire.name == name], for stating what the loops over the wires
    find; an object without a name matches nothing. *)
Definition name_is (name : pyval) (wire : pyobj) : bool :=
  match wire !! "name" with
  | Some v => PyVal.eqb v name
  | None => false
  end.


Module WiresTable.

Record t : Type := mk {
  header : list string;
  index_prop : gmap Z string;
  converters : gmap Z converter;
  editable : list bool;
  wires : list pyobj
}.

Definition init : t :=
  {| header := ["Name"; "R (Ohm/km)"; "GMR (m)"];
     index_prop := {[ 0 := "name"; 1 := "r"; 2 := "gmr" ]};
     converters := {[ 0 := conv_str; 1 := conv_float; 2 := conv_float ]};
     editable := [true; true; true];
     wires := [] |}.

Definition with_wires (m : t) (ws : list pyobj) : t :=
  {| header := header m;
     index_prop := index_prop m;
     converters := converters m;
     editable := editable m;
     wires := ws |}.

Definition add (m : t) (wire : pyobj) : t := with_wires m (wires m ++ [wire]).

(** [self.wires.pop(index)] *)
Definition delete (m : t) (index : Z) : result t :=
  k ← Py.index (length (wires m)) index;
  Ok (with_wires m (take k (wires m) ++ drop (S k) (wires m))).

(** The loop runs from the last wire down to the first. *)
Definition is_used (m : t) (name : pyval) : result bool :=
  foldM (fun found wire =>
         if (found : bool) then Ok true
         else v ← getattr wire "name"; Ok (PyVal.eqb v name))
  (reverse (wires m)) false.

Definition rowCount (m : t) : Z := Z.of_nat (length (wires m)).

Definition columnCount (m : t) : Z := Z.of_nat (length (header m)).

Section SetData.

Context (py_str : pyval -> string)
        (py_float : pyval -> result pyfloat)
        (py_int : pyval -> result Z).

Definition setData (m : t) (index : QModelIndex) (value : pyval) : result (bool * t) :=
  ed ← Py.getitem (editable m) (column index);
  if (ed : bool) then
    k ← Py.index (length (wires m)) (row index);
    wire ← of_option IndexError (wires m !! k);
    attr ← of_option KeyError (index_prop m !! column index);
    if String.eqb attr "tower_name" then
      used ← is_used m value;
      if (used : bool) then Ok (true, m)
    else
      conv ← of_option KeyError (converters m !! column index);
      v ← convert py_str py_float py_int conv value;
      Ok (true, with_wires m (<[k:=setattr wire attr v]> (wires m)))
  else
    conv ← of_option KeyError (converters m !! column index);
    v ← convert py_str py_float py_int conv value;
    Ok (true, with_wires m (<[k:=setattr wire attr v]> (wires m)))
  else Ok (true, m).

End SetData.

End WiresTable.

Module TowerModel.

(** The [Tower] of the engine, as far as the model reads it. *)
Record Tower : Type := mkTower {
  wires_in_tower : list pyobj;
  header : list string;
  index_prop : gmap Z string;
  converters : gmap Z converter;
  editable_wire : list bool
}.

(** [callbacks] counts the calls of [edit_callback], which acts on the
    window and not on the tower. *)
Record t : Type := mk {
  tower : Tower;
  edit_callback : bool;
  callbacks : nat
}.

Definition with_wires (m : t) (ws : list pyobj) : t :=
  {| tower := {| wires_in_tower := ws;
                 header := header (tower m);
                 index_prop := index_prop (tower m);
                 converters := converters (tower m);
                 editable_wire := editable_wire (tower m) |};
     edit_callback := edit_callback m;
     callbacks := callbacks m |}.

Definition rowCount (m : t) : Z := Z.of_nat (length (wires_in_tower (tower m))).

Definition columnCount (m : t) : Z := Z.of_nat (length (header (tower m))).

Section SetData.

Context (py_str : pyval -> string)
        (py_float : pyval -> result pyfloat)
        (py_int : pyval -> result Z).

(** The [try] ... [except] around the conversion: a missing converter
    and a failed conversion both give [0]. *)
Definition converted (m : t) (col : Z) (value : pyval) : result pyval :=
  conv ← of_option KeyError (converters (tower m) !! col);
  convert py_str py_float py_int conv value.

Definition try_convert (m : t) (col : Z) (value : pyval) : pyval :=
  match converted m col value with
  | Ok val => val
  | Raise _ => VInt 0
  end.

(** [val < 0 or val > 3] *)
Definition out_of_range (val : pyval) : result bool :=
  below ← PyVal.lt val 0;
  if (below : bool) then Ok true else PyVal.gt val 3.

Definition setData (m : t) (index : QModelIndex) (value : pyval) : result (bool * t) :=
  ed ← Py.getitem (editable_wire (tower m)) (column index);
  if (ed : bool) then
    k ← Py.index (length (wires_in_tower (tower m))) (row index);
    wire ← of_option IndexError (wires_in_tower (tower m) !! k);
    attr ← of_option KeyError (index_prop (tower m) !! column index);
    let val := try_convert m (column index) value in
    (* correct the phase to the correct range *)
    val ← (if String.eqb attr "phase" then
      out ← out_of_range val;
      if (out : bool) then Ok (VInt 0) else Ok val
    else Ok val);
    let m' := with_wires m (<[k:=setattr wire attr val]> (wires_in_tower (tower m))) in
    if edit_callback m then
      Ok (true, {| tower := tower m';
                   edit_callback := edit_callback m';
                   callbacks := S (callbacks m') |})
    else Ok (true, m')
  else Ok (true, m).

End SetData.


(** [self.tower.wires_in_tower.append(wire)] *)
Definition add (m : t) (wire : pyobj) : t :=
  with_wires m (wires_in_tower (tower m) ++ [wire]).

(** [self.tower.wires_in_tower.pop(index)] *)
Definition delete (m : t) (index : Z) : result t :=
  k ← Py.index (length (wires_in_tower (tower m))) index;
  Ok (with_wires m (take k (wires_in_tower (tower m)) ++
                    drop (S k) (wires_in_tower (tower m)))).

(** [range(n - 1, -1, -1)] *)
Definition range_down (n : nat) : list Z := Z.of_nat <$> reverse (seq 0 n).

(** The length is read once, before the loop; the loop runs from the
    last index down to the first and deletes as it goes. *)
Definition delete_by_name (m : t) (wire : pyobj) : result t :=
  let n := length (wires_in_tower (tower m)) in
  foldM (fun m i =>
         w ← Py.getitem (wires_in_tower (tower m)) i;
         name ← getattr w "name";
         wire_name ← getattr wire "name";
         if PyVal.eqb name wire_name then delete m i else Ok m)
  (range_down n) m.

(** The function returns [True] at the first match and falls off its
    end, returning [None], when there is none. *)
Definition is_used (m : t) (wire : pyobj) : result pyval :=
  let n := length (wires_in_tower (tower m)) in
  found ← foldM (fun found i =>
                 if (found : bool) then Ok true
                 else
                   w ← Py.getitem (wires_in_tower (tower m)) i;
                   name ← getattr w "name";
                   wire_name ← getattr wire "name";
                   Ok (PyVal.eqb name wire_name))
  (range_down n) false;
  Ok (if (found : bool) then VBool true else VNone).


End TowerModel.

(** ** [MeasurementsModel] *)

Module MeasurementsModel.

Section Model.

(** The [MultiCircuit] of the engine. *)
Context {Circuit : Type}.

(** What an attribute of the instance may hold: the circuit, or a list
    of enumeration members, each with its [value] tuple. *)
Inductive attribute : Type :=
| ACircuit (circuit : Circuit)
| AItems (items : list (list pyval)).

(** An instance is its attribute dictionary; the class adds the three
    methods below and the Qt base class has no member [items]. *)
Definition t : Type := gmap string attribute.

Definition class_members : list string := ["__init__"; "rowCount"; "data"].

Definition init (circuit : Circuit) : t := {[ "circuit" := ACircuit circuit ]}.

(** [self.items] *)
Definition get_items (self : t) : result (list (list pyval)) :=
  match self !! "items" with
  | Some (AItems items) => Ok items
  | Some (ACircuit _) => Raise TypeError
  | None => Raise AttributeError
  end.

Definition rowCount (self : t) : result Z :=
  items ← get_items self; Ok (Z.of_nat (length items)).

Definition data (self : t) (index : QModelIndex) (role : ItemDataRole)
  : result (option pyval) :=
  if isValid index && bool_decide (role = DisplayRole) then
    items ← get_items self;
    item ← Py.getitem items (row index);
    Some <$> Py.getitem item 0
  else Ok None.

End Model.

Arguments t Circuit : clear implicits.
Arguments attribute Circuit : clear implicits.

End MeasurementsModel.

(** ** [Session/file_handler.py] *)

Module FileHandler.

(** A file name is a path or a list of paths. *)
Inductive file_name_t : Type :=
| Path (s : string)
| Paths (l : list string).

(** The signals of a thread. *)
Inductive event : Type :=
| progress_signal (x : pyfloat)
| progress_text (s : string)
| done_signal.

(** What the engine can emit through the two callbacks it is given. *)
Inductive callback : Type :=
| progress_func (x : pyfloat)
| text_func (s : string).

Definition emit (cb : callback) : event :=
  match cb with
  | progress_func x => progress_signal x
  | text_func s => progress_text s
  end.



Section Threads.

(** The engine: circuits, loggers, simulation drivers and sessions. *)
Context {Circuit Logger Drivers Sessions : Type}.

(** [os.path.split], [MultiCircuit()], [Logger()], [Logger.__iadd__]. *)
Context (os_path_split : string -> string * string)
        (MultiCircuit : Circuit)
        (new_Logger : Logger)
        (Logger_iadd : Logger -> Logger -> Logger).

(** The project-file API of the engine is not part of these sources and
    is a parameter. As the specification describes it,
    [FileOpen(file_name).open(text_func, progress_func)] takes a path and
    the progress and text callbacks and returns the populated circuit
    together with the log of the handler, and [FileSave(...).save()]
    returns the log; errors are recorded in the log. Each call is given
    here with the callbacks it makes, in order. *)
Context (FileOpen_open : file_name_t -> list callback * Circuit * Logger)
        (FileSave_save : Circuit -> string -> Drivers -> Sessions ->
                         list callback * Logger).

Record FileOpenThread : Type := mkOpen {
  open_file_name : file_name_t;
  open_valid : bool;
  open_logger : Logger;
  open_circuit : option Circuit;
  open_cancel : bool
}.


(** The outcome of [run]: the signals emitted in order, the thread
    afterwards, and the exception that ended the call, if any. *)
Definition FileOpenThread_run (self : FileOpenThread)
  : list event * FileOpenThread * option exn :=
  let self1 := {| open_file_name := open_file_name self;
                  open_valid := open_valid self;
                  open_logger := open_logger self;
                  open_circuit := Some MultiCircuit;
                  open_cancel := open_cancel self |} in
  let first :=
    match open_file_name self with
    | Paths l => of_option IndexError (head l)
    | Path s => Ok s
    end in
  match first with
  | Raise e => ([], self1, Some e)
  | Ok name =>
      let '(path, fname) := os_path_split name in
      let ev1 := [progress_text ("Loading " +:+ fname +:+ "...")] in
      let '(cbs, circuit, logger) := FileOpen_open (open_file_name self) in
      (ev1 ++ (emit <$> cbs) ++ [progress_text "Done!"; done_signal],
       {| open_file_name := open_file_name self;
          open_valid := true;
          open_logger := Logger_iadd new_Logger logger;
          open_circuit := Some circuit;
          open_cancel := open_cancel self |},
       None)
  end.

Definition FileOpenThread_cancel (self : FileOpenThread) : FileOpenThread :=
  {| open_file_name := open_file_name self;
     open_valid := open_valid self;
     open_logger := open_logger self;
     open_circuit := open_circuit self;
     open_cancel := true |}.

Record FileSaveThread : Type := mkSave {
  save_circuit : Circuit;
  save_file_name : string;
  save_valid : bool;
  save_simulation_drivers : Drivers;
  save_sessions : Sessions;
  save_logger : Logger;
  save_error_msg : string;
  save_cancel : bool
}.

Definition FileSaveThread_init (circuit : Circuit) (file_name : string)
  (simulation_drivers : Drivers) (sessions : Sessions) : FileSaveThread :=
  {| save_circuit := circuit;
     save_file_name := file_name;
     save_valid := false;
     save_simulation_drivers := simulation_drivers;
     save_sessions := sessions;
     save_logger := new_Logger;
     save_error_msg := "";
     save_cancel := false |}.

Definition FileSaveThread_run (self : FileSaveThread)
  : list event * FileSaveThread * option exn :=
  let '(path, fname) := os_path_split (save_file_name self) in
  let ev1 := [progress_text ("Flushing " +:+ fname +:+ " into " +:+ fname +:+ "...")] in
  let '(cbs, logger) := FileSave_save (save_circuit self) (save_file_name self)
  (save_simulation_drivers self) (save_sessions self) in
  (ev1 ++ (emit <$> cbs) ++ [progress_text "Done!"; done_signal],
   {| save_circuit := save_circuit self;
      save_file_name := save_file_name self;
      save_valid := true;
      save_simulation_drivers := save_simulation_drivers self;
      save_sessions := save_sessions self;
      save_logger := logger;
      save_error_msg := save_error_msg self;
      save_cancel := save_cancel self |},
   None).

Definition FileSaveThread_cancel (self : FileSaveThread) : FileSaveThread :=
  {| save_circuit := save_circuit self;
     save_file_name := save_file_name self;
     save_valid := save_valid self;
     save_simulation_drivers := save_simulation_drivers self;
     save_sessions := save_sessions self;
     save_logger := save_logger self;
     save_error_msg := save_error_msg self;
     save_cancel := true |}.

End Threads.

End FileHandler.

(** ** An element type: [int64] *)

(** Sums of 64-bit integers wrap around. *)
Definition wrap64 (z : Z) : Z := (z + 2 ^ 63) mod 2 ^ 64 - 2 ^ 63.

#[global] Instance int64 : Dtype Z := {
  np_sum := fun line => wrap64 (foldr Z.add 0 line);
  np_ne_zero := fun z => negb (z =? 0);
  np_str := pretty
}.

(** ** Item models and the combo box delegate of [GuiFunctions.py] *)

Module ItemModels.

(** [QtCore.Qt.CheckState] *)
Inductive CheckState : Type :=
| Unchecked
| PartiallyChecked
| Checked.

#[global] Instance CheckState_eq_dec : EqDecision CheckState.
Proof. solve_decision. Defined.

(** A [QStandardItem] with the rows appended to it. *)
#[local] Unset Elimination Schemes.

Inductive QStandardItem : Type :=
| mkItem (text : string) (editable checkable : bool) (checkState : CheckState)
         (rows : list QStandardItem).

Definition text (item : QStandardItem) : string :=
  match item with mkItem t _ _ _ _ => t end.

Definition isEditable (item : QStandardItem) : bool :=
  match item with mkItem _ e _ _ _ => e end.

Definition isCheckable (item : QStandardItem) : bool :=
  match item with mkItem _ _ c _ _ => c end.

Definition checkState (item : QStandardItem) : CheckState :=
  match item with mkItem _ _ _ s _ => s end.

Definition rows (item : QStandardItem) : list QStandardItem :=
  match item with mkItem _ _ _ _ rs => rs end.

(** [QtGui.QStandardItem(text)]: Qt makes a new item editable, not
    checkable, unchecked and without rows. *)
Definition new_item (text : string) : QStandardItem :=
  mkItem text true false Unchecked [].

Definition setEditable (item : QStandardItem) (e : bool) : QStandardItem :=
  mkItem (text item) e (isCheckable item) (checkState item) (rows item).

Definition setCheckable (item : QStandardItem) (c : bool) : QStandardItem :=
  mkItem (text item) (isEditable item) c (checkState item) (rows item).

Definition setCheckState (item : QStandardItem) (s : CheckState) : QStandardItem :=
  mkItem (text item) (isEditable item) (isCheckable item) s (rows item).

Definition with_rows (item : QStandardItem) (rs : list QStandardItem) : QStandardItem :=
  mkItem (text item) (isEditable item) (isCheckable item) (checkState item) rs.

(** A [QStandardItemModel] of one column is the list of its top rows.
    [lst] is [None] or a list; [str] is [str] on its values. *)
Definition get_list_model {V : Type} (str : V -> string) (lst : option (list V))
  (checks check_value : bool) : list QStandardItem :=
  match lst with
  | Some lst =>
      if negb checks then
        (fun val => setEditable (new_item (str val)) false) <$> lst
      else
        (fun val =>
           let item := setEditable (new_item (str val)) false in
           let item := setCheckable item true in
           if check_value then setCheckState item Checked else item) <$> lst
  | None => []
  end.

(** [mdl.item(row)] is [None] where the model has no item. *)
Definition get_checked_indices (mdl : list QStandardItem) : result (list Z) :=
  foldM (fun idx row =>
         k ← Py.index (length mdl) row;
         item ← of_option AttributeError (mdl !! k);
         if bool_decide (checkState item = Checked) then Ok (idx ++ [row]) else Ok idx)
  (ProfilesModel.range (Z.of_nat (length mdl))) [].

(** What [fill_model_from_dict] is given: a dict with its keys in
    order, a list, or any other value; keys and values are held as the
    strings [str] makes of them. *)
Inductive pydata : Type :=
| DDict (items : list (string * pydata))
| DList (l : list pydata)
| DLeaf (s : string).

#[local] Set Elimination Schemes.

(** The rows the call appends to [parent], in order. The recursive calls
    leave [editable] out, so it is [False] in them. *)
Fixpoint fill_model_from_dict (d : pydata) (editable : bool) : list QStandardItem :=
  match d with
  | DDict items =>
      (fix loop (items : list (string * pydata)) : list QStandardItem :=
         match items with
         | [] => []
         | (k, v) :: items' =>
             let child := setEditable (new_item k) editable in
             with_rows child (fill_model_from_dict v false) :: loop items'
         end) items
  | DList l =>
      (fix loop (l : list pydata) : list QStandardItem :=
         match l with
         | [] => []
         | v :: l' => fill_model_from_dict v false ++ loop l'
         end) l
  | DLeaf s => [setEditable (new_item s) editable]
  end.

(** The header labels and the rows under the invisible root item. *)
Definition get_tree_model (d : pydata) (top : string)
  : list string * list QStandardItem :=
  ([top], fill_model_from_dict d false).

(** No item of the tree under [item], nor [item] itself, is editable. *)
Fixpoint locked (item : QStandardItem) : bool :=
  match item with
  | mkItem _ e _ _ rs =>
      negb e &&
      (fix all (rs : list QStandardItem) : bool :=
         match rs with
         | [] => true
         | r :: rs' => locked r && all rs'
         end) rs
  end.

End ItemModels.

Module ComboDelegate.





Section Delegate.

Context {O : Type}.

Record t : Type := mk {
  objects : list O;
  object_names : list string
}.




End Delegate.

Arguments t O : clear implicits.

End ComboDelegate.


(** ** [ProfilesModel.paste_from_clipboard] *)

Module ProfilesPaste.

(** [s.split(sep)] for a separator of one character. *)
Fixpoint split (sep : Ascii.ascii) (s : string) : list string :=
  match s with
  | EmptyString => [EmptyString]
  | String ch s' =>
      if Ascii.eqb ch sep then EmptyString :: split sep s'
      else match split sep s' with
           | w :: ws => String ch w :: ws
           | [] => [String ch EmptyString]
           end
  end.

Section Paste.

Context {V : Type}.

(** [self.elements[0].editable_headers[self.magnitude].tpe], the type
    the cells are parsed with, belongs to the engine; a call that
    raises stands for a text that does not parse. *)
Context (formatter : string -> result V).

Definition with_heap (m : ProfilesModel.t V) (hp : list (list V)) : ProfilesModel.t V :=
  {| ProfilesModel.magnitude := ProfilesModel.magnitude m;
     ProfilesModel.non_editable_indices := ProfilesModel.non_editable_indices m;
     ProfilesModel.r := ProfilesModel.r m;
     ProfilesModel.c := ProfilesModel.c m;
     ProfilesModel.elements := ProfilesModel.elements m;
     ProfilesModel.history := ProfilesModel.history m;
     ProfilesModel.heap := hp |}.

(** [text] is the text of the clipboard. The time profile of the circuit
    has the length the constructor stored in [r]. *)
Definition paste_from_clipboard (m : ProfilesModel.t V) (text : string)
  (row_idx col_idx : Z) : result (ProfilesModel.t V) :=
  let n := Z.of_nat (length (ProfilesModel.elements m)) in
  let nt := ProfilesModel.r m in
  if 0 <? n then
    e0 ← Py.getitem (ProfilesModel.elements m) 0;
    profile_property ← of_option KeyError
      (ProfilesModel.properties_with_profile e0 !! ProfilesModel.magnitude m);
    let rows := split (Ascii.ascii_of_nat 10) text in
    (* gather values *)
    '(hp, mod_cols) ←
      foldM (fun '(hp, mod_cols) '(r, row) =>
             let values := split (Ascii.ascii_of_nat 9) row in
             let r2 := r + row_idx in
             foldM (fun '(hp, mod_cols) '(c, val) =>
                    let c2 := c + col_idx in
                    match formatter val with
                    | Ok val2 =>
                        if (c2 <? n) && (r2 <? nt) then
                          e ← Py.getitem (ProfilesModel.elements m) c2;
                          a ← of_option AttributeError
                            (ProfilesModel.attrs e !! profile_property);
                          arr ← ProfilesModel.deref hp a;
                          arr' ← Py.setitem arr r2 val2;
                          Ok (<[a:=arr']> hp, mod_cols ++ [c2])
                        else Ok (hp, mod_cols)
                    | Raise _ => Ok (hp, mod_cols)
                    end)
             (enumerate values) (hp, mod_cols))
      (enumerate rows) (ProfilesModel.heap m, []);
    if 0 <? Z.of_nat (length mod_cols)
    then ProfilesModel.add_state (with_heap m hp) mod_cols "paste"
    else Ok (with_heap m hp)
  else
    (* there are no elements *)
    Ok m.

End Paste.

End ProfilesPaste.


(** ** Concrete inputs *)

Module Examples.

(** A circuit with one load whose active-power profile is [1, 2, 3]. *)
Definition load : ProfilesModel.element :=
  ProfilesModel.mkElement "load" {[ "P" := "P_prof" ]} {[ "P_prof" := 0%nat ]}.

Definition no_profiles : ProfilesModel.t Z :=
  ProfilesModel.mk "P" [] 0 0 [] (ObjectHistory.init 100) [].

(** [ProfilesModel(circuit, DeviceType.LoadDevice, 'P', float, parent)] *)
Definition profiles : ProfilesModel.t Z :=
  match ProfilesModel.init 3 [load] [[1; 2; 3]] "P" 100 with
  | Ok m => m
  | Raise _ => no_profiles
  end.

(** The model after [setData(index(1, 0), 9)]. *)
Definition profiles_edited : ProfilesModel.t Z :=
  match ProfilesModel.setData profiles (mkIndex 1 0 true) 9 with
  | Ok (_, m) => m
  | Raise _ => no_profiles
  end.






(** Two buses named [a] and [b]; the name is checked for uniqueness and,
    in the second model, is also declared as not editable. *)
Definition bus (name : string) : pyobj := {[ "name" := VStr name ]}.

Definition name_header : list (string * ObjectsModel.GCProp) :=
  [("name", ObjectsModel.mkProp "" ObjectsModel.tpe_str "Name of the bus")].

Definition no_objects : ObjectsModel.t :=
  ObjectsModel.mk [] [] [] [] [] false [] [] 0 0 false ∅.

Definition buses : ObjectsModel.t :=
  match ObjectsModel.init [bus "a"; bus "b"] name_header true [] false ["name"] ∅ with
  | Ok m => m
  | Raise _ => no_objects
  end.


(** The editor hands over strings; [BranchType] knows two members. *)
Definition branch_type (v : pyval) : result pyval :=
  match v with
  | VStr "line" => Ok (VStr "line")
  | VStr "transformer" => Ok (VStr "transformer")
  | _ => Raise ValueError
  end.

Definition symbol_updated (obj : pyobj) : result unit := Ok tt.

(** [str], [float] and [int] on the few values used below. *)
Definition str_of (v : pyval) : string :=
  match v with
  | VStr s => s
  | VInt z => pretty z
  | _ => ""
  end.

Definition float_of (v : pyval) : result pyfloat :=
  match v with
  | VInt z => Ok (FFin (inject_Z z))
  | VFloat f => Ok f
  | VStr "nan" => Ok FNan
  | _ => Raise ValueError
  end.

Definition int_of (v : pyval) : result Z :=
  match v with
  | VInt z => Ok z
  | VStr "2" => Ok 2
  | VStr "7" => Ok 7
  | _ => Raise ValueError
  end.

(** A tower with one wire on phase 1, with the tables of a tower whose
    phase column converts with [int]. *)
Definition wire : pyobj :=
  {[ "name" := VStr "w"; "xpos" := VFloat (FFin 0); "ypos" := VFloat (FFin 8);
    "phase" := VInt 1 ]}.

Definition tower : TowerModel.t :=
  TowerModel.mk
  (TowerModel.mkTower
   [wire]
   ["Wire"; "X (m)"; "Y (m)"; "Phase"]
   {[ 0 := "name"; 1 := "xpos"; 2 := "ypos"; 3 := "phase" ]}
   {[ 0 := conv_str; 1 := conv_float; 2 := conv_float; 3 := conv_int ]}
   [false; true; true; true])
  false 0.

(** A data frame of one row and three columns: a zero, a non-zero number
    and a string. *)
Definition frame : PandasModel.DataFrame string :=
  PandasModel.mkFrame string
  (mkArray (1, 3) [[VFloat (FFin 0); VInt 5; VStr "slack"]])
  [PandasModel.LStr "P"; PandasModel.LStr "Q"; PandasModel.LStr "type"]
  ["bus1"].

(** A stand-in for [val.__format__(format_string)]. *)
Definition format_with (format_string : string) (v : pyval) : result string :=
  match v with
  | VInt z => Ok (pretty z +:+ ":" +:+ format_string)
  | VFloat _ => Ok ("float:" +:+ format_string)
  | _ => Raise TypeError
  end.

Definition frame_model : PandasModel.t string :=
  PandasModel.init (fun _ => false) id frame false (-1) 6.


(** Two wires named [a] and [b] in the table of wires. *)
Definition named_wire (name : string) : pyobj :=
  {[ "name" := VStr name; "r" := VFloat (FFin 0); "gmr" := VFloat (FFin 0) ]}.

Definition two_wires : WiresTable.t :=
  WiresTable.add (WiresTable.add WiresTable.init (named_wire "a")) (named_wire "b").

(** A history that holds the initial state only. *)
Definition one_state : ObjectHistory.t (list (Z * nat)) :=
  ObjectHistory.mk 100 0 [("initial", [(0, 1%nat)])] [].

(** A data frame of two rows and two columns, and the model after
    [copy_to_column(1, 0)]. *)
Definition square_model : PandasModel.t string :=
  PandasModel.init (fun _ => false) id
  (PandasModel.mkFrame string
   (mkArray (2, 2) [[VInt 1; VInt 2]; [VInt 3; VInt 4]])
   [PandasModel.LStr "P"; PandasModel.LStr "Q"]
   ["bus1"; "bus2"])
  false (-1) 6.

Definition square_model_filled : PandasModel.t string :=
  PandasModel.with_data square_model (mkArray (2, 2) [[VInt 3; VInt 2]; [VInt 3; VInt 4]]).

(** The headers of a device with a name, two attributes declared with
    the type [None] and the substation it belongs to. *)
Definition device_header : list (string * ObjectsModel.GCProp) :=
  [("name", ObjectsModel.mkProp "" ObjectsModel.tpe_str "Name");
   ("graphic_obj", ObjectsModel.mkProp "" ObjectsModel.tpe_None "");
   ("tag", ObjectsModel.mkProp "" ObjectsModel.tpe_None "");
   ("substation", ObjectsModel.mkProp "" (ObjectsModel.tpe_DeviceType "Substation")
                    "Substation of the device")].

(** A device with a name and a code, shown in a transposed table: one
    column for the device, one row per attribute. *)
Definition coded_device : pyobj := {[ "name" := VStr "a"; "code" := VStr "c1" ]}.

Definition device_sheet : ObjectsModel.t :=
  match ObjectsModel.init [coded_device]
          [("name", ObjectsModel.mkProp "" ObjectsModel.tpe_str "Name");
           ("code", ObjectsModel.mkProp "" ObjectsModel.tpe_str "Code")]
          true [] true [] ∅ with
  | Ok m => m
  | Raise _ => no_objects
  end.

(** The [name] of a value that stands for a bus: the value itself. *)
Definition name_of_bus (v : pyval) : result pyval := Ok v.

Definition device_model : ObjectsModel.t :=
  match ObjectsModel.init [bus "a"] device_header true [] false ["name"]
          {[ "Substation" := [] ]} with
  | Ok m => m
  | Raise _ => no_objects
  end.

(** The two buses in a model built with the default
    [non_editable_attributes], after a model of a device was built with
    the default too. *)
Definition buses_after_device : ObjectsModel.t :=
  match ObjectsModel.init_default [] [bus "a"] device_header true false ["name"]
          {[ "Substation" := [] ]} with
  | Ok (_, default) =>
      match ObjectsModel.init_default default [bus "a"; bus "b"] name_header true false
              ["name"] ∅ with
      | Ok (m, _) => m
      | Raise _ => no_objects
      end
  | Raise _ => no_objects
  end.


(** The results of a session: one study with two arrays. *)
Definition session_tree : ItemModels.pydata :=
  ItemModels.DDict
  [("Power Flow", ItemModels.DList [ItemModels.DLeaf "Vm"; ItemModels.DLeaf "Va"])].


End Examples.

(** * Properties *)

(** ** The [result] monad *)

Lemma bind_Ok {A B} (r : result A) (f : A -> result B) (b : B) :
  (a ← r; f a) = Ok b -> exists a, r = Ok a /\ f a = Ok b.
Proof. destruct r as [a|e]; simpl; [eauto|done]. Qed.

Lemma of_option_Ok {A} (e : exn) (o : option A) (a : A) :
  of_option e o = Ok a <-> o = Some a.
Proof. destruct o; simpl; split; congruence. Qed.

(** Splits a hypothesis [x ← r; k = Ok b] into [r = Ok x] and [k = Ok b]. *)
Tactic Notation "inv_bind" hyp(H) "as" simple_intropattern(x) ident(Hx) :=
  apply bind_Ok in H; destruct H as (x & Hx & H).

(** ** Python sequences *)

Lemma pop_snoc {A} (l : list A) (x : A) : Py.pop (l ++ [x]) = Ok (x, l).
Proof.
  unfold Py.pop. rewrite last_snoc. by rewrite removelast_last.
Qed.

Lemma index_Ok_lt n i k : Py.index n i = Ok k -> (k < n)%nat.
Proof.
  unfold Py.index. intros H.
  destruct ((0 <=? i) && (i <? Z.of_nat n)) eqn:E1.
  - apply andb_prop in E1. simplify_eq. lia.
  - destruct ((- Z.of_nat n <=? i) && (i <? 0)) eqn:E2; [|done].
    apply andb_prop in E2. simplify_eq. lia.
Qed.

Lemma setitem_length {A} (l l' : list A) i x :
  Py.setitem l i x = Ok l' -> length l' = length l.
Proof.
  unfold Py.setitem. destruct (Py.index _ _) eqn:E; simpl; intros; simplify_eq.
  by rewrite length_insert.
Qed.

Lemma foldM_snoc {A B} (f : A -> B -> result A) l b a :
  foldM f (l ++ [b]) a = a' ← foldM f l a; f a' b.
Proof.
  revert a. induction l as [|x l IH]; intros a; simpl.
  - by destruct (f a b).
  - destruct (f a x); simpl; [apply IH|done].
Qed.

(** ** [ObjectHistory]: the size of the undo stack *)

Section HistoryBound.

Context {D : Type}.

Implicit Types h : ObjectHistory.t D.

Lemma add_state_length h a d h' :
  ObjectHistory.add_state h a d = Ok h' ->
  length (ObjectHistory.undo_stack h') =
  if ObjectHistory.max_undo_states h + 1 <? Z.of_nat (length (ObjectHistory.undo_stack h))
  then length (ObjectHistory.undo_stack h)
  else S (length (ObjectHistory.undo_stack h)).
Proof.
  unfold ObjectHistory.add_state.
  destruct (_ <? _) eqn:E; simpl.
  - destruct (ObjectHistory.undo_stack h) as [|s us]; simpl; [done|].
    intros [= <-]; simpl. rewrite length_app; simpl; lia.
  - intros [= <-]; simpl. rewrite length_app; simpl; lia.
Qed.

Lemma add_state_max h a d h' :
  ObjectHistory.add_state h a d = Ok h' ->
  ObjectHistory.max_undo_states h' = ObjectHistory.max_undo_states h.
Proof.
  unfold ObjectHistory.add_state.
  destruct (_ <? _); simpl.
  - destruct (ObjectHistory.undo_stack h); simpl; [done|]. by intros [= <-].
  - by intros [= <-].
Qed.

Lemma add_state_stacks h a d h' :
  ObjectHistory.add_state h a d = Ok h' ->
  exists us, ObjectHistory.undo_stack h' = us ++ [(a, d)] /\
  ObjectHistory.redo_stack h' = ObjectHistory.redo_stack h.
Proof.
  unfold ObjectHistory.add_state. intros H. inv_bind H as us Hus.
  simplify_eq; simpl. eauto.
Qed.

(** What the guard of [add_state] does bound: the stack never holds more
    than [max_undo_states + 2] entries. *)
Lemma add_states_bound l h h' :
  -1 <= ObjectHistory.max_undo_states h ->
  Z.of_nat (length (ObjectHistory.undo_stack h)) <= ObjectHistory.max_undo_states h + 2 ->
  ObjectHistory.add_states h l = Ok h' ->
  Z.of_nat (length (ObjectHistory.undo_stack h')) <= ObjectHistory.max_undo_states h + 2.
Proof.
  revert h. induction l as [|[a d] l IH]; intros h Hm Hb; simpl.
  - by intros [= <-].
  - unfold ObjectHistory.add_states; simpl.
    destruct (ObjectHistory.add_state h a d) as [h1|] eqn:E; simpl; [|done].
    intros H. pose proof (add_state_length _ _ _ _ E) as Hl.
    pose proof (add_state_max _ _ _ _ E) as Hx.
    rewrite <- Hx. apply IH; [lia| |exact H].
    rewrite Hl, Hx. destruct (_ <? _) eqn:E'; lia.
Qed.

Lemma add_states_snoc h l s :
  ObjectHistory.add_states h (l ++ [s]) =
  h' ← ObjectHistory.add_states h l; ObjectHistory.add_state h' s.1 s.2.
Proof.
  unfold ObjectHistory.add_states. rewrite foldM_snoc. by destruct s.
Qed.

Lemma add_states_fresh_length (m : nat) (s : string * D) (n : nat) :
  exists h, ObjectHistory.add_states (ObjectHistory.init (Z.of_nat m)) (replicate n s) = Ok h /\
  ObjectHistory.max_undo_states h = Z.of_nat m /\
  length (ObjectHistory.undo_stack h) = (n `min` (m + 2))%nat.
Proof.
  induction n as [|n IH].
  - eexists; split; [reflexivity|]. simpl. split; [done|lia].
  - destruct IH as (h & Hh & Hm & Hl).
    replace (replicate (S n) s) with (replicate n s ++ [s])
      by (by rewrite <- replicate_cons_app).
    rewrite add_states_snoc, Hh. cbn -[Nat.min].
    destruct (ObjectHistory.add_state h s.1 s.2) as [h'|e] eqn:E.
    + exists h'. split; [done|].
      pose proof (add_state_length _ _ _ _ E) as Hl'.
      pose proof (add_state_max _ _ _ _ E) as Hm'.
      split; [congruence|].
      rewrite Hl'. destruct (_ <? _) eqn:E'; lia.
    + exfalso. revert E. unfold ObjectHistory.add_state.
      destruct (_ <? _) eqn:E'; simpl; [|done].
      apply Z.ltb_lt in E'.
      destruct (ObjectHistory.undo_stack h); simpl in *; [intros _; lia|done].
Qed.

(** C2 (code defect): the guard of [add_state] compares the length with
    [max_undo_states + 1] before appending, so a history built with
    maximum [m] holds [m + 2] undo states after [m + 2] calls of
    [add_state], two more than the configured maximum. *)
Theorem C2_undo_stack_exceeds_max (m : nat) (s : string * D) :
  exists h, ObjectHistory.add_states (ObjectHistory.init (Z.of_nat m)) (replicate (m + 2) s) = Ok h /\
  Z.of_nat (length (ObjectHistory.undo_stack h)) = ObjectHistory.max_undo_states h + 2.
Proof.
  destruct (add_states_fresh_length m s (m + 2)) as (h & Hh & Hm & Hl).
  exists h. split; [done|]. rewrite Hm, Hl. lia.
Qed.

End HistoryBound.

(** ** [ProfilesModel]: an edit followed by [undo] *)

Section ProfilesUndo.

Context {V : Type}.

Implicit Types m : ProfilesModel.t V.

Lemma add_state_one m col action m' :
  ProfilesModel.add_state m [col] action = Ok m' ->
  exists a arr us,
  ProfilesModel.profile_ref m col = Ok a /\
  ProfilesModel.deref (ProfilesModel.heap m) a = Ok arr /\
  ProfilesModel.elements m' = ProfilesModel.elements m /\
  ProfilesModel.magnitude m' = ProfilesModel.magnitude m /\
  ProfilesModel.heap m' = ProfilesModel.heap m ++ [arr] /\
  ObjectHistory.undo_stack (ProfilesModel.history m') =
  us ++ [(action, [(col, length (ProfilesModel.heap m))])] /\
  ObjectHistory.redo_stack (ProfilesModel.history m') =
  ObjectHistory.redo_stack (ProfilesModel.history m).
Proof.
  unfold ProfilesModel.add_state; simpl. intros H.
  inv_bind H as [hp data] Hloop. inv_bind H as h Hh.
  inv_bind Hloop as [hp' data'] Hbody. inv_bind Hbody as a Ha. inv_bind Hbody as arr Harr.
  simplify_eq; simpl.
  destruct (add_state_stacks _ _ _ _ Hh) as (us & Hus & Hrs).
  exists a, arr, us. by rewrite Hus, Hrs.
Qed.


Lemma profile_ref_inv m col a :
  ProfilesModel.profile_ref m col = Ok a ->
  exists k e p,
  Py.index (length (ProfilesModel.elements m)) col = Ok k /\
  ProfilesModel.elements m !! k = Some e /\
  ProfilesModel.properties_with_profile e !! ProfilesModel.magnitude m = Some p /\
  ProfilesModel.attrs e !! p = Some a.
Proof.
  unfold ProfilesModel.profile_ref, Py.getitem. intros H.
  inv_bind H as e He. inv_bind He as k Hk. inv_bind H as p Hp.
  apply of_option_Ok in He, Hp, H. eauto 10.
Qed.

(** C1 (code defect): [setData] writes the cell and then pushes a copy
    of the edited array onto the undo stack; [undo] pops that very
    entry and restores it. After an edit of an editable column followed
    by [undo], the column therefore holds the edited array, not the
    array it held before the edit. *)
Theorem C1_undo_after_setData_keeps_edit m index value b m1 :
  column index ∉ ProfilesModel.non_editable_indices m ->
  ProfilesModel.setData m index value = Ok (b, m1) ->
  exists m2 arr arr',
  ProfilesModel.undo m1 = Ok m2 /\
  ProfilesModel.profile_array m (column index) = Ok arr /\
  Py.setitem arr (row index) value = Ok arr' /\
  ProfilesModel.profile_array m2 (column index) = Ok arr'.
Proof.
  intros Hed. unfold ProfilesModel.setData, Py.mem_Z.
  rewrite bool_decide_eq_false_2 by done. simpl. intros H.
  inv_bind H as a Ha. inv_bind H as arr Harr. inv_bind H as arr' Harr'.
  inv_bind H as m' Hm'. simplify_eq.
  apply add_state_one in Hm' as (a2 & arr2 & us & Ha2 & Harr2 & Hel & Hmag & Hhp & Hus & Hrs).
  simpl in *.
  change (ProfilesModel.profile_ref m (column index) = Ok a2) in Ha2.
  assert (a2 = a) as -> by congruence.
  apply of_option_Ok in Harr. pose proof (lookup_lt_Some _ _ _ Harr) as Hlt.
  apply of_option_Ok in Harr2. rewrite list_lookup_insert_eq in Harr2 by done.
  simplify_eq.
  destruct (profile_ref_inv _ _ _ Ha) as (k & e & p & Hk & He & Hp & Hattr).
  unfold ProfilesModel.undo, ObjectHistory.can_undo, ObjectHistory.undo.
  rewrite Hus, length_app, pop_snoc. simpl.
  replace (0 <? Z.of_nat (length us + 1)) with true by (symmetry; apply Z.ltb_lt; lia).
  unfold ProfilesModel.restore. simpl. rewrite Hel, Hmag, Hk. simpl.
  rewrite He. simpl. rewrite Hp. simpl.
  eexists _, arr, arr2. split; [reflexivity|].
  split; [unfold ProfilesModel.profile_array, ProfilesModel.deref;
          by rewrite Ha; simpl; rewrite Harr|].
  split; [done|].
  unfold ProfilesModel.profile_array, ProfilesModel.profile_ref, Py.getitem. simpl.
  rewrite !length_insert, Hk. simpl.
  rewrite list_lookup_insert_eq by (by eapply lookup_lt_Some). simpl.
  rewrite Hp. simpl. rewrite lookup_insert_eq. simpl.
  rewrite Hhp. unfold ProfilesModel.deref.
  rewrite list_lookup_middle; [done|by rewrite length_insert].
Qed.

End ProfilesUndo.

(** At the example: the profile [1, 2, 3] is edited to [1, 9, 3], and
    [undo] leaves [1, 9, 3]. *)
Lemma C1_undo_after_setData_keeps_edit_witness :
  (column (mkIndex 1 0 true) ∉ ProfilesModel.non_editable_indices Examples.profiles) /\
  ProfilesModel.setData Examples.profiles (mkIndex 1 0 true) 9 =
  Ok (true, Examples.profiles_edited) /\
  exists m2,
  ProfilesModel.undo Examples.profiles_edited = Ok m2 /\
  ProfilesModel.profile_array Examples.profiles 0 = Ok [1; 2; 3] /\
  ProfilesModel.profile_array m2 0 = Ok [1; 9; 3].
Proof.
  assert (H1 : column (mkIndex 1 0 true) ∉
          ProfilesModel.non_editable_indices Examples.profiles)
    by (vm_compute; inversion 1).
  assert (H2 : ProfilesModel.setData Examples.profiles (mkIndex 1 0 true) 9 =
          Ok (true, Examples.profiles_edited)) by (vm_compute; reflexivity).
  split; [exact H1|]. split; [exact H2|].
  destruct (C1_undo_after_setData_keeps_edit _ _ _ _ _ H1 H2)
    as (m2 & arr & arr' & Hu & Ha & Hs & Hr).
  exists m2. split; [exact Hu|].
  vm_compute in Ha. injection Ha as <-.
  vm_compute in Hs. injection Hs as <-.
  split; [vm_compute; reflexivity|exact Hr].
Defined.

(** ** Clipboard export *)

Lemma append_assoc (a b c : string) : (a +:+ b) +:+ c = a +:+ b +:+ c.
Proof.
  induction a as [|x a IH]; [done|].
  change (String x ((a +:+ b) +:+ c) = String x (a +:+ b +:+ c)). by f_equal.
Qed.

Lemma append_nil_r (a : string) : a +:+ "" = a.
Proof.
  induction a as [|x a IH]; [done|].
  change (String x (a +:+ "") = String x a). by f_equal.
Qed.

Lemma getitem_nat {A} (l : list A) (k : nat) (x : A) :
  l !! k = Some x -> Py.getitem l (Z.of_nat k) = Ok x.
Proof.
  intros Hk. pose proof (lookup_lt_Some _ _ _ Hk) as Hlt.
  unfold Py.getitem, Py.index.
  replace ((0 <=? Z.of_nat k) && (Z.of_nat k <? Z.of_nat (length l))) with true
    by (symmetry; apply andb_true_intro; split; [apply Z.leb_le|apply Z.ltb_lt]; lia).
  simpl. by rewrite Nat2Z.id, Hk.
Qed.

Section ExportLoop.

Context {A : Type} `{Dtype A} {I : Type} (str_index : I -> string).



End ExportLoop.

Section ResultsClipboard.

Context {A : Type} `{Dtype A} {I : Type} (str_index : I -> string).


End ResultsClipboard.



Section PandasClipboard.

Context {I : Type}
        (dtype_is_complex : ndarray pyval -> bool)
        (np_abs : pyval -> pyval)
        (str_cell : pyval -> string)
        (str_index : I -> string)
        (str_sum_ne_zero : list string -> result bool).

Lemma pandas_export_loop (data : ndarray string) (index : list I) (k : nat) (txt : string) :
  (k + length index <= length (cells data))%nat ->
  Forall (fun line => exists b, str_sum_ne_zero line = Ok b) (cells data) ->
  foldM (fun (txt : string) '((t, index_value) : Z * I) =>
           line ← Np.getrow (A := string) data t;
           nonzero ← str_sum_ne_zero line;
           if (nonzero : bool)
           then Ok (txt +:+ str_index index_value +:+ TAB
                        +:+ Py.join TAB line +:+ NL)
           else Ok txt)
        (zip (Z.of_nat <$> seq k (length index)) index) txt =
  Ok (txt +:+ text_of_rows
        ((fun '(index_value, line) => data_row str_index index_value line)
           <$> List.filter (fun '(_, line) => passes str_sum_ne_zero line)
                           (zip index (drop k (cells data))))).
Proof.
  unfold Np.getrow. intros Hlen Hall.
  revert k txt Hlen. induction index as [|i index IH]; intros k txt Hlen; simpl.
  - by rewrite append_nil_r.
  - simpl in Hlen.
    destruct (lookup_lt_is_Some_2 (cells data) k ltac:(lia)) as [line Hline].
    rewrite (getitem_nat _ _ _ Hline). simpl.
    rewrite (drop_S _ _ _ Hline). simpl.
    destruct (proj1 (Forall_lookup _ _) Hall _ _ Hline) as [b Hb].
    unfold passes at 1. rewrite Hb. simpl.
    destruct b; simpl.
    + rewrite IH by lia. f_equal. unfold data_row.
      by rewrite !append_assoc.
    + by rewrite IH by lia.
Qed.

(** The export of [PandasModel] has the same shape; its test is applied
    to the cells converted to strings. *)
Lemma PandasModel_copy_to_clipboard_rows (m : PandasModel.t I) (md : PandasModel.mode)
    (cb : clipboard) (index : list I) (columns : list PandasModel.label)
    (data : ndarray pyval) (header : string) :
  (0 < length (PandasModel.cols_c m))%nat ->
  PandasModel.get_data dtype_is_complex np_abs m md = Ok (index, columns, data) ->
  PandasModel.join_labels columns = Ok header ->
  (length index <= length (cells data))%nat ->
  Forall (fun line => exists b, str_sum_ne_zero (str_cell <$> line) = Ok b) (cells data) ->
  PandasModel.copy_to_clipboard dtype_is_complex np_abs str_cell str_index
                                str_sum_ne_zero m md cb =
    Ok (text_of_rows
          ((TAB +:+ header) ::
           ((fun '(index_value, line) => data_row str_index index_value line)
              <$> List.filter (fun '(_, line) => passes str_sum_ne_zero line)
                              (zip index ((fun line : list pyval => str_cell <$> line)
                                            <$> cells data))))).
Proof.
  intros Hn Hget Hjoin Hlen Hall. unfold PandasModel.copy_to_clipboard.
  replace (0 <? Z.of_nat (length (PandasModel.cols_c m))) with true
    by (symmetry; apply Z.ltb_lt; lia).
  rewrite Hget. simpl. rewrite Hjoin. simpl. unfold enumerate.
  rewrite (pandas_export_loop _ index 0); simpl.
  - by rewrite !append_assoc.
  - by rewrite length_fmap.
  - by apply Forall_fmap.
Qed.

End PandasClipboard.

(** ** File threads *)



Section FileThreads.

Context {Circuit Logger Drivers Sessions : Type}
        (os_path_split : string -> string * string)
        (MultiCircuit : Circuit)
        (new_Logger : Logger)
        (Logger_iadd : Logger -> Logger -> Logger)
        (FileOpen_open : FileHandler.file_name_t ->
                         list FileHandler.callback * Circuit * Logger)
        (FileSave_save : Circuit -> string -> Drivers -> Sessions ->
                         list FileHandler.callback * Logger).

Let open_run := FileHandler.FileOpenThread_run os_path_split MultiCircuit new_Logger
                  Logger_iadd FileOpen_open.

Let save_run := FileHandler.FileSaveThread_run os_path_split FileSave_save.

(** C4: [cancel] sets the flag of the thread and [run] never reads it:
    with or without a call of [cancel] beforehand, [run] emits the same
    signals in the same order, ends the same way and leaves the same
    circuit, logger and validity, for the thread that opens a file and for
    the thread that saves one. *)
Theorem C4_cancel_is_not_honored :
  (forall self : FileHandler.FileOpenThread,
     FileHandler.open_cancel (FileHandler.FileOpenThread_cancel self) = true /\
     (open_run (FileHandler.FileOpenThread_cancel self)).1.1 = (open_run self).1.1 /\
     (open_run (FileHandler.FileOpenThread_cancel self)).2 = (open_run self).2 /\
     FileHandler.open_circuit (open_run (FileHandler.FileOpenThread_cancel self)).1.2 =
       FileHandler.open_circuit (open_run self).1.2 /\
     FileHandler.open_logger (open_run (FileHandler.FileOpenThread_cancel self)).1.2 =
       FileHandler.open_logger (open_run self).1.2 /\
     FileHandler.open_valid (open_run (FileHandler.FileOpenThread_cancel self)).1.2 =
       FileHandler.open_valid (open_run self).1.2) /\
  (forall self : FileHandler.FileSaveThread,
     FileHandler.save_cancel (FileHandler.FileSaveThread_cancel self) = true /\
     (save_run (FileHandler.FileSaveThread_cancel self)).1.1 = (save_run self).1.1 /\
     (save_run (FileHandler.FileSaveThread_cancel self)).2 = (save_run self).2 /\
     FileHandler.save_circuit (save_run (FileHandler.FileSaveThread_cancel self)).1.2 =
       FileHandler.save_circuit (save_run self).1.2 /\
     FileHandler.save_logger (save_run (FileHandler.FileSaveThread_cancel self)).1.2 =
       FileHandler.save_logger (save_run self).1.2 /\
     FileHandler.save_valid (save_run (FileHandler.FileSaveThread_cancel self)).1.2 =
       FileHandler.save_valid (save_run self).1.2).
Proof.
  split; intros self.
  - unfold open_run, FileHandler.FileOpenThread_run; simpl.
    destruct (FileHandler.open_file_name self) as [s|[|s l]]; simpl.
    + destruct (os_path_split s), (FileOpen_open (FileHandler.Path s)) as [[cbs c] lg].
      by simpl.
    + done.
    + destruct (os_path_split s), (FileOpen_open (FileHandler.Paths (s :: l))) as [[cbs c] lg].
      by simpl.
  - unfold save_run, FileHandler.FileSaveThread_run; simpl.
    destruct (os_path_split _), (FileSave_save _ _ _ _) as [cbs lg]. by simpl.
Qed.


End FileThreads.



(** ** [MeasurementsModel] *)

(** C10: the constructor stores the circuit and nothing else, so the
    instance has no attribute [items]; [rowCount] raises [AttributeError],
    and so does [data] on every valid index at the display role. *)
Theorem C10_MeasurementsModel_rowCount_fails {Circuit : Type} (circuit : Circuit) :
  MeasurementsModel.init circuit !! "items" = None /\
  ("items" ∉ MeasurementsModel.class_members) /\
  MeasurementsModel.rowCount (MeasurementsModel.init circuit) = Raise AttributeError /\
  forall r c : Z,
    MeasurementsModel.data (MeasurementsModel.init circuit) (mkIndex r c true) DisplayRole =
      Raise AttributeError.
Proof.
  assert (Hitems : MeasurementsModel.init circuit !! "items" = None)
    by reflexivity.
  split; [done|]. split; [apply (bool_decide_unpack _); by vm_compute|].
  unfold MeasurementsModel.rowCount, MeasurementsModel.data, MeasurementsModel.get_items.
  rewrite Hitems. split; [done|]. intros r c. reflexivity.
Qed.

(** ** Display of cells *)

Lemma float_ne_zero_is_zero (f : pyfloat) :
  PyVal.float_ne_zero f = negb (PyVal.float_is_zero f).
Proof. by destruct f. Qed.

Lemma ne_zero_is_zero (v : pyval) :
  PyVal.is_number v = true -> PyVal.ne_zero v = negb (PyVal.is_zero v).
Proof.
  destruct v as [|b|z|f|re im|s]; simpl; try done.
  - by destruct b.
  - intros _. apply float_ne_zero_is_zero.
  - intros _. rewrite !float_ne_zero_is_zero. by destruct (PyVal.float_is_zero re).
Qed.

Section Display.

Context {I : Type} (format : string -> pyval -> result string).

(** C8: at the display role and on a valid index, a cell holding a number
    equal to zero is rendered as the string [0], and a cell holding any
    other number is rendered by its [__format__] with the format string of
    the model; this holds for [PandasModel] and for [ResultsModel]. *)
Theorem C8_zero_is_rendered_as_0 :
  (forall (m : PandasModel.t I) (index : QModelIndex) (v : pyval),
     isValid index = true ->
     Np.getitem (PandasModel.data_c m) (row index) (column index) = Ok v ->
     PyVal.is_number v = true ->
     PandasModel.data format m index DisplayRole =
       if PyVal.is_zero v then Ok (Some "0")
       else Some <$> format (PandasModel.format_string m) v) /\
  (forall (table : ResultsModel.ResultsTable pyval I) (index : QModelIndex) (v : pyval),
     isValid index = true ->
     Np.getitem (ResultsModel.data_c table) (row index) (column index) = Ok v ->
     PyVal.is_number v = true ->
     ResultsModel.data format table index DisplayRole =
       if PyVal.is_zero v then Ok (Some "0")
       else Some <$> format (ResultsModel.format_string table) v).
Proof.
  split; intros m index v Hvalid Hcell Hnum.
  - unfold PandasModel.data. rewrite Hvalid, Hcell. simpl.
    destruct v as [|b|z|f|re im|s]; try done;
      try (rewrite (ne_zero_is_zero _ Hnum); by destruct (PyVal.is_zero _)).
    rewrite !float_ne_zero_is_zero. simpl.
    by destruct (PyVal.float_is_zero re), (PyVal.float_is_zero im).
  - unfold ResultsModel.data. rewrite Hvalid, Hcell. simpl.
    destruct v as [|b|z|f|re im|s]; try done;
      try (rewrite (ne_zero_is_zero _ Hnum); by destruct (PyVal.is_zero _)).
    rewrite !float_ne_zero_is_zero. simpl.
    by destruct (PyVal.float_is_zero re), (PyVal.float_is_zero im).
Qed.

End Display.

(** At the example frame the cell [0.0] is shown as [0] and the cell [5]
    through the format string [.6f]. *)
Lemma C8_zero_is_rendered_as_0_witness :
  PandasModel.data Examples.format_with Examples.frame_model (mkIndex 0 0 true)
                   DisplayRole = Ok (Some "0") /\
  PandasModel.data Examples.format_with Examples.frame_model (mkIndex 0 1 true)
                   DisplayRole = Ok (Some "5:.6f").
Proof.
  split.
  - exact (proj1 (C8_zero_is_rendered_as_0 Examples.format_with) Examples.frame_model
             (mkIndex 0 0 true) (VFloat (FFin 0)) eq_refl eq_refl eq_refl).
  - exact (proj1 (C8_zero_is_rendered_as_0 Examples.format_with) Examples.frame_model
             (mkIndex 0 1 true) (VInt 5) eq_refl eq_refl eq_refl).
Defined.

(** ** Row and column counts *)

Lemma Np_setitem_shape {A} (d d' : ndarray A) r c x :
  Np.setitem d r c x = Ok d' -> shape d' = shape d.
Proof.
  unfold Np.setitem. intros H. inv_bind H as k Hk. inv_bind H as line Hline.
  inv_bind H as line' Hline'. by simplify_eq.
Qed.

Lemma Np_setitem_wf {A} (d d' : ndarray A) r c x :
  Np.wf d -> Np.setitem d r c x = Ok d' -> Np.wf d'.
Proof.
  unfold Np.setitem, Np.wf. intros [Hrows Hcols] H.
  inv_bind H as k Hk. inv_bind H as line Hline. inv_bind H as line' Hline'.
  simplify_eq; simpl. rewrite length_insert. split; [done|].
  apply of_option_Ok in Hline.
  apply Forall_insert; [done|].
  rewrite (setitem_length _ _ _ _ Hline').
  by apply (proj1 (Forall_lookup _ _) Hcols k line).
Qed.

Section PandasCounts.

Context {I : Type} (is_datetime64 : I -> bool) (to_datetime : list I -> list I).

Lemma PandasModel_edits_counts (l : list (QModelIndex * pyval)) (m m' : PandasModel.t I) :
  PandasModel.edits m l = Ok m' ->
  PandasModel.r m' = PandasModel.r m /\
  PandasModel.c m' = PandasModel.c m /\
  shape (PandasModel.data_c m') = shape (PandasModel.data_c m) /\
  (Np.wf (PandasModel.data_c m) -> Np.wf (PandasModel.data_c m')).
Proof.
  revert m. induction l as [|[index value] l IH]; intros m; unfold PandasModel.edits; simpl.
  - intros H. by simplify_eq.
  - intros H. inv_bind H as m1 Hm1.
    apply IH in H as (Hr & Hc & Hs & Hwf).
    unfold PandasModel.setData in Hm1. inv_bind Hm1 as d Hd. simplify_eq; simpl in *.
    rewrite Hs, (Np_setitem_shape _ _ _ _ _ Hd).
    split; [done|]. split; [done|]. split; [done|].
    intros Hw. apply Hwf. by eapply Np_setitem_wf.
Qed.

End PandasCounts.

Lemma foldM_invariant {A B} (P : A -> Prop) (f : A -> B -> result A) (l : list B) (a a' : A) :
  (forall a b a', P a -> f a b = Ok a' -> P a') ->
  P a -> foldM f l a = Ok a' -> P a'.
Proof.
  intros Hstep. revert a. induction l as [|b l IH]; intros a Ha; simpl.
  - intros H. by simplify_eq.
  - intros H. inv_bind H as a1 Ha1. eauto.
Qed.

Lemma ObjectsModel_set_delegates_keeps (m m' : ObjectsModel.t) :
  ObjectsModel.set_delegates m = Ok m' ->
  ObjectsModel.frame m m' /\ ObjectsModel.objects m' = ObjectsModel.objects m.
Proof.
  unfold ObjectsModel.set_delegates.
  apply (foldM_invariant
           (fun m' => ObjectsModel.frame m m' /\
                      ObjectsModel.objects m' = ObjectsModel.objects m)).
  - intros a i a' [(Hr & Hc & Ht & Ha & Hl) Ho] H.
    inv_bind H as tpe Htpe.
    destruct tpe; simplify_eq; try done.
    + destruct (_ =? _); [|by simplify_eq].
      inv_bind H as attr Hattr. by simplify_eq.
    + inv_bind H as objs Hobjs. by simplify_eq.
  - by unfold ObjectsModel.frame.
Qed.

Section ObjectsCounts.

Context (BranchType : pyval -> result pyval)
        (update_symbol : pyobj -> result unit).

Lemma ObjectsModel_setData_keeps (m m' : ObjectsModel.t) index value b :
  ObjectsModel.setData BranchType update_symbol m index value = Ok (b, m') ->
  ObjectsModel.frame m m'.
Proof.
  unfold ObjectsModel.setData, ObjectsModel.frame.
  intros H. inv_bind H as tpe Htpe. inv_bind H as attr Hattr. inv_bind H as taken Htaken.
  destruct taken; simpl in H; [by simplify_eq; repeat split|].
  destruct (Py.mem_str attr (ObjectsModel.non_editable_attributes m)); simpl in H;
    [by simplify_eq; repeat split|].
  destruct (bool_decide _).
  - inv_bind H as k Hk. inv_bind H as obj Hobj. inv_bind H as v Hv. inv_bind H as u Hu.
    simplify_eq; simpl. by rewrite length_insert.
  - inv_bind H as k Hk. inv_bind H as obj Hobj.
    simplify_eq; simpl. by rewrite length_insert.
Qed.

Lemma ObjectsModel_edits_keeps (l : list (QModelIndex * pyval)) (m m' : ObjectsModel.t) :
  ObjectsModel.edits BranchType update_symbol m l = Ok m' -> ObjectsModel.frame m m'.
Proof.
  unfold ObjectsModel.edits.
  apply (foldM_invariant (ObjectsModel.frame m)).
  - intros a [index value] a' (Hr & Hc & Ht & Ha & Hl) H.
    inv_bind H as [b a1] Hset. simplify_eq.
    destruct (ObjectsModel_setData_keeps _ _ _ _ _ Hset) as (Hr' & Hc' & Ht' & Ha' & Hl').
    unfold ObjectsModel.frame. by rewrite Hr', Hc', Ht', Ha', Hl'.
  - by unfold ObjectsModel.frame.
Qed.

End ObjectsCounts.

Lemma ObjectsModel_init_counts objects editable_headers editable non_editable_attributes
    transposed check_unique dictionary_of_lists (m : ObjectsModel.t) :
  ObjectsModel.init objects editable_headers editable non_editable_attributes
                    transposed check_unique dictionary_of_lists = Ok m ->
  ObjectsModel.r m = Z.of_nat (length objects) /\
  ObjectsModel.c m = Z.of_nat (length editable_headers) /\
  ObjectsModel.transposed m = transposed /\
  ObjectsModel.attributes m = editable_headers.*1 /\
  ObjectsModel.objects m = objects.
Proof.
  unfold ObjectsModel.init. intros H.
  apply ObjectsModel_set_delegates_keeps in H as [(Hr & Hc & Ht & Ha & Hl) Ho].
  simpl in *. by rewrite length_fmap in Hc.
Qed.

(** C7: the counts of the table models are the sizes of what they show.
    A [PandasModel] built from a data frame has, after any edits, the
    rows and columns of the frame; a [WiresTable] has one row per wire and
    one column per header; an [ObjectsModel] has, after any edits, one row
    per object and one column per attribute, or the reverse when it is
    transposed. *)
Theorem C7_counts_match_collections :
  (forall (I : Type) (is_datetime64 : I -> bool) (to_datetime : list I -> list I)
          (data : PandasModel.DataFrame I) (editable : bool) (editable_min_idx decimals : Z)
          (l : list (QModelIndex * pyval)) (m : PandasModel.t I),
     PandasModel.edits
       (PandasModel.init is_datetime64 to_datetime data editable editable_min_idx decimals)
       l = Ok m ->
     PandasModel.rowCount m = (shape (PandasModel.values data)).1 /\
     PandasModel.columnCount m = (shape (PandasModel.values data)).2 /\
     (Np.wf (PandasModel.values data) ->
      Z.of_nat (length (cells (PandasModel.data_c m))) = PandasModel.rowCount m /\
      Forall (fun line => Z.of_nat (length line) = PandasModel.columnCount m)
             (cells (PandasModel.data_c m)))) /\
  (forall (m : WiresTable.t) (wire : pyobj),
     WiresTable.rowCount m = Z.of_nat (length (WiresTable.wires m)) /\
     WiresTable.columnCount m = Z.of_nat (length (WiresTable.header m)) /\
     WiresTable.rowCount (WiresTable.add m wire) = WiresTable.rowCount m + 1 /\
     WiresTable.columnCount (WiresTable.add m wire) = WiresTable.columnCount m) /\
  (forall (BranchType : pyval -> result pyval) (update_symbol : pyobj -> result unit)
          (objects : list pyobj) (editable_headers : list (string * ObjectsModel.GCProp))
          (editable : bool) (non_editable_attributes : list string) (transposed : bool)
          (check_unique : list string) (dictionary_of_lists : gmap string (list pyobj))
          (l : list (QModelIndex * pyval)) (m0 m : ObjectsModel.t),
     ObjectsModel.init objects editable_headers editable non_editable_attributes
                       transposed check_unique dictionary_of_lists = Ok m0 ->
     ObjectsModel.edits BranchType update_symbol m0 l = Ok m ->
     length (ObjectsModel.objects m) = length objects /\
     ObjectsModel.attributes m = editable_headers.*1 /\
     ObjectsModel.rowCount m =
       Z.of_nat (if transposed then length (ObjectsModel.attributes m)
                 else length (ObjectsModel.objects m)) /\
     ObjectsModel.columnCount m =
       Z.of_nat (if transposed then length (ObjectsModel.objects m)
                 else length (ObjectsModel.attributes m))).
Proof.
  split; [|split].
  - intros I is_datetime64 to_datetime data editable editable_min_idx decimals l m H.
    apply PandasModel_edits_counts in H as (Hr & Hc & Hs & Hwf).
    unfold PandasModel.rowCount, PandasModel.columnCount. rewrite Hr, Hc.
    unfold PandasModel.init in *.
    destruct (shape (PandasModel.values data)) as [r c] eqn:Hshape. simpl in *.
    split; [done|]. split; [done|]. intros Hw.
    destruct (Hwf Hw) as [Hrows Hcols]. rewrite Hs, Hshape in Hrows, Hcols. by simpl in *.
  - intros m wire. unfold WiresTable.rowCount, WiresTable.columnCount, WiresTable.add. simpl.
    rewrite length_app. simpl. repeat split; lia.
  - intros BranchType update_symbol objects editable_headers editable
      non_editable_attributes transposed check_unique dictionary_of_lists l m0 m Hinit Hedits.
    apply ObjectsModel_init_counts in Hinit as (Hr0 & Hc0 & Ht0 & Ha0 & Ho0).
    apply ObjectsModel_edits_keeps in Hedits as (Hr & Hc & Ht & Ha & Hl).
    unfold ObjectsModel.rowCount, ObjectsModel.columnCount.
    rewrite Ht, Ht0, Hr, Hc, Hr0, Hc0, Hl, Ha, Ha0, Ho0, length_fmap.
    by destruct transposed.
Qed.

(** At the examples: the frame of one row and three columns, and the two
    buses with their one attribute. *)
Lemma C7_counts_match_collections_witness :
  (PandasModel.rowCount Examples.frame_model = 1 /\
   PandasModel.columnCount Examples.frame_model = 3) /\
  (ObjectsModel.rowCount Examples.buses = 2 /\ ObjectsModel.columnCount Examples.buses = 1).
Proof.
  split.
  - destruct (proj1 C7_counts_match_collections string (fun _ => false) id Examples.frame
                false (-1) 6 [] Examples.frame_model eq_refl) as (Hr & Hc & _).
    split; [exact Hr|exact Hc].
  - destruct (proj2 (proj2 C7_counts_match_collections) Examples.branch_type
                Examples.symbol_updated [Examples.bus "a"; Examples.bus "b"]
                Examples.name_header true [] false ["name"] ∅ [] Examples.buses Examples.buses
                eq_refl eq_refl) as (_ & _ & Hr & Hc).
    split; [exact Hr|exact Hc].
Defined.

(** ** [TowerModel]: the phase of a wire *)



Section TowerPhase.

Context (py_str : pyval -> string)
        (py_float : pyval -> result pyfloat)
        (py_int : pyval -> result Z).

Let setData := TowerModel.setData py_str py_float py_int.
Let converted := TowerModel.converted py_str py_float py_int.
Let try_convert := TowerModel.try_convert py_str py_float py_int.


End TowerPhase.


(** ** [ObjectsModel]: unique names *)


Section UniqueNames.

Context (BranchType : pyval -> result pyval)
        (update_symbol : pyobj -> result unit).


End UniqueNames.



(** The table of wires performs its check for the attribute [tower_name],
    which no column has: the name of a wire is written even when another
    wire already has it. *)
Example WiresTable_setData_writes_a_name_in_use :
  WiresTable.is_used Examples.two_wires (VStr "b") = Ok true /\
  WiresTable.setData Examples.str_of Examples.float_of Examples.int_of Examples.two_wires
                     (mkIndex 0 0 true) (VStr "b") =
    Ok (true, WiresTable.with_wires Examples.two_wires
                [setattr (Examples.named_wire "a") "name" (VStr "b");
                 Examples.named_wire "b"]).
Proof. split; vm_compute; reflexivity. Qed.

(** ** [ObjectHistory]: undo and redo *)

Lemma pop_Ok_snoc {A} (l l' : list A) (x : A) :
  Py.pop l = Ok (x, l') -> l = l' ++ [x].
Proof.
  unfold Py.pop. destruct (last l) as [y|] eqn:Hlast; [|done].
  intros H. simplify_eq. apply last_Some in Hlast as [l'' ->].
  by rewrite removelast_last.
Qed.

Lemma pop_nonempty {A} (l : list A) :
  (0 < length l)%nat -> exists x l', l = l' ++ [x] /\ Py.pop l = Ok (x, l').
Proof.
  intros Hlen. destruct (last l) as [x|] eqn:Hlast.
  - apply last_Some in Hlast as [l' ->]. exists x, l'. split; [done|apply pop_snoc].
  - apply last_None in Hlast. subst l. simpl in Hlen. lia.
Qed.

Section HistoryRoundTrip.

Context {D : Type}.

Implicit Types h : ObjectHistory.t D.

(** X1: when there is a state to undo, [undo] followed by [redo] hands
    back the same state twice and leaves the history exactly as it was;
    likewise [redo] followed by [undo] when there is a state to redo. *)
Theorem X1_undo_redo_round_trip h :
  (ObjectHistory.can_undo h = true ->
   exists val h1,
     ObjectHistory.undo h = Ok (val, h1) /\ ObjectHistory.redo h1 = Ok (val, h)) /\
  (ObjectHistory.can_redo h = true ->
   exists val h1,
     ObjectHistory.redo h = Ok (val, h1) /\ ObjectHistory.undo h1 = Ok (val, h)).
Proof.
  destruct h as [mx pos us rs]. split.
  - unfold ObjectHistory.can_undo, ObjectHistory.undo, ObjectHistory.redo. simpl.
    intros Hcan. apply Z.ltb_lt in Hcan.
    destruct (pop_nonempty us ltac:(lia)) as (x & us' & -> & Hpop).
    rewrite Hpop. simpl. eexists _, _. split; [reflexivity|].
    simpl. by rewrite pop_snoc.
  - unfold ObjectHistory.can_redo, ObjectHistory.undo, ObjectHistory.redo. simpl.
    intros Hcan. apply Z.ltb_lt in Hcan.
    destruct (pop_nonempty rs ltac:(lia)) as (x & rs' & -> & Hpop).
    rewrite Hpop. simpl. eexists _, _. split; [reflexivity|].
    simpl. by rewrite pop_snoc.
Qed.

(** X2: [can_undo] and [can_redo] are exactly the guards of [undo] and
    [redo]: on an empty stack the call raises [IndexError], otherwise it
    returns. *)
Theorem X2_undo_raises_on_empty_stack h :
  (ObjectHistory.can_undo h = false <-> ObjectHistory.undo h = Raise IndexError) /\
  (ObjectHistory.can_redo h = false <-> ObjectHistory.redo h = Raise IndexError).
Proof.
  destruct h as [mx pos us rs].
  unfold ObjectHistory.can_undo, ObjectHistory.can_redo, ObjectHistory.undo,
    ObjectHistory.redo. simpl. split.
  - destruct us as [|u us] using rev_ind; [done|].
    rewrite pop_snoc, length_app. simpl. split; [|done].
    intros H. apply Z.ltb_ge in H. lia.
  - destruct rs as [|u rs] using rev_ind; [done|].
    rewrite pop_snoc, length_app. simpl. split; [|done].
    intros H. apply Z.ltb_ge in H. lia.
Qed.

(** X3: a history built with a maximum below -1 cannot take a state: the
    guard of [add_state] holds on the empty stack and [pop(0)] raises
    [IndexError]. *)
Theorem X3_negative_maximum_raises (max_undo_states : Z) (action_name : string) (data : D) :
  max_undo_states < -1 ->
  ObjectHistory.add_state (ObjectHistory.init max_undo_states) action_name data =
    Raise IndexError.
Proof.
  intros Hmax. unfold ObjectHistory.add_state, ObjectHistory.init. simpl.
  replace (max_undo_states + 1 <? Z.of_nat 0) with true
    by (symmetry; apply Z.ltb_lt; lia).
  reflexivity.
Qed.

(** X4: from a new history with maximum [m], any sequence of [add_state]
    calls returns and leaves on the undo stack the newest [m + 2] states of
    the sequence, oldest first, and nothing on the redo stack. *)
Theorem X4_add_states_keeps_newest (m : nat) (l : list (string * D)) :
  exists h,
    ObjectHistory.add_states (ObjectHistory.init (Z.of_nat m)) l = Ok h /\
    ObjectHistory.undo_stack h = drop (length l - (m + 2)) l /\
    ObjectHistory.redo_stack h = [] /\
    ObjectHistory.max_undo_states h = Z.of_nat m.
Proof.
  induction l as [|s l IH] using rev_ind.
  - eexists. split; [reflexivity|]. done.
  - destruct IH as (h & Hh & Hus & Hrs & Hmax).
    rewrite add_states_snoc, Hh. simpl.
    unfold ObjectHistory.add_state. rewrite Hmax, Hus, Hrs, length_drop, length_app.
    simpl.
    destruct (Z.of_nat m + 1 <? Z.of_nat (length l - (length l - (m + 2)))) eqn:Hguard.
    + apply Z.ltb_lt in Hguard.
      destruct (drop (length l - (m + 2)) l) as [|x us] eqn:Hdrop.
      { apply (f_equal length) in Hdrop. rewrite length_drop in Hdrop. simpl in Hdrop. lia. }
      simpl. eexists. split; [reflexivity|]. simpl. split; [|done].
      replace (length l + 1 - (m + 2))%nat with (S (length l - (m + 2))) by lia.
      rewrite drop_app_le by lia.
      f_equal; [|by destruct s].
      change us with (drop 1 (x :: us)). rewrite <- Hdrop, drop_drop.
      f_equal. lia.
    + apply Z.ltb_ge in Hguard. simpl. eexists. split; [reflexivity|]. simpl.
      split; [|done].
      replace (length l + 1 - (m + 2))%nat with 0%nat by lia.
      replace (length l - (m + 2))%nat with 0%nat by lia. by destruct s.
Qed.

End HistoryRoundTrip.

Lemma X3_negative_maximum_raises_witness :
  ObjectHistory.add_state (ObjectHistory.init (-2)) "initial" ([] : list (Z * nat)) =
    Raise IndexError.
Proof. apply X3_negative_maximum_raises. lia. Defined.

(** ** [ProfilesModel]: what the operations keep *)

Lemma index_nat (n k : nat) : (k < n)%nat -> Py.index n (Z.of_nat k) = Ok k.
Proof.
  intros Hk. unfold Py.index.
  replace ((0 <=? Z.of_nat k) && (Z.of_nat k <? Z.of_nat n)) with true
    by (symmetry; apply andb_true_intro; split; [apply Z.leb_le|apply Z.ltb_lt]; lia).
  by rewrite Nat2Z.id.
Qed.

Section ProfilesFrame.

Context {V : Type}.

Implicit Types m : ProfilesModel.t V.

Lemma profiles_add_state_keeps m columns action m' :
  ProfilesModel.add_state m columns action = Ok m' ->
  ProfilesModel.r m' = ProfilesModel.r m /\
  ProfilesModel.c m' = ProfilesModel.c m /\
  ProfilesModel.elements m' = ProfilesModel.elements m /\
  ProfilesModel.magnitude m' = ProfilesModel.magnitude m /\
  ProfilesModel.non_editable_indices m' = ProfilesModel.non_editable_indices m.
Proof.
  unfold ProfilesModel.add_state. intros H.
  inv_bind H as [hp data] Hloop. inv_bind H as h Hh. by simplify_eq.
Qed.

Lemma profiles_restore_keeps m data m' :
  ProfilesModel.restore m data = Ok m' ->
  ProfilesModel.r m' = ProfilesModel.r m /\
  ProfilesModel.c m' = ProfilesModel.c m /\
  length (ProfilesModel.elements m') = length (ProfilesModel.elements m) /\
  ProfilesModel.magnitude m' = ProfilesModel.magnitude m /\
  ProfilesModel.non_editable_indices m' = ProfilesModel.non_editable_indices m /\
  ProfilesModel.heap m' = ProfilesModel.heap m /\
  ProfilesModel.history m' = ProfilesModel.history m.
Proof.
  unfold ProfilesModel.restore. intros H. inv_bind H as elms Helms. simplify_eq; simpl.
  repeat (split; [done|]). split; [|done].
  revert Helms.
  apply (foldM_invariant (fun elms => length elms = length (ProfilesModel.elements m)));
    [|done].
  intros a [col array] a' Ha H. inv_bind H as k Hk. inv_bind H as e He.
  inv_bind H as p Hp. simplify_eq. by rewrite length_insert.
Qed.

(** X5: the counts of a [ProfilesModel] are those taken by the
    constructor, the length of the time profile and the number of elements,
    and no edit, undo or redo changes them or the number of elements. *)
Theorem X5_profiles_counts_are_kept :
  (forall (time_profile_len : nat) (elms : list ProfilesModel.element) (hp : list (list V))
          (magn : string) (max_undo_states : Z) m,
     ProfilesModel.init time_profile_len elms hp magn max_undo_states = Ok m ->
     ProfilesModel.rowCount m = Z.of_nat time_profile_len /\
     ProfilesModel.columnCount m = Z.of_nat (length elms) /\
     ProfilesModel.elements m = elms) /\
  (forall m index value b m',
     ProfilesModel.setData m index value = Ok (b, m') ->
     ProfilesModel.rowCount m' = ProfilesModel.rowCount m /\
     ProfilesModel.columnCount m' = ProfilesModel.columnCount m /\
     ProfilesModel.elements m' = ProfilesModel.elements m) /\
  (forall m m',
     ProfilesModel.undo m = Ok m' \/ ProfilesModel.redo m = Ok m' ->
     ProfilesModel.rowCount m' = ProfilesModel.rowCount m /\
     ProfilesModel.columnCount m' = ProfilesModel.columnCount m /\
     length (ProfilesModel.elements m') = length (ProfilesModel.elements m)).
Proof.
  unfold ProfilesModel.rowCount, ProfilesModel.columnCount. split; [|split].
  - intros nt elms hp magn mx m H. unfold ProfilesModel.init in H.
    apply profiles_add_state_keeps in H as (Hr & Hc & He & _). by rewrite Hr, Hc, He.
  - intros m index value b m'. unfold ProfilesModel.setData.
    destruct (negb _); [|intros H; by simplify_eq].
    intros H. inv_bind H as a Ha. inv_bind H as arr Harr. inv_bind H as arr' Harr'.
    inv_bind H as m1 Hm1. simplify_eq.
    by apply profiles_add_state_keeps in Hm1 as (Hr & Hc & He & _).
  - intros m m' [H|H].
    + unfold ProfilesModel.undo in H.
      destruct (ObjectHistory.can_undo _); [|by simplify_eq].
      inv_bind H as [[action data] h] Hu.
      by apply profiles_restore_keeps in H as (Hr & Hc & He & _).
    + unfold ProfilesModel.redo in H.
      destruct (ObjectHistory.can_redo _); [|by simplify_eq].
      inv_bind H as [[action data] h] Hu.
      by apply profiles_restore_keeps in H as (Hr & Hc & He & _).
Qed.

End ProfilesFrame.

Section ProfilesAliasing.

Context {V : Type}.

Implicit Types m : ProfilesModel.t V.

(** What an edit of an editable column does to the model. *)
Lemma profiles_setData_inv m index value b m1 :
  column index ∉ ProfilesModel.non_editable_indices m ->
  ProfilesModel.setData m index value = Ok (b, m1) ->
  exists a arr arr' us,
    ProfilesModel.profile_ref m (column index) = Ok a /\
    ProfilesModel.heap m !! a = Some arr /\
    Py.setitem arr (row index) value = Ok arr' /\
    ProfilesModel.elements m1 = ProfilesModel.elements m /\
    ProfilesModel.magnitude m1 = ProfilesModel.magnitude m /\
    ProfilesModel.non_editable_indices m1 = ProfilesModel.non_editable_indices m /\
    ProfilesModel.heap m1 = <[a:=arr']> (ProfilesModel.heap m) ++ [arr'] /\
    ObjectHistory.undo_stack (ProfilesModel.history m1) =
      us ++ [("", [(column index, length (ProfilesModel.heap m))])] /\
    ObjectHistory.redo_stack (ProfilesModel.history m1) =
      ObjectHistory.redo_stack (ProfilesModel.history m) /\
    ObjectHistory.max_undo_states (ProfilesModel.history m1) =
      ObjectHistory.max_undo_states (ProfilesModel.history m) /\
    us = (if ObjectHistory.max_undo_states (ProfilesModel.history m) + 1 <?
             Z.of_nat (length (ObjectHistory.undo_stack (ProfilesModel.history m)))
          then drop 1 (ObjectHistory.undo_stack (ProfilesModel.history m))
          else ObjectHistory.undo_stack (ProfilesModel.history m)).
Proof.
  intros Hed. unfold ProfilesModel.setData, Py.mem_Z.
  rewrite (bool_decide_eq_false_2 _ Hed). simpl. intros H.
  inv_bind H as a Ha. inv_bind H as arr Harr. inv_bind H as arr' Harr'.
  inv_bind H as m' Hm'. simplify_eq.
  unfold ProfilesModel.add_state in Hm'. simpl in Hm'.
  inv_bind Hm' as [hp data] Hloop. inv_bind Hm' as h Hh.
  inv_bind Hloop as [hp' data'] Hbody. inv_bind Hbody as a2 Ha2.
  inv_bind Hbody as arr2 Harr2. simplify_eq. simpl.
  change (ProfilesModel.profile_ref m (column index) = Ok a2) in Ha2.
  assert (a2 = a) as -> by congruence.
  apply of_option_Ok in Harr. pose proof (lookup_lt_Some _ _ _ Harr) as Hlt.
  apply of_option_Ok in Harr2. rewrite list_lookup_insert_eq in Harr2 by done.
  simplify_eq. rewrite length_insert in Hh.
  unfold ObjectHistory.add_state in Hh. inv_bind Hh as us Hus. simplify_eq. simpl.
  exists a, arr, arr2, us. repeat (split; [done|]).
  destruct (_ <? _).
  - inv_bind Hus as [s us'] Hpop. simplify_eq.
    destruct (ObjectHistory.undo_stack (ProfilesModel.history m)) as [|s' us'];
      simpl in Hpop; by simplify_eq.
  - by simplify_eq.
Qed.

(** [undo] on a model whose newest state snapshots one column. *)
Lemma profiles_undo_single m us action col a k e p :
  ObjectHistory.undo_stack (ProfilesModel.history m) = us ++ [(action, [(col, a)])] ->
  Py.index (length (ProfilesModel.elements m)) col = Ok k ->
  ProfilesModel.elements m !! k = Some e ->
  ProfilesModel.properties_with_profile e !! ProfilesModel.magnitude m = Some p ->
  exists m2,
    ProfilesModel.undo m = Ok m2 /\
    ProfilesModel.elements m2 =
      <[k:=ProfilesModel.mkElement (ProfilesModel.name e)
             (ProfilesModel.properties_with_profile e)
             (<[p:=a]> (ProfilesModel.attrs e))]> (ProfilesModel.elements m) /\
    ProfilesModel.magnitude m2 = ProfilesModel.magnitude m /\
    ProfilesModel.non_editable_indices m2 = ProfilesModel.non_editable_indices m /\
    ProfilesModel.heap m2 = ProfilesModel.heap m /\
    ObjectHistory.undo_stack (ProfilesModel.history m2) = us /\
    ObjectHistory.redo_stack (ProfilesModel.history m2) =
      ObjectHistory.redo_stack (ProfilesModel.history m) ++ [(action, [(col, a)])] /\
    ObjectHistory.max_undo_states (ProfilesModel.history m2) =
      ObjectHistory.max_undo_states (ProfilesModel.history m) /\
    ProfilesModel.profile_ref m2 col = Ok a.
Proof.
  intros Hus Hk He Hp.
  unfold ProfilesModel.undo, ObjectHistory.can_undo, ObjectHistory.undo.
  rewrite Hus, length_app, pop_snoc. simpl.
  replace (0 <? Z.of_nat (length us + 1)) with true by (symmetry; apply Z.ltb_lt; lia).
  unfold ProfilesModel.restore. simpl. rewrite Hk. simpl. rewrite He. simpl.
  rewrite Hp. simpl. eexists. split; [reflexivity|]. simpl.
  repeat (split; [done|]).
  unfold ProfilesModel.profile_ref, Py.getitem. simpl.
  rewrite length_insert, Hk. simpl.
  rewrite list_lookup_insert_eq by (by eapply lookup_lt_Some). simpl.
  rewrite Hp. simpl. by rewrite lookup_insert_eq.
Qed.

(** X6: [restore] installs the array of the history without copying it.
    After an edit and [undo], the array of the edited column is the very
    array kept on the redo stack, so a further edit of that column changes
    the state that [redo] would bring back. *)
Theorem X6_undo_shares_the_array_with_the_history m index value b m1 :
  column index ∉ ProfilesModel.non_editable_indices m ->
  ProfilesModel.setData m index value = Ok (b, m1) ->
  exists m2 a arr,
    ProfilesModel.undo m1 = Ok m2 /\
    last (ObjectHistory.redo_stack (ProfilesModel.history m2)) =
      Some ("", [(column index, a)]) /\
    ProfilesModel.profile_ref m2 (column index) = Ok a /\
    ProfilesModel.heap m2 !! a = Some arr /\
    forall index' value' b' m3,
      column index' = column index ->
      ProfilesModel.setData m2 index' value' = Ok (b', m3) ->
      last (ObjectHistory.redo_stack (ProfilesModel.history m3)) =
        Some ("", [(column index, a)]) /\
      exists arr', Py.setitem arr (row index') value' = Ok arr' /\
                   ProfilesModel.heap m3 !! a = Some arr'.
Proof.
  intros Hed Hset.
  destruct (profiles_setData_inv _ _ _ _ _ Hed Hset)
    as (a & arr & arr' & us & Ha & Harr & Harr' & Hel & Hmag & Hne & Hhp & Hus & Hrs & _).
  destruct (profile_ref_inv _ _ _ Ha) as (k & e & p & Hk & He & Hp & Hattr).
  rewrite <- Hel in Hk, He. rewrite <- Hmag in Hp.
  destruct (profiles_undo_single _ _ _ _ _ _ _ _ Hus Hk He Hp)
    as (m2 & Hundo & Hel2 & Hmag2 & Hne2 & Hhp2 & Hus2 & Hrs2 & _ & Hrefs2).
  pose proof (lookup_lt_Some _ _ _ Harr) as Hlt.
  assert (Hcopy : ProfilesModel.heap m2 !! length (ProfilesModel.heap m) = Some arr').
  { rewrite Hhp2, Hhp. rewrite list_lookup_middle; [done|by rewrite length_insert]. }
  exists m2, (length (ProfilesModel.heap m)), arr'.
  split; [done|]. split; [by rewrite Hrs2, last_snoc|]. split; [done|]. split; [done|].
  intros index' value' b' m3 Hcol Hset'.
  assert (Hed' : column index' ∉ ProfilesModel.non_editable_indices m2)
    by (by rewrite Hcol, Hne2, Hne).
  destruct (profiles_setData_inv _ _ _ _ _ Hed' Hset')
    as (a3 & arr3 & arr3' & us3 & Ha3 & Harr3 & Harr3' & _ & _ & _ & Hhp3 & _ & Hrs3 & _).
  rewrite Hcol, Hrefs2 in Ha3. simplify_eq.
  assert (arr3 = arr') as -> by (pose proof (eq_trans (eq_sym Hcopy) Harr3); by simplify_eq).
  split; [by rewrite Hrs3, Hrs2, last_snoc|].
  exists arr3'. split; [done|].
  rewrite Hhp3. rewrite lookup_app_l by (rewrite length_insert; by eapply lookup_lt_Some).
  apply list_lookup_insert_eq. by eapply lookup_lt_Some.
Qed.

End ProfilesAliasing.

Lemma dict_set_fresh {V} (d : list (Z * V)) (k : Z) (v : V) :
  k ∉ d.*1 -> Py.dict_set d k v = d ++ [(k, v)].
Proof.
  induction d as [|[k' v'] d IH]; simpl; [done|].
  intros Hk. apply not_elem_of_cons in Hk as [Hne Hk].
  destruct (Z.eqb_spec k k'); [done|]. by rewrite IH.
Qed.

Section ProfilesLoops.

Context {V : Type}.

Implicit Types m : ProfilesModel.t V.

(** The loop of [add_state] over distinct columns that are not yet in the
    dict: the heap grows by one copy per column, in order. *)
Lemma profiles_add_state_loop m (hp_base : list (list V)) cols :
  (forall col a, ProfilesModel.profile_ref m col = Ok a -> (a < length hp_base)%nat) ->
  forall ext data hp1 data1,
  NoDup cols ->
  (forall col, col ∈ cols -> col ∉ data.*1) ->
  foldM (fun '(hp, data) col =>
           a ← ProfilesModel.profile_ref m col;
           arr ← ProfilesModel.deref hp a;
           let '(hp', a') := ProfilesModel.copy hp arr in
           Ok (hp', Py.dict_set data col a'))
        cols (hp_base ++ ext, data) = Ok (hp1, data1) ->
  exists arrs,
    Forall2 (fun col arr => exists a, ProfilesModel.profile_ref m col = Ok a /\
                                      hp_base !! a = Some arr) cols arrs /\
    hp1 = hp_base ++ ext ++ arrs /\
    data1 = data ++ zip cols (seq (length (hp_base ++ ext)) (length cols)).
Proof.
  intros Hwf. induction cols as [|col cols IH]; intros ext data hp1 data1 Hnd Hfresh; simpl.
  - intros H. simplify_eq. exists []. by rewrite !app_nil_r.
  - intros H. inv_bind H as [hp2 data2] Hstep.
    inv_bind Hstep as a Ha. inv_bind Hstep as arr Harr. simpl in Hstep. simplify_eq.
    apply of_option_Ok in Harr.
    pose proof (Hwf _ _ Ha) as Hlt. rewrite lookup_app_l in Harr by done.
    apply NoDup_cons in Hnd as [Hcol Hnd].
    rewrite dict_set_fresh in H by (apply Hfresh; left).
    rewrite <- app_assoc in H.
    apply IH in H as (arrs & Hall & -> & ->); [|done|].
    + exists (arr :: arrs). split; [constructor; eauto|].
      split; [by rewrite <- !app_assoc|].
      rewrite <- !app_assoc. simpl. do 3 f_equal.
      rewrite !length_app. simpl. f_equal. lia.
    + intros col' Hin. rewrite fmap_app, elem_of_app. simpl.
      rewrite list_elem_of_singleton. intros [Hd| ->]; [|done].
      by apply (Hfresh col'); [right|].
Qed.

(** The loop of [restore] over a dict with distinct keys, each a column
    of the table whose element has a profile for the magnitude. *)
Lemma profiles_restore_loop (magn : string) (data : list (Z * ProfilesModel.addr))
    (elms0 : list ProfilesModel.element) :
  NoDup data.*1 ->
  (forall col a, (col, a) ∈ data ->
     exists (j : nat) e p, col = Z.of_nat j /\ elms0 !! j = Some e /\
                           ProfilesModel.properties_with_profile e !! magn = Some p) ->
  exists elms,
    foldM (fun elms '(col, array) =>
             k ← Py.index (length elms) col;
             e ← of_option IndexError (elms !! k);
             profile_property ← of_option KeyError
                                  (ProfilesModel.properties_with_profile e !! magn);
             Ok (<[k:=ProfilesModel.mkElement (ProfilesModel.name e)
                        (ProfilesModel.properties_with_profile e)
                        (<[profile_property:=array]> (ProfilesModel.attrs e))]> elms))
          data elms0 = Ok elms /\
    length elms = length elms0 /\
    forall (j : nat) e, elms0 !! j = Some e ->
      exists e', elms !! j = Some e' /\
        ProfilesModel.properties_with_profile e' = ProfilesModel.properties_with_profile e /\
        forall a, (Z.of_nat j, a) ∈ data ->
          exists p, ProfilesModel.properties_with_profile e !! magn = Some p /\
                    ProfilesModel.attrs e' !! p = Some a.
Proof.
  induction data as [|[col a] data IH] using rev_ind; intros Hnd Hdata.
  - exists elms0. split; [done|]. split; [done|].
    intros j e He. exists e. split; [done|]. split; [done|].
    intros a Hin. by apply elem_of_nil in Hin.
  - rewrite fmap_app in Hnd. apply NoDup_app in Hnd as (Hnd & Hdisj & _).
    destruct IH as (elms1 & Hfold & Hlen & Hinv); [done| |].
    { intros col' a' Hin. apply (Hdata col' a'). apply elem_of_app. by left. }
    destruct (Hdata col a) as (j & e & p & -> & He & Hp).
    { apply elem_of_app. right. by apply list_elem_of_singleton. }
    destruct (Hinv j e He) as (e1 & He1 & Hprops1 & Hattrs1).
    rewrite foldM_snoc, Hfold. simpl.
    pose proof (lookup_lt_Some _ _ _ He1) as Hlt.
    rewrite (index_nat _ _ Hlt). simpl. rewrite He1. simpl.
    rewrite Hprops1, Hp. simpl.
    eexists. split; [reflexivity|]. split; [by rewrite length_insert|].
    intros j' e' He'. destruct (decide (j' = j)) as [->|Hne].
    + rewrite list_lookup_insert_eq by done. simplify_eq.
      eexists. split; [reflexivity|]. simpl. split; [done|].
      intros a' Hin. apply elem_of_app in Hin as [Hin|Hin].
      * exfalso. apply (Hdisj (Z.of_nat j)).
        -- apply list_elem_of_fmap. by exists (Z.of_nat j, a').
        -- simpl. by apply list_elem_of_singleton.
      * apply list_elem_of_singleton in Hin. simplify_eq.
        exists p. split; [done|]. by rewrite lookup_insert_eq.
    + rewrite list_lookup_insert_ne by done.
      destruct (Hinv j' e' He') as (e1' & He1' & Hprops1' & Hattrs1').
      exists e1'. split; [done|]. split; [done|].
      intros a' Hin. apply elem_of_app in Hin as [Hin|Hin]; [by apply Hattrs1'|].
      apply list_elem_of_singleton in Hin. simplify_eq; lia.
Qed.

End ProfilesLoops.

Lemma range_lookup (n j : nat) :
  (j < n)%nat -> ProfilesModel.range (Z.of_nat n) !! j = Some (Z.of_nat j).
Proof.
  intros Hj. unfold ProfilesModel.range. rewrite Nat2Z.id, list_lookup_fmap.
  by rewrite lookup_seq_lt.
Qed.

Lemma range_length (n : nat) : length (ProfilesModel.range (Z.of_nat n)) = n.
Proof. unfold ProfilesModel.range. by rewrite length_fmap, length_seq, Nat2Z.id. Qed.

Lemma range_NoDup (z : Z) : NoDup (ProfilesModel.range z).
Proof. unfold ProfilesModel.range. apply (NoDup_fmap_2 _). apply NoDup_seq. Qed.

Lemma range_elem_of (n : nat) (z : Z) :
  z ∈ ProfilesModel.range (Z.of_nat n) -> exists j : nat, z = Z.of_nat j /\ (j < n)%nat.
Proof.
  unfold ProfilesModel.range. rewrite Nat2Z.id. intros Hin.
  apply list_elem_of_fmap in Hin as (j & -> & Hj). exists j. split; [done|].
  apply elem_of_seq in Hj. lia.
Qed.

Lemma index_nonneg (n : nat) (i : Z) (k : nat) :
  0 <= i -> Py.index n i = Ok k -> i = Z.of_nat k /\ (k < n)%nat.
Proof.
  intros Hi. unfold Py.index.
  destruct ((0 <=? i) && (i <? Z.of_nat n)) eqn:E.
  - apply andb_prop in E as [_ E]. apply Z.ltb_lt in E. intros H. simplify_eq. lia.
  - replace ((- Z.of_nat n <=? i) && (i <? 0)) with false; [done|].
    symmetry. apply andb_false_intro2. apply Z.ltb_ge. lia.
Qed.

Section ProfilesDoubleUndo.

Context {V : Type}.

Implicit Types m : ProfilesModel.t V.

(** What the constructor builds. *)
Lemma profiles_init_inv (time_profile_len : nat) (elms : list ProfilesModel.element)
    (hp : list (list V)) (magn : string) (max_undo_states : Z) m0 :
  0 <= max_undo_states ->
  Forall (fun e => forall p a, ProfilesModel.attrs e !! p = Some a -> (a < length hp)%nat)
         elms ->
  ProfilesModel.init time_profile_len elms hp magn max_undo_states = Ok m0 ->
  exists arrs,
    length arrs = length elms /\
    (forall (j : nat) arr, arrs !! j = Some arr ->
       exists a e p, elms !! j = Some e /\
         ProfilesModel.properties_with_profile e !! magn = Some p /\
         ProfilesModel.attrs e !! p = Some a /\ hp !! a = Some arr) /\
    ProfilesModel.elements m0 = elms /\
    ProfilesModel.magnitude m0 = magn /\
    ProfilesModel.non_editable_indices m0 = [] /\
    ProfilesModel.heap m0 = hp ++ arrs /\
    ObjectHistory.max_undo_states (ProfilesModel.history m0) = max_undo_states /\
    ObjectHistory.redo_stack (ProfilesModel.history m0) = [] /\
    ObjectHistory.undo_stack (ProfilesModel.history m0) =
      [("initial", zip (ProfilesModel.range (Z.of_nat (length elms)))
                       (seq (length hp) (length elms)))].
Proof.
  intros Hmax Hwf Hinit.
  set (mi := ProfilesModel.mk magn [] (Z.of_nat time_profile_len) (Z.of_nat (length elms))
               elms (ObjectHistory.init max_undo_states) hp).
  assert (Hwf' : forall col a, ProfilesModel.profile_ref mi col = Ok a -> (a < length hp)%nat).
  { intros col a Ha. apply profile_ref_inv in Ha as (k & e & p & Hk & He & Hp & Hattr).
    simpl in *. by apply (proj1 (Forall_lookup _ _) Hwf k e He p a). }
  unfold ProfilesModel.init in Hinit. fold mi in Hinit.
  unfold ProfilesModel.add_state in Hinit.
  inv_bind Hinit as [hp0 data0] Hloop. inv_bind Hinit as h0 Hh0. simplify_eq.
  replace (ProfilesModel.heap mi) with (hp ++ []) in Hloop by apply app_nil_r.
  apply (profiles_add_state_loop mi hp) in Hloop as (arrs & Hall & -> & ->);
    [|done|apply range_NoDup|intros ? ? Hin; by apply elem_of_nil in Hin].
  simpl in *. rewrite app_nil_r in *. rewrite range_length in *.
  unfold ObjectHistory.add_state in Hh0. simpl in Hh0.
  replace (max_undo_states + 1 <? Z.of_nat 0) with false in Hh0
    by (symmetry; apply Z.ltb_ge; lia).
  simpl in Hh0. simplify_eq. simpl.
  pose proof (Forall2_length _ _ _ Hall) as Hlen. rewrite range_length in Hlen.
  exists arrs. split; [done|]. split; [|done].
  intros j arr Harr. pose proof (lookup_lt_Some _ _ _ Harr) as Hj.
  destruct (Forall2_lookup_lr _ _ _ j _ _ Hall (range_lookup (length elms) j ltac:(lia)) Harr)
    as (a & Ha & Hhp).
  apply profile_ref_inv in Ha as (k & e & p & Hk & He & Hp & Hattr). simpl in *.
  rewrite index_nat in Hk by lia. simplify_eq. eauto 10.
Qed.

Theorem X7_second_undo_restores_the_column (time_profile_len : nat)
    (elms : list ProfilesModel.element) (hp : list (list V)) (magn : string)
    (max_undo_states : Z) m0 (index : QModelIndex) (value : V) (b : bool) m1 :
  0 <= max_undo_states ->
  Forall (fun e => forall p a, ProfilesModel.attrs e !! p = Some a -> (a < length hp)%nat)
         elms ->
  0 <= column index ->
  ProfilesModel.init time_profile_len elms hp magn max_undo_states = Ok m0 ->
  ProfilesModel.setData m0 index value = Ok (b, m1) ->
  exists m2 m3 arr arr',
    ProfilesModel.undo m1 = Ok m2 /\ ProfilesModel.undo m2 = Ok m3 /\
    ProfilesModel.profile_array m0 (column index) = Ok arr /\
    Py.setitem arr (row index) value = Ok arr' /\
    ProfilesModel.profile_array m1 (column index) = Ok arr' /\
    ProfilesModel.profile_array m2 (column index) = Ok arr' /\
    ProfilesModel.profile_array m3 (column index) = Ok arr.
Proof.
  intros Hmax Hwf Hcol Hinit Hset.
  destruct (profiles_init_inv _ _ _ _ _ _ Hmax Hwf Hinit)
    as (arrs & Hlen & Harrs & Helms0 & Hmagn0 & Hne0 & Hheap0 & Hmax0 & Hredo0 & Hundo0).
  destruct (profiles_setData_inv m0 index value b m1) as
    (a & arr & arr' & us & Href & Harr & Hsetitem & Helms1 & Hmagn1 & Hne1 & Hheap1 & Hundo1
     & Hredo1 & Hmax1 & Hus); [rewrite Hne0; apply not_elem_of_nil|done|].
  rewrite Hmax0, Hundo0 in Hus. simpl length in Hus.
  replace (max_undo_states + 1 <? Z.of_nat 1) with false in Hus
    by (symmetry; apply Z.ltb_ge; lia).
  pose proof Href as Href0.
  apply profile_ref_inv in Href as (k & e & p & Hk & He & Hp & Hattr).
  rewrite Helms0 in Hk, He. rewrite Hmagn0 in Hp.
  apply index_nonneg in Hk as [Hck Hklt]; [|done].
  destruct (lookup_lt_is_Some_2 arrs k ltac:(lia)) as [arrk Harrk].
  destruct (Harrs k arrk Harrk) as (a' & e' & p' & He' & Hp' & Hattr' & Hhp).
  assert (e' = e) as -> by congruence.
  assert (p' = p) as -> by congruence.
  assert (a' = a) as -> by congruence.
  pose proof (lookup_lt_Some _ _ _ Hhp) as Halt.
  assert (arr = arrk) as ->.
  { rewrite Hheap0 in Harr. rewrite lookup_app_l in Harr by done.
    pose proof (eq_trans (eq_sym Harr) Hhp) as E. by injection E. }
  destruct (profiles_undo_single m1 [("initial",
              zip (ProfilesModel.range (Z.of_nat (length elms)))
                  (seq (length hp) (length elms)))] "" (column index)
              (length (ProfilesModel.heap m0)) k e p)
    as (m2 & Hundo & Helms2 & Hmagn2 & Hne2 & Hheap2 & Hundo2 & Hredo2 & Hmax2 & Href2).
  { by rewrite Hundo1, Hus. }
  { rewrite Helms1, Helms0, Hck. by apply index_nat. }
  { by rewrite Helms1, Helms0. }
  { by rewrite Hmagn1, Hmagn0. }
  set (data0 := zip (ProfilesModel.range (Z.of_nat (length elms)))
                    (seq (length hp) (length elms))) in *.
  assert (Hnd : NoDup data0.*1).
  { unfold data0. rewrite fst_zip by (rewrite range_length, length_seq; lia).
    apply range_NoDup. }
  destruct (profiles_restore_loop magn data0 (ProfilesModel.elements m2))
    as (elms3 & Hfold & Hlen3 & Hinv3); [done| |].
  { intros col ad Hin. apply elem_of_zip_l in Hin.
    apply range_elem_of in Hin as (j & -> & Hj).
    rewrite Helms2, Helms1, Helms0.
    destruct (decide (j = k)) as [->|Hjk].
    - eexists k, _, p. split; [done|]. rewrite list_lookup_insert_eq by lia.
      split; [done|]. done.
    - destruct (lookup_lt_is_Some_2 arrs j) as [arrj Harrj]; [lia|].
      destruct (Harrs j arrj Harrj) as (aj & ej & pj & ? & ? & ? & ?).
      exists j, ej, pj. by rewrite list_lookup_insert_ne by done. }
  assert (exists m3, ProfilesModel.undo m2 = Ok m3 /\ ProfilesModel.elements m3 = elms3 /\
            ProfilesModel.magnitude m3 = magn /\
            ProfilesModel.heap m3 = ProfilesModel.heap m2)
    as (m3 & Hundo3 & Helms3 & Hmagn3 & Hheap3).
  { unfold ProfilesModel.undo, ObjectHistory.can_undo, ObjectHistory.undo.
    rewrite Hundo2. change [("initial", data0)] with ([] ++ [("initial", data0)]).
    rewrite pop_snoc. simpl. unfold ProfilesModel.restore. simpl.
    rewrite Hmagn2, Hmagn1, Hmagn0, Hfold. simpl.
    eexists. split; [reflexivity|]. done. }
  assert (Hin : (Z.of_nat k, (length hp + k)%nat) ∈ data0).
  { apply list_elem_of_lookup. exists k. unfold data0.
    apply lookup_zip_Some. split; [by apply range_lookup|]. by apply lookup_seq_lt. }
  destruct (Hinv3 k (ProfilesModel.mkElement (ProfilesModel.name e)
             (ProfilesModel.properties_with_profile e)
             (<[p:=length (ProfilesModel.heap m0)]> (ProfilesModel.attrs e))))
    as (e3 & He3 & Hprops3 & Hattrs3).
  { rewrite Helms2, Helms1, Helms0. by rewrite list_lookup_insert_eq by lia. }
  destruct (Hattrs3 _ Hin) as (p3 & Hp3 & Hattr3). simpl in Hp3, Hprops3.
  assert (p3 = p) as -> by congruence.
  exists m2, m3, arrk, arr'. split; [done|]. split; [done|].
  assert (Href1 : ProfilesModel.profile_ref m1 (column index) = Ok a).
  { unfold ProfilesModel.profile_ref. rewrite Helms1, Hmagn1. exact Href0. }
  assert (Href3 : ProfilesModel.profile_ref m3 (column index) = Ok (length hp + k)%nat).
  { unfold ProfilesModel.profile_ref, Py.getitem.
    rewrite Helms3, Hmagn3, Hlen3, Helms2, length_insert, Helms1, Helms0, Hck.
    rewrite index_nat by done. simpl. rewrite He3. simpl.
    rewrite Hprops3, Hp3. simpl. by rewrite Hattr3. }
  unfold ProfilesModel.profile_array.
  rewrite Href0, Href1, Href2, Href3. simpl. unfold ProfilesModel.deref.
  rewrite Hheap3, Hheap2, Hheap1, Hheap0. unfold ProfilesModel.addr in *.
  split; [by rewrite lookup_app_l, Hhp by done|]. split; [done|].
  split.
  { rewrite lookup_app_l by (rewrite length_insert, length_app; lia).
    by rewrite list_lookup_insert_eq by (rewrite length_app; lia). }
  split.
  { replace (length (hp ++ arrs)) with (length (<[a:=arr']> (hp ++ arrs)))
      by apply length_insert.
    by rewrite list_lookup_middle. }
  rewrite lookup_app_l by (rewrite length_insert, length_app; lia).
  rewrite list_lookup_insert_ne by lia.
  rewrite lookup_app_r by lia.
  replace (length hp + k - length hp)%nat with k by lia. by rewrite Harrk.
Qed.

End ProfilesDoubleUndo.

Lemma X1_undo_redo_round_trip_witness :
  exists val h1,
    ObjectHistory.undo Examples.one_state = Ok (val, h1) /\
    ObjectHistory.redo h1 = Ok (val, Examples.one_state).
Proof. apply (proj1 (X1_undo_redo_round_trip Examples.one_state)). reflexivity. Defined.

Lemma X5_profiles_counts_are_kept_witness :
  ProfilesModel.rowCount Examples.profiles_edited = ProfilesModel.rowCount Examples.profiles /\
  ProfilesModel.columnCount Examples.profiles_edited =
    ProfilesModel.columnCount Examples.profiles /\
  ProfilesModel.elements Examples.profiles_edited = ProfilesModel.elements Examples.profiles.
Proof.
  apply (proj1 (proj2 X5_profiles_counts_are_kept) Examples.profiles (mkIndex 1 0 true) 9 true).
  vm_compute. reflexivity.
Defined.

Lemma X6_undo_shares_the_array_with_the_history_witness :
  exists m2 a arr,
    ProfilesModel.undo Examples.profiles_edited = Ok m2 /\
    last (ObjectHistory.redo_stack (ProfilesModel.history m2)) = Some ("", [(0, a)]) /\
    ProfilesModel.profile_ref m2 0 = Ok a /\
    ProfilesModel.heap m2 !! a = Some arr /\
    forall index' value' b' m3,
      column index' = 0 ->
      ProfilesModel.setData m2 index' value' = Ok (b', m3) ->
      last (ObjectHistory.redo_stack (ProfilesModel.history m3)) = Some ("", [(0, a)]) /\
      exists arr', Py.setitem arr (row index') value' = Ok arr' /\
                   ProfilesModel.heap m3 !! a = Some arr'.
Proof.
  apply (X6_undo_shares_the_array_with_the_history Examples.profiles (mkIndex 1 0 true) 9 true
           Examples.profiles_edited).
  - vm_compute. apply not_elem_of_nil.
  - vm_compute. reflexivity.
Defined.

Lemma X7_second_undo_restores_the_column_witness :
  exists m2 m3 arr arr',
    ProfilesModel.undo Examples.profiles_edited = Ok m2 /\ ProfilesModel.undo m2 = Ok m3 /\
    ProfilesModel.profile_array Examples.profiles 0 = Ok arr /\
    Py.setitem arr 1 9 = Ok arr' /\
    ProfilesModel.profile_array Examples.profiles_edited 0 = Ok arr' /\
    ProfilesModel.profile_array m2 0 = Ok arr' /\
    ProfilesModel.profile_array m3 0 = Ok arr.
Proof.
  apply (X7_second_undo_restores_the_column 3 [Examples.load] [[1; 2; 3]] "P" 100
           Examples.profiles (mkIndex 1 0 true) 9 true Examples.profiles_edited).
  - lia.
  - apply Forall_cons. split; [|apply Forall_nil_2].
    intros p a H. unfold Examples.load in H. simpl in H.
    apply lookup_singleton_Some in H as [_ <-]. simpl. lia.
  - simpl. lia.
  - vm_compute. reflexivity.
  - vm_compute. reflexivity.
Defined.

(** ** [PandasModel]: writing cells *)

Lemma index_Ok_nat (n : nat) (i : Z) (k : nat) :
  Py.index n i = Ok k -> Py.index n (Z.of_nat k) = Ok k.
Proof. intros H. apply index_nat. by apply index_Ok_lt in H. Qed.


Section PandasCells.

Context {I : Type}.

Implicit Types m : PandasModel.t I.


(** The loop of [data[:, col] = x] over the rows. *)
Lemma Np_setcol_loop {A} (col : Z) (x : A) (rows acc out : list (list A)) :
  foldM (fun acc line => line' ← Py.setitem line col x; Ok (acc ++ [line'])) rows acc = Ok out ->
  exists rows',
    out = acc ++ rows' /\
    Forall2 (fun line line' =>
               exists kc, Py.index (length line) col = Ok kc /\ line' = <[kc:=x]> line)
            rows rows'.
Proof.
  revert acc. induction rows as [|line rows IH]; intros acc H; simpl in H.
  - simplify_eq. exists []. by rewrite app_nil_r.
  - inv_bind H as acc1 Hacc1. inv_bind Hacc1 as line' Hline'. simplify_eq.
    apply IH in H as (rows' & -> & Hall). exists (line' :: rows').
    split; [by rewrite <- app_assoc|]. apply Forall2_cons. split; [|done].
    unfold Py.setitem in Hline'. inv_bind Hline' as kc Hkc. simplify_eq. eauto.
Qed.

(** X9: a successful [copy_to_column] reads the cell at [row, col] and
    writes its value at [col] in every row; the number of rows, every
    other cell and the counts of the model stay as they were. *)
Theorem X9_copy_to_column_fills_the_column m (row col : Z) m' :
  PandasModel.copy_to_column m row col = Ok m' ->
  exists x,
    Np.getitem (PandasModel.data_c m) row col = Ok x /\
    PandasModel.rowCount m' = PandasModel.rowCount m /\
    PandasModel.columnCount m' = PandasModel.columnCount m /\
    length (cells (PandasModel.data_c m')) = length (cells (PandasModel.data_c m)) /\
    forall (i : nat) (line : list pyval),
      cells (PandasModel.data_c m) !! i = Some line ->
      exists kc, Py.index (length line) col = Ok kc /\
                 cells (PandasModel.data_c m') !! i = Some (<[kc:=x]> line).
Proof.
  unfold PandasModel.copy_to_column. intros H. inv_bind H as x Hx. inv_bind H as d Hd.
  simplify_eq. exists x. split; [done|]. split; [done|]. split; [done|]. simpl.
  unfold Np.setcol in Hd. inv_bind Hd as rows Hrows. simplify_eq. simpl.
  apply Np_setcol_loop in Hrows as (rows' & -> & Hall). simpl.
  split; [symmetry; by eapply Forall2_length|].
  intros i line Hline.
  destruct (Forall2_lookup_l _ _ _ _ _ Hall Hline) as (line' & Hline' & kc & Hkc & ->).
  eauto.
Qed.

End PandasCells.


Lemma X9_copy_to_column_fills_the_column_witness :
  exists x,
    Np.getitem (PandasModel.data_c Examples.square_model) 1 0 = Ok x /\
    PandasModel.rowCount Examples.square_model_filled =
      PandasModel.rowCount Examples.square_model /\
    PandasModel.columnCount Examples.square_model_filled =
      PandasModel.columnCount Examples.square_model /\
    length (cells (PandasModel.data_c Examples.square_model_filled)) =
      length (cells (PandasModel.data_c Examples.square_model)) /\
    forall (i : nat) (line : list pyval),
      cells (PandasModel.data_c Examples.square_model) !! i = Some line ->
      exists kc, Py.index (length line) 0 = Ok kc /\
                 cells (PandasModel.data_c Examples.square_model_filled) !! i =
                   Some (<[kc:=x]> line).
Proof.
  apply (X9_copy_to_column_fills_the_column Examples.square_model 1 0
           Examples.square_model_filled).
  vm_compute. reflexivity.
Defined.

(** ** [WiresTable] and [TowerModel]: adding, deleting and finding wires *)

Lemma range_down_S (n : nat) :
  TowerModel.range_down (S n) = Z.of_nat n :: TowerModel.range_down n.
Proof.
  unfold TowerModel.range_down. rewrite seq_S, reverse_app. reflexivity.
Qed.

Lemma take_drop_middle_app {A} (l1 l2 : list A) (x : A) :
  take (length l1) (l1 ++ x :: l2) ++ drop (S (length l1)) (l1 ++ x :: l2) = l1 ++ l2.
Proof.
  rewrite take_app_length. f_equal.
  rewrite drop_app_ge by lia. replace (S (length l1) - length l1)%nat with 1%nat by lia.
  reflexivity.
Qed.

(** X10: [delete] with index -1, or with the row count before the
    addition, removes the wire that [add] has just appended and gives the
    table back; [delete] succeeds exactly on an index within
    [-rowCount, rowCount), taking one row away, and raises [IndexError]
    on any other. *)
Theorem X10_WiresTable_add_then_delete (m : WiresTable.t) (wire : pyobj) (index : Z) :
  WiresTable.delete (WiresTable.add m wire) (-1) = Ok m /\
  WiresTable.delete (WiresTable.add m wire) (WiresTable.rowCount m) = Ok m /\
  (- WiresTable.rowCount m <= index < WiresTable.rowCount m ->
   exists m', WiresTable.delete m index = Ok m' /\
              WiresTable.rowCount m' = WiresTable.rowCount m - 1) /\
  (~ (- WiresTable.rowCount m <= index < WiresTable.rowCount m) ->
   WiresTable.delete m index = Raise IndexError).
Proof.
  destruct m as [hd ip cv ed ws].
  unfold WiresTable.delete, WiresTable.add, WiresTable.rowCount, WiresTable.with_wires. simpl.
  split; [|split; [|split]].
  - unfold Py.index. rewrite length_app. simpl.
    replace ((0 <=? -1) && (-1 <? Z.of_nat (length ws + 1))) with false by done.
    replace ((- Z.of_nat (length ws + 1) <=? -1) && (-1 <? 0)) with true
      by (symmetry; apply andb_true_intro; split; [apply Z.leb_le; lia|done]).
    simpl. replace (Z.to_nat (Z.of_nat (length ws + 1) + -1)) with (length ws) by lia.
    by rewrite take_drop_middle_app, app_nil_r.
  - rewrite index_nat by (rewrite length_app; simpl; lia). simpl.
    by rewrite take_drop_middle_app, app_nil_r.
  - intros Hin. unfold Py.index.
    destruct ((0 <=? index) && (index <? Z.of_nat (length ws))) eqn:E1.
    + apply andb_prop in E1 as [E0 E1]. apply Z.leb_le in E0. apply Z.ltb_lt in E1.
      simpl. eexists. split; [reflexivity|]. simpl.
      rewrite length_app, length_take, length_drop. lia.
    + replace ((- Z.of_nat (length ws) <=? index) && (index <? 0)) with true.
      * simpl. eexists. split; [reflexivity|]. simpl.
        rewrite length_app, length_take, length_drop.
        apply andb_false_iff in E1 as [E1|E1];
          [apply Z.leb_gt in E1|apply Z.ltb_ge in E1]; lia.
      * symmetry. apply andb_true_intro.
        apply andb_false_iff in E1 as [E1|E1];
          [apply Z.leb_gt in E1|apply Z.ltb_ge in E1];
          (split; [apply Z.leb_le|apply Z.ltb_lt]); lia.
  - intros Hout. unfold Py.index.
    replace ((0 <=? index) && (index <? Z.of_nat (length ws))) with false.
    + replace ((- Z.of_nat (length ws) <=? index) && (index <? 0)) with false; [done|].
      symmetry. apply andb_false_iff.
      destruct (Z.leb_spec (- Z.of_nat (length ws)) index); [|by left].
      right. apply Z.ltb_ge. lia.
    + symmetry. apply andb_false_iff.
      destruct (Z.leb_spec 0 index); [|by left]. right. apply Z.ltb_ge. lia.
Qed.

Lemma X10_WiresTable_add_then_delete_witness :
  exists m', WiresTable.delete Examples.two_wires 0 = Ok m' /\
             WiresTable.rowCount m' = WiresTable.rowCount Examples.two_wires - 1.
Proof.
  apply (proj1 (proj2 (proj2
           (X10_WiresTable_add_then_delete Examples.two_wires (Examples.named_wire "c") 0)))).
  vm_compute. split; [discriminate|reflexivity].
Defined.

Lemma foldM_app {A B} (f : A -> B -> result A) (l1 l2 : list B) (a : A) :
  foldM f (l1 ++ l2) a = a' ← foldM f l1 a; foldM f l2 a'.
Proof.
  revert a. induction l1 as [|x l1 IH]; intros a; simpl; [done|].
  destruct (f a x); simpl; [apply IH|done].
Qed.

(** The loop of [WiresTable.is_used], once a match is found. *)
Lemma is_used_loop_found (name : pyval) (ws : list pyobj) :
  foldM (fun found wire =>
           if (found : bool) then Ok true
           else v ← getattr wire "name"; Ok (PyVal.eqb v name)) ws true = Ok true.
Proof. induction ws as [|w ws IH]; [done|]. simpl. apply IH. Qed.

(** X11: [WiresTable.is_used] looks from the last wire backwards and
    stops at the first wire with the name: it returns [True] when a wire
    has the name and every wire after it has a name, whatever comes
    before; when all wires have a name, it returns whether some wire has
    the given one. *)
Theorem X11_WiresTable_is_used (m : WiresTable.t) (name : pyval) :
  (forall ws1 w ws2,
     WiresTable.wires m = ws1 ++ w :: ws2 ->
     name_is name w = true ->
     Forall (fun w' => is_Some (w' !! "name")) ws2 ->
     WiresTable.is_used m name = Ok true) /\
  (Forall (fun w => is_Some (w !! "name")) (WiresTable.wires m) ->
   WiresTable.is_used m name = Ok (existsb (name_is name) (WiresTable.wires m))).
Proof.
  unfold WiresTable.is_used.
  assert (Hall : forall ws, Forall (fun w => is_Some (w !! "name")) ws ->
            foldM (fun found wire =>
                     if (found : bool) then Ok true
                     else v ← getattr wire "name"; Ok (PyVal.eqb v name))
                  (reverse ws) false = Ok (existsb (name_is name) ws)).
  { induction ws as [|w ws IH] using rev_ind; intros Hws; [done|].
    apply Forall_app in Hws as [Hws Hw]. apply Forall_singleton in Hw as [v Hv].
    rewrite reverse_snoc, existsb_app. simpl.
    replace (getattr w "name") with (Ok v) by (unfold getattr; by rewrite Hv). simpl.
    replace (name_is name w) with (PyVal.eqb v name) by (unfold name_is; by rewrite Hv).
    rewrite orb_false_r.
    destruct (PyVal.eqb v name).
    - by rewrite is_used_loop_found, orb_true_r.
    - rewrite orb_false_r. by apply IH. }
  split; [|apply Hall].
  intros ws1 w ws2 -> Hw Hws2.
  rewrite reverse_app, reverse_cons, <- app_assoc.
  rewrite foldM_app, (Hall ws2 Hws2). simpl.
  destruct (existsb (name_is name) ws2); simpl; [apply is_used_loop_found|].
  unfold name_is in Hw. unfold getattr. destruct (w !! "name") as [v|]; [|done]. simpl.
  rewrite Hw. apply is_used_loop_found.
Qed.

Lemma X11_WiresTable_is_used_witness :
  WiresTable.is_used Examples.two_wires (VStr "a") =
    Ok (existsb (name_is (VStr "a")) (WiresTable.wires Examples.two_wires)).
Proof.
  apply (proj2 (X11_WiresTable_is_used Examples.two_wires (VStr "a"))).
  repeat (apply Forall_cons; split; [by eexists|]). apply Forall_nil_2.
Defined.

Lemma TowerModel_with_wires_twice (m : TowerModel.t) (ws1 ws2 : list pyobj) :
  TowerModel.with_wires (TowerModel.with_wires m ws1) ws2 = TowerModel.with_wires m ws2.
Proof. reflexivity. Qed.

(** The loop of [delete_by_name] over the first [length ws] indices of a
    list [ws ++ tl], downwards. *)
Lemma delete_by_name_loop (m : TowerModel.t) (wire_name : pyval) (wire : pyobj)
    (ws tl : list pyobj) :
  wire !! "name" = Some wire_name ->
  Forall (fun w => is_Some (w !! "name")) ws ->
  foldM (fun m i =>
           w ← Py.getitem (TowerModel.wires_in_tower (TowerModel.tower m)) i;
           name ← getattr w "name";
           wire_name ← getattr wire "name";
           if PyVal.eqb name wire_name then TowerModel.delete m i else Ok m)
        (TowerModel.range_down (length ws)) (TowerModel.with_wires m (ws ++ tl)) =
  Ok (TowerModel.with_wires m (List.filter (fun w => negb (name_is wire_name w)) ws ++ tl)).
Proof.
  intros Hwire.
  set (f := fun (m : TowerModel.t) (i : Z) =>
              w ← Py.getitem (TowerModel.wires_in_tower (TowerModel.tower m)) i;
              name ← getattr w "name";
              wire_name ← getattr wire "name";
              if PyVal.eqb name wire_name then TowerModel.delete m i else Ok m).
  revert tl. induction ws as [|x ws IH] using rev_ind; intros tl Hws; [done|].
  apply Forall_app in Hws as [Hws Hx]. apply Forall_singleton in Hx as [v Hv].
  rewrite length_app, Nat.add_1_r, range_down_S, List.filter_app, <- !app_assoc.
  assert (Hstep : f (TowerModel.with_wires m (ws ++ [x] ++ tl)) (Z.of_nat (length ws)) =
                  Ok (TowerModel.with_wires m
                        (ws ++ (if name_is wire_name x then [] else [x]) ++ tl))).
  { unfold f. simpl.
    rewrite (getitem_nat _ _ x) by (by apply list_lookup_middle).
    simpl. unfold getattr, name_is. rewrite Hv, Hwire. simpl.
    destruct (PyVal.eqb v wire_name); [|done].
    unfold TowerModel.delete. simpl.
    rewrite index_nat by (rewrite length_app; simpl; lia). simpl.
    by rewrite take_drop_middle_app. }
  change (foldM f (Z.of_nat (length ws) :: TowerModel.range_down (length ws))
            (TowerModel.with_wires m (ws ++ [x] ++ tl)))
    with (m' ← f (TowerModel.with_wires m (ws ++ [x] ++ tl)) (Z.of_nat (length ws));
          foldM f (TowerModel.range_down (length ws)) m').
  rewrite Hstep. simpl. rewrite IH by done.
  by destruct (name_is wire_name x).
Qed.

Lemma TowerModel_delete_by_name_filter (m : TowerModel.t) (wire : pyobj)
    (wire_name : pyval) :
  wire !! "name" = Some wire_name ->
  Forall (fun w => is_Some (w !! "name")) (TowerModel.wires_in_tower (TowerModel.tower m)) ->
  TowerModel.delete_by_name m wire =
    Ok (TowerModel.with_wires m
          (List.filter (fun w => negb (name_is wire_name w))
                       (TowerModel.wires_in_tower (TowerModel.tower m)))).
Proof.
  intros Hwire Hws. unfold TowerModel.delete_by_name.
  pose proof (delete_by_name_loop m wire_name wire
                (TowerModel.wires_in_tower (TowerModel.tower m)) [] Hwire Hws) as H.
  rewrite !app_nil_r in H. rewrite <- H. f_equal. by destruct m as [[]].
Qed.

(** X12: when the wire and all the wires of the tower have a name,
    [delete_by_name] succeeds and removes exactly the wires of that name,
    keeping the others in their order (walking from the last index
    downwards, no deletion moves a wire that is still to be visited); the
    row count goes down by the number of wires of that name. *)
Theorem X12_delete_by_name_removes_the_name (m : TowerModel.t) (wire : pyobj)
    (wire_name : pyval) :
  wire !! "name" = Some wire_name ->
  Forall (fun w => is_Some (w !! "name")) (TowerModel.wires_in_tower (TowerModel.tower m)) ->
  exists m',
    TowerModel.delete_by_name m wire = Ok m' /\
    TowerModel.wires_in_tower (TowerModel.tower m') =
      List.filter (fun w => negb (name_is wire_name w))
                  (TowerModel.wires_in_tower (TowerModel.tower m)) /\
    TowerModel.header (TowerModel.tower m') = TowerModel.header (TowerModel.tower m) /\
    TowerModel.rowCount m' =
      TowerModel.rowCount m -
      Z.of_nat (length (List.filter (name_is wire_name)
                          (TowerModel.wires_in_tower (TowerModel.tower m)))).
Proof.
  intros Hwire Hws. eexists. split; [by apply TowerModel_delete_by_name_filter|].
  simpl. split; [done|]. split; [done|]. unfold TowerModel.rowCount. simpl.
  induction (TowerModel.wires_in_tower (TowerModel.tower m)) as [|w ws IH]; [done|].
  simpl. apply Forall_cons in Hws as [_ Hws]. specialize (IH Hws).
  destruct (name_is wire_name w); simpl; lia.
Qed.

Lemma X12_delete_by_name_removes_the_name_witness :
  exists m',
    TowerModel.delete_by_name (TowerModel.add Examples.tower Examples.wire) Examples.wire =
      Ok m' /\
    TowerModel.wires_in_tower (TowerModel.tower m') =
      List.filter (fun w => negb (name_is (VStr "w") w))
        (TowerModel.wires_in_tower
           (TowerModel.tower (TowerModel.add Examples.tower Examples.wire))) /\
    TowerModel.header (TowerModel.tower m') =
      TowerModel.header (TowerModel.tower (TowerModel.add Examples.tower Examples.wire)) /\
    TowerModel.rowCount m' =
      TowerModel.rowCount (TowerModel.add Examples.tower Examples.wire) -
      Z.of_nat (length (List.filter (name_is (VStr "w"))
                          (TowerModel.wires_in_tower
                             (TowerModel.tower
                                (TowerModel.add Examples.tower Examples.wire))))).
Proof.
  apply X12_delete_by_name_removes_the_name.
  - reflexivity.
  - repeat (apply Forall_cons; split; [by eexists|]). apply Forall_nil_2.
Defined.

(** The loop of [TowerModel.is_used] over the first [length ws] indices
    of a list [ws ++ tl], downwards. *)
Lemma TowerModel_is_used_loop (wire_name : pyval) (wire : pyobj) (ws tl : list pyobj)
    (found : bool) :
  wire !! "name" = Some wire_name ->
  Forall (fun w => is_Some (w !! "name")) ws ->
  foldM (fun found i =>
           if (found : bool) then Ok true
           else
             w ← Py.getitem (ws ++ tl) i;
             name ← getattr w "name";
             wire_name ← getattr wire "name";
             Ok (PyVal.eqb name wire_name))
        (TowerModel.range_down (length ws)) found =
  Ok (found || existsb (name_is wire_name) ws).
Proof.
  intros Hwire. revert tl found.
  induction ws as [|x ws IH] using rev_ind; intros tl found Hws.
  { simpl. by rewrite orb_false_r. }
  apply Forall_app in Hws as [Hws Hx]. apply Forall_singleton in Hx as [v Hv].
  rewrite length_app, Nat.add_1_r, range_down_S, existsb_app, <- !app_assoc.
  set (f := fun (found : bool) (i : Z) =>
              if found then Ok true
              else
                w ← Py.getitem (ws ++ [x] ++ tl) i;
                name ← getattr w "name";
                wire_name ← getattr wire "name";
                Ok (PyVal.eqb name wire_name)).
  assert (Hstep : f found (Z.of_nat (length ws)) = Ok (found || name_is wire_name x)).
  { unfold f. destruct found; [done|].
    rewrite (getitem_nat _ _ x) by (by apply list_lookup_middle).
    simpl. unfold getattr, name_is. by rewrite Hv, Hwire. }
  change (foldM f (Z.of_nat (length ws) :: TowerModel.range_down (length ws)) found)
    with (found' ← f found (Z.of_nat (length ws));
          foldM f (TowerModel.range_down (length ws)) found').
  rewrite Hstep. simpl. unfold f. rewrite (IH ([x] ++ tl)) by done. simpl.
  f_equal. destruct found, (name_is wire_name x), (existsb (name_is wire_name) ws); done.
Qed.

(** X13: when the wire and all the wires of the tower have a name,
    [TowerModel.is_used] returns [True] if a wire of the tower has the
    name of the given wire and [None] (never [False]) if none has; after
    [delete_by_name] of a wire, [is_used] of that wire returns [None]. *)
Theorem X13_TowerModel_is_used_after_delete (m : TowerModel.t) (wire : pyobj)
    (wire_name : pyval) :
  wire !! "name" = Some wire_name ->
  Forall (fun w => is_Some (w !! "name")) (TowerModel.wires_in_tower (TowerModel.tower m)) ->
  TowerModel.is_used m wire =
    Ok (if existsb (name_is wire_name) (TowerModel.wires_in_tower (TowerModel.tower m))
        then VBool true else VNone) /\
  exists m', TowerModel.delete_by_name m wire = Ok m' /\
             TowerModel.is_used m' wire = Ok VNone.
Proof.
  intros Hwire Hws.
  assert (Hused : forall ws, Forall (fun w => is_Some (w !! "name")) ws ->
            TowerModel.is_used (TowerModel.with_wires m ws) wire =
              Ok (if existsb (name_is wire_name) ws then VBool true else VNone)).
  { intros ws Hall. unfold TowerModel.is_used. simpl.
    pose proof (TowerModel_is_used_loop wire_name wire ws [] false Hwire Hall) as H.
    rewrite app_nil_r in H. by rewrite H. }
  split.
  - rewrite <- (Hused _ Hws). by destruct m as [[]].
  - eexists. split; [by apply TowerModel_delete_by_name_filter|].
    rewrite Hused.
    + replace (existsb _ _) with false; [done|]. symmetry.
      apply not_true_is_false. intros Hex. apply existsb_exists in Hex as (w & Hin & Hw).
      apply List.filter_In in Hin as [_ Hin]. by rewrite Hw in Hin.
    + apply Forall_forall. intros w Hin. apply list_elem_of_In in Hin.
      apply List.filter_In in Hin as [Hin _]. apply list_elem_of_In in Hin.
      by apply (proj1 (Forall_forall _ _) Hws).
Qed.

Lemma X13_TowerModel_is_used_after_delete_witness :
  TowerModel.is_used Examples.tower Examples.wire =
    Ok (if existsb (name_is (VStr "w"))
             (TowerModel.wires_in_tower (TowerModel.tower Examples.tower))
        then VBool true else VNone) /\
  exists m', TowerModel.delete_by_name Examples.tower Examples.wire = Ok m' /\
             TowerModel.is_used m' Examples.wire = Ok VNone.
Proof.
  apply X13_TowerModel_is_used_after_delete.
  - reflexivity.
  - repeat (apply Forall_cons; split; [by eexists|]). apply Forall_nil_2.
Defined.

Section WiresTableColumns.

Context (py_str : pyval -> string)
        (py_float : pyval -> result pyfloat)
        (py_int : pyval -> result Z).

(** X27: on a table of wires as the constructor shapes it and at a row
    of the table, [setData] in column 0 writes [str(value)] as the name,
    and in columns 1 and 2 writes [float(value)] as [r] and [gmr] or
    raises what [float] raises, leaving the table as it was; a column
    from -3 to -1 passes the test on [editable], a list, and then raises
    [KeyError] on [index_prop], a dict; any other column raises
    [IndexError]. *)
Theorem X27_WiresTable_setData_by_column (ws : list pyobj) (index : QModelIndex)
    (value : pyval) (k : nat) (wire : pyobj) :
  Py.index (length ws) (row index) = Ok k ->
  ws !! k = Some wire ->
  let m := WiresTable.with_wires WiresTable.init ws in
  (column index = 0 ->
   WiresTable.setData py_str py_float py_int m index value =
     Ok (true, WiresTable.with_wires m (<[k:=setattr wire "name" (VStr (py_str value))]> ws))) /\
  (forall attr, (column index = 1 /\ attr = "r") \/ (column index = 2 /\ attr = "gmr") ->
     WiresTable.setData py_str py_float py_int m index value =
       match py_float value with
       | Ok f => Ok (true, WiresTable.with_wires m (<[k:=setattr wire attr (VFloat f)]> ws))
       | Raise e => Raise e
       end) /\
  (-3 <= column index < 0 ->
   WiresTable.setData py_str py_float py_int m index value = Raise KeyError) /\
  (column index < -3 \/ 3 <= column index ->
   WiresTable.setData py_str py_float py_int m index value = Raise IndexError).
Proof.
  intros Hk Hwire m. unfold WiresTable.setData.
  change (WiresTable.editable m) with [true; true; true].
  change (WiresTable.wires m) with ws.
  change (WiresTable.index_prop m) with (WiresTable.index_prop WiresTable.init).
  change (WiresTable.converters m) with (WiresTable.converters WiresTable.init).
  assert (Hp0 : WiresTable.index_prop WiresTable.init !! 0 = Some "name")
    by (vm_compute; reflexivity).
  assert (Hp1 : WiresTable.index_prop WiresTable.init !! 1 = Some "r")
    by (vm_compute; reflexivity).
  assert (Hp2 : WiresTable.index_prop WiresTable.init !! 2 = Some "gmr")
    by (vm_compute; reflexivity).
  assert (Hc0 : WiresTable.converters WiresTable.init !! 0 = Some conv_str)
    by (vm_compute; reflexivity).
  assert (Hc1 : WiresTable.converters WiresTable.init !! 1 = Some conv_float)
    by (vm_compute; reflexivity).
  assert (Hc2 : WiresTable.converters WiresTable.init !! 2 = Some conv_float)
    by (vm_compute; reflexivity).
  assert (Hn1 : WiresTable.index_prop WiresTable.init !! (-1) = None)
    by (vm_compute; reflexivity).
  assert (Hn2 : WiresTable.index_prop WiresTable.init !! (-2) = None)
    by (vm_compute; reflexivity).
  assert (Hn3 : WiresTable.index_prop WiresTable.init !! (-3) = None)
    by (vm_compute; reflexivity).
  split; [|split; [|split]].
  - intros ->. cbn [Py.getitem Py.index mbind result_bind]. simpl length.
    rewrite Hk. cbn [mbind result_bind]. rewrite Hwire, Hp0, Hc0. reflexivity.
  - intros attr [[-> ->]|[-> ->]]; cbn [Py.getitem Py.index mbind result_bind]; simpl length;
      rewrite Hk; cbn [mbind result_bind]; rewrite Hwire.
    + rewrite Hp1, Hc1. simpl. by destruct (py_float value).
    + rewrite Hp2, Hc2. simpl. by destruct (py_float value).
  - intros Hcol.
    assert (column index = -3 \/ column index = -2 \/ column index = -1) as [->|[->| ->]]
      by lia; cbn [Py.getitem Py.index mbind result_bind]; simpl length;
      rewrite Hk; cbn [mbind result_bind]; rewrite Hwire.
    + by rewrite Hn3.
    + by rewrite Hn2.
    + by rewrite Hn1.
  - intros Hcol. unfold Py.getitem, Py.index. simpl length.
    replace ((0 <=? column index) && (column index <? Z.of_nat 3)) with false
      by (symmetry; apply andb_false_iff;
          destruct (Z.leb_spec 0 (column index)); [right; apply Z.ltb_ge; lia|by left]).
    replace ((- Z.of_nat 3 <=? column index) && (column index <? 0)) with false; [done|].
    symmetry. apply andb_false_iff.
    destruct (Z.leb_spec (- Z.of_nat 3) (column index)); [right; apply Z.ltb_ge; lia|by left].
Qed.

End WiresTableColumns.

Lemma X27_WiresTable_setData_by_column_witness :
  WiresTable.setData Examples.str_of Examples.float_of Examples.int_of
    (WiresTable.with_wires WiresTable.init [Examples.named_wire "a"])
    (mkIndex 0 (-1) true) (VInt 4) = Raise KeyError.
Proof.
  apply (proj1 (proj2 (proj2
           (X27_WiresTable_setData_by_column Examples.str_of Examples.float_of Examples.int_of
              [Examples.named_wire "a"] (mkIndex 0 (-1) true) (VInt 4) 0
              (Examples.named_wire "a") eq_refl eq_refl)))).
  simpl. lia.
Defined.

(** ** The thread that opens a file: validity *)

Section OpenThreadValidity.

Context {Circuit Logger : Type}
        (os_path_split : string -> string * string)
        (MultiCircuit : Circuit)
        (new_Logger : Logger)
        (Logger_iadd : Logger -> Logger -> Logger)
        (FileOpen_open : FileHandler.file_name_t ->
                         list FileHandler.callback * Circuit * Logger).



End OpenThreadValidity.


(** ** [ObjectsModel]: the constructor and [copy_to_column] *)

Lemma range_S (n : nat) :
  ProfilesModel.range (Z.of_nat (S n)) = ProfilesModel.range (Z.of_nat n) ++ [Z.of_nat n].
Proof.
  unfold ProfilesModel.range. rewrite !Nat2Z.id, seq_S, fmap_app. reflexivity.
Qed.

Lemma ObjectsModel_with_non_editable_twice (m : ObjectsModel.t) (l1 l2 : list string) :
  ObjectsModel.with_non_editable (ObjectsModel.with_non_editable m l1) l2 =
  ObjectsModel.with_non_editable m l2.
Proof. reflexivity. Qed.

Lemma none_typed_snoc (hs : list (string * ObjectsModel.GCProp)) (h : string * ObjectsModel.GCProp) :
  ObjectsModel.none_typed (hs ++ [h]) =
  ObjectsModel.none_typed hs ++
  (if bool_decide (ObjectsModel.tpe_of h.2 = ObjectsModel.tpe_None) then [h.1] else []).
Proof.
  unfold ObjectsModel.none_typed. rewrite List.filter_app, fmap_app. simpl.
  by destruct (bool_decide _).
Qed.

(** The loop of [set_delegates] over the first [k] attributes. *)
Lemma set_delegates_loop (m : ObjectsModel.t) (hs : list (string * ObjectsModel.GCProp))
    (k : nat) :
  ObjectsModel.attributes m = hs.*1 ->
  ObjectsModel.attribute_types m = (fun kv => ObjectsModel.tpe_of kv.2) <$> hs ->
  (forall a p v, (a, p) ∈ take k hs ->
                 ObjectsModel.tpe_of p = ObjectsModel.tpe_DeviceType v ->
                 is_Some (ObjectsModel.dictionary_of_lists m !! v)) ->
  (k <= length hs)%nat ->
  foldM (fun m i =>
           tpe ← Py.getitem (ObjectsModel.attribute_types m) i;
           match tpe with
           | ObjectsModel.tpe_bool | ObjectsModel.tpe_BranchTemplate | ObjectsModel.tpe_str
           | ObjectsModel.tpe_float | ObjectsModel.tpe_complex => Ok m
           | ObjectsModel.tpe_None =>
               if Z.of_nat (length (ObjectsModel.non_editable_attributes m)) =? 0 then
                 attr ← Py.getitem (ObjectsModel.attributes m) i;
                 Ok (ObjectsModel.with_non_editable m
                       (ObjectsModel.non_editable_attributes m ++ [attr]))
               else Ok m
           | ObjectsModel.tpe_EnumMeta | ObjectsModel.tpe_BranchType => Ok m
           | ObjectsModel.tpe_DeviceType value =>
               _ ← of_option KeyError (ObjectsModel.dictionary_of_lists m !! value);
               Ok m
           | ObjectsModel.tpe_Bus | ObjectsModel.tpe_other => Ok m
           end)
        (ProfilesModel.range (Z.of_nat k)) m =
  Ok (ObjectsModel.with_non_editable m
        (ObjectsModel.non_editable_after (ObjectsModel.non_editable_attributes m) (take k hs))).
Proof.
  intros Hattrs Htypes. induction k as [|k IH]; intros Hdict Hk.
  - simpl. f_equal. unfold ObjectsModel.non_editable_after. rewrite take_0.
    destruct m as [? ? ? ? ? ? nea]. simpl. by destruct nea.
  - destruct (lookup_lt_is_Some_2 hs k ltac:(lia)) as [[a p] Hh].
    rewrite (take_S_r _ _ _ Hh) in Hdict.
    rewrite range_S, foldM_snoc, IH;
      [|intros a' p' v' Hin; apply (Hdict a' p' v'), elem_of_app; by left|lia].
    simpl. rewrite Htypes, Hattrs.
    rewrite (getitem_nat _ _ (ObjectsModel.tpe_of p)) by (by rewrite list_lookup_fmap, Hh).
    simpl. rewrite (take_S_r _ _ _ Hh).
    assert (Hother : ObjectsModel.tpe_of p <> ObjectsModel.tpe_None ->
              ObjectsModel.non_editable_after (ObjectsModel.non_editable_attributes m)
                (take k hs ++ [(a, p)]) =
              ObjectsModel.non_editable_after (ObjectsModel.non_editable_attributes m)
                (take k hs)).
    { intros Hp. unfold ObjectsModel.non_editable_after. rewrite none_typed_snoc. simpl.
      rewrite bool_decide_eq_false_2 by done. by rewrite app_nil_r. }
    destruct (ObjectsModel.tpe_of p) eqn:Hp; try (rewrite Hother by done; reflexivity).
    + rewrite (getitem_nat _ _ a) by (by rewrite list_lookup_fmap, Hh).
      unfold ObjectsModel.non_editable_after. rewrite none_typed_snoc. simpl.
      rewrite Hp. simpl.
      destruct (ObjectsModel.non_editable_attributes m) as [|x nea]; [|done].
      destruct (ObjectsModel.none_typed (take k hs)) as [|y l]; [done|].
      simpl. by rewrite take_0.
    + destruct (Hdict a p value) as [objs Hobjs];
        [apply elem_of_app; right; by apply list_elem_of_singleton|done|].
      rewrite Hobjs. simpl. by rewrite Hother.
Qed.



(** The same loop, when one of the first [k] attributes lacks its list. *)
Lemma set_delegates_loop_raises (m : ObjectsModel.t)
    (hs : list (string * ObjectsModel.GCProp)) (k : nat) :
  ObjectsModel.attributes m = hs.*1 ->
  ObjectsModel.attribute_types m = (fun kv => ObjectsModel.tpe_of kv.2) <$> hs ->
  (k <= length hs)%nat ->
  existsb (ObjectsModel.lacks_list (ObjectsModel.dictionary_of_lists m)) (take k hs) = true ->
  foldM (fun m i =>
           tpe ← Py.getitem (ObjectsModel.attribute_types m) i;
           match tpe with
           | ObjectsModel.tpe_bool | ObjectsModel.tpe_BranchTemplate | ObjectsModel.tpe_str
           | ObjectsModel.tpe_float | ObjectsModel.tpe_complex => Ok m
           | ObjectsModel.tpe_None =>
               if Z.of_nat (length (ObjectsModel.non_editable_attributes m)) =? 0 then
                 attr ← Py.getitem (ObjectsModel.attributes m) i;
                 Ok (ObjectsModel.with_non_editable m
                       (ObjectsModel.non_editable_attributes m ++ [attr]))
               else Ok m
           | ObjectsModel.tpe_EnumMeta | ObjectsModel.tpe_BranchType => Ok m
           | ObjectsModel.tpe_DeviceType value =>
               _ ← of_option KeyError (ObjectsModel.dictionary_of_lists m !! value);
               Ok m
           | ObjectsModel.tpe_Bus | ObjectsModel.tpe_other => Ok m
           end)
        (ProfilesModel.range (Z.of_nat k)) m = Raise KeyError.
Proof.
  intros Hattrs Htypes. induction k as [|k IH]; intros Hk Hbad; [done|].
  destruct (lookup_lt_is_Some_2 hs k ltac:(lia)) as [[a' p'] Hh].
  rewrite (take_S_r _ _ _ Hh), existsb_app in Hbad. rewrite range_S, foldM_snoc.
  destruct (existsb (ObjectsModel.lacks_list (ObjectsModel.dictionary_of_lists m)) (take k hs))
    eqn:Hprefix.
  - by rewrite IH by (done || lia).
  - rewrite (set_delegates_loop m hs k); [|done|done| |lia].
    + simpl in *. rewrite orb_false_r in Hbad. rewrite Htypes.
      rewrite (getitem_nat _ _ (ObjectsModel.tpe_of p')) by (by rewrite list_lookup_fmap, Hh).
      simpl. unfold ObjectsModel.lacks_list in Hbad. simpl in Hbad.
      destruct (ObjectsModel.tpe_of p'); try done.
      apply bool_decide_eq_true_1 in Hbad. by rewrite Hbad.
    + intros a0 p0 v0 Hin0 Hp0.
      destruct (ObjectsModel.dictionary_of_lists m !! v0) eqn:Hv0; [by eexists|].
      assert (existsb (ObjectsModel.lacks_list (ObjectsModel.dictionary_of_lists m))
                (take k hs) = true); [|congruence].
      apply existsb_exists. exists (a0, p0). split; [by apply list_elem_of_In|].
      unfold ObjectsModel.lacks_list. simpl. rewrite Hp0. by apply bool_decide_eq_true_2.
Qed.



Section ObjectsCopy.

Context (BranchType : pyval -> result pyval)
        (name_of : pyval -> result pyval).

(** The loop of [copy_to_column] over the first [k] rows of a table that
    is not transposed. *)
Lemma copy_to_column_loop (m : ObjectsModel.t) (col : Z) (attr : string) (value : pyval)
    (k : nat) :
  ObjectsModel.transposed m = false ->
  Py.getitem (ObjectsModel.attributes m) col = Ok attr ->
  attr ∉ ObjectsModel.non_editable_attributes m ->
  (k <= length (ObjectsModel.objects m))%nat ->
  foldM (fun m row =>
           let obj_idx := if ObjectsModel.transposed m then col else row in
           let attr_idx := if ObjectsModel.transposed m then row else col in
           attr ← Py.getitem (ObjectsModel.attributes m) attr_idx;
           if negb (Py.mem_str attr (ObjectsModel.non_editable_attributes m)) then
             k ← Py.index (length (ObjectsModel.objects m)) obj_idx;
             obj ← of_option IndexError (ObjectsModel.objects m !! k);
             Ok (ObjectsModel.with_objects m
                   (<[k:=setattr obj attr value]> (ObjectsModel.objects m)))
           else Ok m)
        (ProfilesModel.range (Z.of_nat k)) m =
  Ok (ObjectsModel.with_objects m
        (((fun obj => setattr obj attr value) <$> take k (ObjectsModel.objects m)) ++
         drop k (ObjectsModel.objects m))).
Proof.
  intros Ht Hattr Hed. induction k as [|k IH]; intros Hk.
  - simpl. rewrite drop_0. f_equal. by destruct m.
  - rewrite range_S, foldM_snoc, IH by lia. simpl. rewrite Ht, Hattr. simpl.
    unfold Py.mem_str. rewrite bool_decide_eq_false_2 by done. simpl.
    destruct (lookup_lt_is_Some_2 (ObjectsModel.objects m) k ltac:(lia)) as [obj Hobj].
    rewrite index_nat
      by (rewrite length_app, length_fmap, length_take, length_drop; lia).
    simpl.
    rewrite lookup_app_r by (rewrite length_fmap, length_take; lia).
    rewrite length_fmap, length_take, (Nat.min_l k) by lia.
    rewrite Nat.sub_diag, lookup_drop, Nat.add_0_r, Hobj. simpl. f_equal.
    unfold ObjectsModel.with_objects. simpl. f_equal.
    rewrite (take_S_r _ _ _ Hobj), fmap_app, <- app_assoc. simpl.
    rewrite insert_app_r_alt by (rewrite length_fmap, length_take; lia).
    rewrite length_fmap, length_take, (Nat.min_l k) by lia.
    rewrite Nat.sub_diag. f_equal.
    rewrite (drop_S _ _ _ Hobj). reflexivity.
Qed.

(** X17: on a table that is not transposed and whose row count is the
    number of objects, [copy_to_column] at a cell of an editable
    attribute succeeds and gives every object the value shown in that
    cell for the attribute; it does not consult [check_unique], so the
    value is written in every object also when the attribute is checked
    for uniqueness by [setData]. *)
Theorem X17_copy_to_column_writes_every_object (m : ObjectsModel.t) (index : QModelIndex)
    (value : pyval) (attr : string) :
  ObjectsModel.transposed m = false ->
  ObjectsModel.r m = Z.of_nat (length (ObjectsModel.objects m)) ->
  ObjectsModel.data_with_type BranchType name_of m index = Ok value ->
  Py.getitem (ObjectsModel.attributes m) (column index) = Ok attr ->
  attr ∉ ObjectsModel.non_editable_attributes m ->
  exists m',
    ObjectsModel.copy_to_column BranchType name_of m index = Ok m' /\
    ObjectsModel.objects m' =
      (fun obj => setattr obj attr value) <$> ObjectsModel.objects m /\
    Forall (fun obj => obj !! attr = Some value) (ObjectsModel.objects m') /\
    ObjectsModel.check_unique m' = ObjectsModel.check_unique m.
Proof.
  intros Ht Hr Hvalue Hattr Hed. unfold ObjectsModel.copy_to_column.
  rewrite Hvalue. simpl. unfold ObjectsModel.rowCount. rewrite Ht, Hr.
  rewrite (copy_to_column_loop m (column index) attr value) by done.
  eexists. split; [reflexivity|]. simpl.
  rewrite firstn_all, drop_all, app_nil_r. split; [done|]. split; [|done].
  apply Forall_fmap, Forall_forall. intros obj _. simpl. unfold setattr.
  apply lookup_insert_eq.
Qed.

(** The loop of [copy_to_column] over the first [i] rows of a transposed
    table: the rows are the attributes and the column is one object. *)
Lemma copy_to_column_loop_transposed (m : ObjectsModel.t) (col : Z) (k : nat) (obj : pyobj)
    (value : pyval) (i : nat) :
  ObjectsModel.transposed m = true ->
  Py.index (length (ObjectsModel.objects m)) col = Ok k ->
  ObjectsModel.objects m !! k = Some obj ->
  (i <= length (ObjectsModel.attributes m))%nat ->
  foldM (fun m row =>
           let obj_idx := if ObjectsModel.transposed m then col else row in
           let attr_idx := if ObjectsModel.transposed m then row else col in
           attr ← Py.getitem (ObjectsModel.attributes m) attr_idx;
           if negb (Py.mem_str attr (ObjectsModel.non_editable_attributes m)) then
             k ← Py.index (length (ObjectsModel.objects m)) obj_idx;
             obj ← of_option IndexError (ObjectsModel.objects m !! k);
             Ok (ObjectsModel.with_objects m
                   (<[k:=setattr obj attr value]> (ObjectsModel.objects m)))
           else Ok m)
        (ProfilesModel.range (Z.of_nat i)) m =
  Ok (ObjectsModel.with_objects m
        (<[k:=foldl (fun o attr =>
                       if Py.mem_str attr (ObjectsModel.non_editable_attributes m)
                       then o else setattr o attr value)
                    obj (take i (ObjectsModel.attributes m))]> (ObjectsModel.objects m))).
Proof.
  intros Ht Hk Hobj. pose proof (lookup_lt_Some _ _ _ Hobj) as Hlt.
  induction i as [|i IH]; intros Hi.
  - simpl. rewrite list_insert_id by done. f_equal. by destruct m.
  - rewrite range_S, foldM_snoc, IH by lia. simpl. rewrite Ht.
    destruct (lookup_lt_is_Some_2 (ObjectsModel.attributes m) i ltac:(lia)) as [attr Hattr].
    rewrite (getitem_nat _ _ attr) by done. simpl.
    rewrite (take_S_r _ _ _ Hattr), foldl_app. simpl.
    destruct (Py.mem_str attr (ObjectsModel.non_editable_attributes m)); simpl; [done|].
    rewrite length_insert, Hk. simpl. rewrite list_lookup_insert_eq by done. simpl.
    by rewrite list_insert_insert_eq.
Qed.

(** X18: on a transposed table, where a column is one object and the
    rows are its attributes, [copy_to_column] writes the value shown in
    the cell into every editable attribute of the object of that column;
    its attributes that are not editable, or not in the table, and all the
    other objects are left as they were. *)
Theorem X18_copy_to_column_transposed (m : ObjectsModel.t) (index : QModelIndex)
    (value : pyval) (k : nat) (obj : pyobj) :
  ObjectsModel.transposed m = true ->
  ObjectsModel.c m = Z.of_nat (length (ObjectsModel.attributes m)) ->
  ObjectsModel.data_with_type BranchType name_of m index = Ok value ->
  Py.index (length (ObjectsModel.objects m)) (column index) = Ok k ->
  ObjectsModel.objects m !! k = Some obj ->
  exists m' obj',
    ObjectsModel.copy_to_column BranchType name_of m index = Ok m' /\
    ObjectsModel.objects m' = <[k:=obj']> (ObjectsModel.objects m) /\
    (forall attr, attr ∈ ObjectsModel.attributes m ->
                  attr ∉ ObjectsModel.non_editable_attributes m ->
                  obj' !! attr = Some value) /\
    (forall attr, attr ∉ ObjectsModel.attributes m \/
                  attr ∈ ObjectsModel.non_editable_attributes m ->
                  obj' !! attr = obj !! attr).
Proof.
  intros Ht Hc Hvalue Hk Hobj. unfold ObjectsModel.copy_to_column.
  rewrite Hvalue. simpl. unfold ObjectsModel.rowCount. rewrite Ht, Hc.
  rewrite (copy_to_column_loop_transposed m (column index) k obj value) by done.
  eexists _, _. split; [reflexivity|]. simpl. split; [done|]. rewrite firstn_all.
  generalize (ObjectsModel.attributes m) as attrs. intros attrs.
  induction attrs as [|a attrs IH] using rev_ind.
  - split; [intros attr Hin; by apply elem_of_nil in Hin|done].
  - destruct IH as [IH1 IH2]. rewrite foldl_app. simpl. unfold Py.mem_str.
    destruct (bool_decide (a ∈ ObjectsModel.non_editable_attributes m)) eqn:Ha.
    + apply bool_decide_eq_true_1 in Ha. split.
      * intros attr Hin Hed. apply elem_of_app in Hin as [Hin|Hin]; [by apply IH1|].
        apply list_elem_of_singleton in Hin as ->. done.
      * intros attr [Hin|Hin]; apply IH2; [left|by right].
        intros H. apply Hin, elem_of_app. by left.
    + apply bool_decide_eq_false_1 in Ha. unfold setattr. split.
      * intros attr Hin Hed. destruct (decide (attr = a)) as [->|Hne].
        { apply lookup_insert_eq. }
        rewrite lookup_insert_ne by done.
        apply elem_of_app in Hin as [Hin|Hin]; [by apply IH1|].
        by apply list_elem_of_singleton in Hin.
      * intros attr Hcase. rewrite lookup_insert_ne.
        { destruct Hcase as [Hin|Hin]; apply IH2; [left|by right].
          intros H. apply Hin, elem_of_app. by left. }
        intros <-. destruct Hcase as [Hin|Hin]; [|done].
        apply Hin, elem_of_app. right. by apply list_elem_of_singleton.
Qed.

End ObjectsCopy.

Lemma X17_copy_to_column_writes_every_object_witness :
  exists m',
    ObjectsModel.copy_to_column Examples.branch_type Examples.name_of_bus Examples.buses
      (mkIndex 0 0 true) = Ok m' /\
    ObjectsModel.objects m' =
      (fun obj => setattr obj "name" (VStr "a")) <$> ObjectsModel.objects Examples.buses /\
    Forall (fun obj => obj !! "name" = Some (VStr "a")) (ObjectsModel.objects m') /\
    ObjectsModel.check_unique m' = ObjectsModel.check_unique Examples.buses.
Proof.
  apply (X17_copy_to_column_writes_every_object Examples.branch_type Examples.name_of_bus
           Examples.buses (mkIndex 0 0 true) (VStr "a") "name").
  - vm_compute. reflexivity.
  - vm_compute. reflexivity.
  - vm_compute. reflexivity.
  - vm_compute. reflexivity.
  - vm_compute. apply not_elem_of_nil.
Defined.

Lemma X18_copy_to_column_transposed_witness :
  exists m' obj',
    ObjectsModel.copy_to_column Examples.branch_type Examples.name_of_bus
      Examples.device_sheet (mkIndex 0 0 true) = Ok m' /\
    ObjectsModel.objects m' = <[0%nat:=obj']> (ObjectsModel.objects Examples.device_sheet) /\
    (forall attr, attr ∈ ObjectsModel.attributes Examples.device_sheet ->
                  attr ∉ ObjectsModel.non_editable_attributes Examples.device_sheet ->
                  obj' !! attr = Some (VStr "a")) /\
    (forall attr, attr ∉ ObjectsModel.attributes Examples.device_sheet \/
                  attr ∈ ObjectsModel.non_editable_attributes Examples.device_sheet ->
                  obj' !! attr = Examples.coded_device !! attr).
Proof.
  apply (X18_copy_to_column_transposed Examples.branch_type Examples.name_of_bus
           Examples.device_sheet (mkIndex 0 0 true) (VStr "a") 0 Examples.coded_device).
  - vm_compute. reflexivity.
  - vm_compute. reflexivity.
  - vm_compute. reflexivity.
  - vm_compute. reflexivity.
  - vm_compute. reflexivity.
Defined.

(** A constructor call that returns leaves the list as [non_editable_after]
    says. *)
Lemma ObjectsModel_init_Ok_non_editable (objects : list pyobj)
    (editable_headers : list (string * ObjectsModel.GCProp)) (editable : bool)
    (non_editable_attributes : list string) (transposed : bool) (check_unique : list string)
    (dictionary_of_lists : gmap string (list pyobj)) (m : ObjectsModel.t) :
  ObjectsModel.init objects editable_headers editable non_editable_attributes transposed
    check_unique dictionary_of_lists = Ok m ->
  ObjectsModel.non_editable_attributes m =
    ObjectsModel.non_editable_after non_editable_attributes editable_headers.
Proof.
  unfold ObjectsModel.init, ObjectsModel.set_delegates. simpl. rewrite length_fmap.
  set (m0 := ObjectsModel.mk _ _ _ _ _ _ _ _ _ _ _ _).
  destruct (existsb (ObjectsModel.lacks_list dictionary_of_lists)
              (take (length editable_headers) editable_headers)) eqn:Hbad.
  - by rewrite (set_delegates_loop_raises m0 editable_headers (length editable_headers)).
  - rewrite (set_delegates_loop m0 editable_headers (length editable_headers)); try done.
    + intros H. simplify_eq. simpl. by rewrite firstn_all.
    + intros a p v Hin Hp. simpl.
      destruct (dictionary_of_lists !! v) eqn:Hv; [by eexists|].
      assert (existsb (ObjectsModel.lacks_list dictionary_of_lists)
                (take (length editable_headers) editable_headers) = true); [|congruence].
      apply existsb_exists. exists (a, p). split; [by apply list_elem_of_In|].
      unfold ObjectsModel.lacks_list. simpl. rewrite Hp. by apply bool_decide_eq_true_2.
Qed.

(** X19: the default list of [non_editable_attributes] is shared between
    the constructor calls that leave the argument out. When a first model
    is built that way from headers with an attribute of type [None], that
    attribute stays in the default: the next model built without the
    argument has exactly it as its non-editable attributes, whatever its
    own headers are, and the default stays as it is. *)
Theorem X19_default_non_editable_is_shared
    (objects1 objects2 : list pyobj)
    (editable_headers1 editable_headers2 : list (string * ObjectsModel.GCProp))
    (editable1 editable2 transposed1 transposed2 : bool)
    (check_unique1 check_unique2 : list string)
    (dictionary_of_lists1 dictionary_of_lists2 : gmap string (list pyobj))
    (m1 m2 : ObjectsModel.t) (default1 default2 : list string) (attr : string)
    (others : list string) :
  ObjectsModel.none_typed editable_headers1 = attr :: others ->
  ObjectsModel.init_default [] objects1 editable_headers1 editable1 transposed1 check_unique1
    dictionary_of_lists1 = Ok (m1, default1) ->
  ObjectsModel.init_default default1 objects2 editable_headers2 editable2 transposed2
    check_unique2 dictionary_of_lists2 = Ok (m2, default2) ->
  default1 = [attr] /\
  ObjectsModel.non_editable_attributes m2 = [attr] /\
  default2 = [attr].
Proof.
  unfold ObjectsModel.init_default. intros Hnone H1 H2.
  inv_bind H1 as m1' Hm1. inv_bind H2 as m2' Hm2. simplify_eq.
  apply ObjectsModel_init_Ok_non_editable in Hm1.
  apply ObjectsModel_init_Ok_non_editable in Hm2.
  rewrite Hm1 in *. unfold ObjectsModel.non_editable_after in *. rewrite Hnone in *.
  simpl in *. by rewrite Hm2.
Qed.

Lemma X19_default_non_editable_is_shared_witness :
  ObjectsModel.init_default [] [Examples.bus "a"] Examples.device_header true false ["name"]
    {[ "Substation" := [] ]} = Ok (Examples.device_model, ["graphic_obj"]) /\
  ObjectsModel.init_default ["graphic_obj"] [Examples.bus "a"; Examples.bus "b"]
    Examples.name_header true false ["name"] ∅ =
    Ok (Examples.buses_after_device, ["graphic_obj"]) /\
  ObjectsModel.non_editable_attributes Examples.buses_after_device = ["graphic_obj"].
Proof.
  assert (H0 : ObjectsModel.none_typed Examples.device_header = "graphic_obj" :: ["tag"])
    by (vm_compute; reflexivity).
  assert (H1 : ObjectsModel.init_default [] [Examples.bus "a"] Examples.device_header true
                 false ["name"] {[ "Substation" := [] ]} =
               Ok (Examples.device_model, ["graphic_obj"]))
    by (vm_compute; reflexivity).
  assert (H2 : ObjectsModel.init_default ["graphic_obj"] [Examples.bus "a"; Examples.bus "b"]
                 Examples.name_header true false ["name"] ∅ =
               Ok (Examples.buses_after_device, ["graphic_obj"]))
    by (vm_compute; reflexivity).
  split; [exact H1|]. split; [exact H2|].
  exact (proj1 (proj2 (X19_default_non_editable_is_shared _ _ _ _ _ _ _ _ _ _ _ _ _ _ _ _ _ _
                         H0 H1 H2))).
Defined.

Section ObjectsRoundTrip.

Context (BranchType : pyval -> result pyval)
        (update_symbol : pyobj -> result unit)
        (name_of : pyval -> result pyval).

(** X26: on an attribute that is editable and whose type is neither a
    bus nor a branch type, a [setData] whose value is not refused as
    taken writes the value in the object the index addresses, so that
    [data_with_type] at the same index returns it; the other attributes
    of that object and the other objects are left as they were. *)
Theorem X26_setData_then_data_with_type (m : ObjectsModel.t) (index : QModelIndex)
    (value : pyval) (tpe : ObjectsModel.tpe) (attr : string) (k : nat) (obj : pyobj) :
  Py.getitem (ObjectsModel.attribute_types m) (ObjectsModel.attr_idx m index) = Ok tpe ->
  tpe <> ObjectsModel.tpe_Bus ->
  tpe <> ObjectsModel.tpe_BranchType ->
  Py.getitem (ObjectsModel.attributes m) (ObjectsModel.attr_idx m index) = Ok attr ->
  attr ∉ ObjectsModel.non_editable_attributes m ->
  (attr ∈ ObjectsModel.check_unique m -> ObjectsModel.attr_taken m attr value = Ok false) ->
  Py.index (length (ObjectsModel.objects m)) (ObjectsModel.obj_idx m index) = Ok k ->
  ObjectsModel.objects m !! k = Some obj ->
  exists m' obj',
    ObjectsModel.setData BranchType update_symbol m index value = Ok (true, m') /\
    ObjectsModel.data_with_type BranchType name_of m' index = Ok value /\
    ObjectsModel.objects m' = <[k:=obj']> (ObjectsModel.objects m) /\
    obj' !! attr = Some value /\
    forall attr', attr' <> attr -> obj' !! attr' = obj !! attr'.
Proof.
  intros Htpe Hbus Hbranch Hattr Hed Htaken Hk Hobj.
  pose proof (lookup_lt_Some _ _ _ Hobj) as Hlt.
  exists (ObjectsModel.with_objects m (<[k:=setattr obj attr value]> (ObjectsModel.objects m))),
         (setattr obj attr value).
  split; [|split; [|split; [done|split]]].
  - unfold ObjectsModel.setData. rewrite Htpe. simpl. rewrite Hattr. simpl.
    unfold Py.mem_str.
    destruct (bool_decide (attr ∈ ObjectsModel.check_unique m)) eqn:Hu.
    + apply bool_decide_eq_true_1 in Hu. rewrite (Htaken Hu). simpl.
      rewrite (bool_decide_eq_false_2 _ Hed). simpl.
      rewrite (bool_decide_eq_false_2 _ Hbranch). rewrite Hk. simpl. by rewrite Hobj.
    + simpl. rewrite (bool_decide_eq_false_2 _ Hed). simpl.
      rewrite (bool_decide_eq_false_2 _ Hbranch). rewrite Hk. simpl. by rewrite Hobj.
  - unfold ObjectsModel.data_with_type, ObjectsModel.attr_idx, ObjectsModel.obj_idx in *.
    simpl. rewrite Hattr. simpl. rewrite Htpe. simpl.
    assert (Hget : Py.getitem (<[k:=setattr obj attr value]> (ObjectsModel.objects m))
                     (if ObjectsModel.transposed m then column index else row index) =
                   Ok (setattr obj attr value)).
    { unfold Py.getitem. rewrite length_insert, Hk. simpl.
      by rewrite list_lookup_insert_eq. }
    destruct tpe; try done; rewrite Hget; simpl; unfold getattr, setattr;
      by rewrite lookup_insert_eq.
  - unfold setattr. apply lookup_insert_eq.
  - intros attr' Hne. unfold setattr. by apply lookup_insert_ne.
Qed.

End ObjectsRoundTrip.

Lemma X26_setData_then_data_with_type_witness :
  exists m' obj',
    ObjectsModel.setData Examples.branch_type Examples.symbol_updated Examples.buses
      (mkIndex 1 0 true) (VStr "c") = Ok (true, m') /\
    ObjectsModel.data_with_type Examples.branch_type Examples.name_of_bus m'
      (mkIndex 1 0 true) = Ok (VStr "c") /\
    ObjectsModel.objects m' = <[1%nat:=obj']> (ObjectsModel.objects Examples.buses) /\
    obj' !! "name" = Some (VStr "c") /\
    forall attr', attr' <> "name" -> obj' !! attr' = Examples.bus "b" !! attr'.
Proof.
  apply (X26_setData_then_data_with_type Examples.branch_type Examples.symbol_updated
           Examples.name_of_bus Examples.buses (mkIndex 1 0 true) (VStr "c")
           ObjectsModel.tpe_str "name" 1 (Examples.bus "b")).
  - vm_compute. reflexivity.
  - discriminate.
  - discriminate.
  - vm_compute. reflexivity.
  - vm_compute. apply not_elem_of_nil.
  - intros _. vm_compute. reflexivity.
  - vm_compute. reflexivity.
  - vm_compute. reflexivity.
Defined.

(** ** [fast_data_to_text]: an index longer than the data *)

Lemma getitem_nat_out {A} (l : list A) (k : nat) :
  (length l <= k)%nat -> Py.getitem l (Z.of_nat k) = Raise IndexError.
Proof.
  intros Hk. unfold Py.getitem, Py.index.
  replace ((0 <=? Z.of_nat k) && (Z.of_nat k <? Z.of_nat (length l))) with false
    by (symmetry; apply andb_false_intro2; apply Z.ltb_ge; lia).
  replace ((- Z.of_nat (length l) <=? Z.of_nat k) && (Z.of_nat k <? 0)) with false
    by (symmetry; apply andb_false_intro2; apply Z.ltb_ge; lia).
  reflexivity.
Qed.

Section ExportBounds.

Context {A : Type} `{Dtype A} {I : Type} (str_index : I -> string).

(** The loop of [fast_data_to_text], started at row [k], when the index
    runs past the last row of the data. *)
Lemma export_loop_raises (data : ndarray A) (index : list I) (k : nat) (txt : string) :
  (k <= length (cells data))%nat ->
  (length (cells data) < k + length index)%nat ->
  foldM (fun txt '(t, index_value) =>
         line ← Np.getrow data t;
         if np_ne_zero (np_sum line)
         then Ok (txt +:+ str_index index_value +:+ TAB
                  +:+ Py.join TAB (np_str <$> line) +:+ NL)
         else Ok txt)
  (zip (Z.of_nat <$> seq k (length index)) index) txt = Raise IndexError.
Proof.
  unfold Np.getrow.
  revert k txt. induction index as [|i index IH]; intros k txt Hk0 Hlen; simpl in *; [lia|].
  destruct (decide (k < length (cells data))%nat) as [Hk|Hk].
  - destruct (lookup_lt_is_Some_2 (cells data) k Hk) as [line Hline].
    rewrite (getitem_nat _ _ _ Hline). simpl.
    destruct (np_ne_zero (np_sum line)); simpl; by rewrite IH by lia.
  - by rewrite getitem_nat_out by lia.
Qed.

(** X20: when the index has more entries than the data has rows,
    [fast_data_to_text] raises [IndexError] at the first index entry
    without a row, whatever the rows hold, and so does
    [ResultsModel.copy_to_clipboard] on a table with a column whose
    [get_data] returns such an index: nothing is put on the clipboard. *)
Theorem X20_index_longer_than_data_raises (data : ndarray A) (columns : list string)
    (index : list I) :
  (length (cells data) < length index)%nat ->
  fast_data_to_text str_index data columns index = Raise IndexError /\
  forall (table : ResultsModel.ResultsTable A I) (cb : clipboard),
    (0 < length (ResultsModel.cols_c table))%nat ->
    ResultsModel.get_data table = (index, columns, data) ->
    ResultsModel.copy_to_clipboard str_index table cb = Raise IndexError.
Proof.
  intros Hlen.
  assert (Htext : fast_data_to_text str_index data columns index = Raise IndexError).
  { unfold fast_data_to_text, enumerate. apply export_loop_raises; lia. }
  split; [done|]. intros table cb Hn Hget. unfold ResultsModel.copy_to_clipboard.
  replace (0 <? Z.of_nat (length (ResultsModel.cols_c table))) with true
    by (symmetry; apply Z.ltb_lt; lia).
  by rewrite Hget, Htext.
Qed.

End ExportBounds.

Lemma X20_index_longer_than_data_raises_witness :
  fast_data_to_text id (mkArray (1, 1) [[5]]) ["a"] ["x"; "y"] = Raise IndexError /\
  forall (table : ResultsModel.ResultsTable Z string) (cb : clipboard),
    (0 < length (ResultsModel.cols_c table))%nat ->
    ResultsModel.get_data table = (["x"; "y"], ["a"], mkArray (1, 1) [[5]]) ->
    ResultsModel.copy_to_clipboard id table cb = Raise IndexError.
Proof.
  apply (X20_index_longer_than_data_raises id (mkArray (1, 1) [[5]]) ["a"] ["x"; "y"]).
  simpl. lia.
Defined.

(** ** [fast_data_to_numpy_text] *)

Section NumpyTextShape.

Context {A : Type} (fmt : A -> string).

Lemma first_column_loop (col : list A) (acc : list A) :
  foldM (fun acc line => x ← Py.getitem line 0; Ok (acc ++ [x]))
        ((fun x => [x]) <$> col) acc = Ok (acc ++ col).
Proof.
  revert acc. induction col as [|x col IH]; intros acc; simpl.
  - by rewrite app_nil_r.
  - rewrite IH. by rewrite <- app_assoc.
Qed.

Lemma rows_of_one_cell (rows : list (list A)) :
  Forall (fun line => Z.of_nat (length line) = 1) rows ->
  exists col, rows = (fun x => [x]) <$> col.
Proof.
  induction rows as [|line rows IH]; intros Hrows.
  - by exists [].
  - apply Forall_cons in Hrows as [Hline Hrows]. destruct (IH Hrows) as [col ->].
    destruct line as [|x [|y line]]; simpl in Hline; try lia.
    by exists (x :: col).
Qed.

Lemma numpy_rows_snoc (rows : list (list A)) (line : list A) :
  foldr (fun line txt => "[" +:+ Py.join ", " (fmt <$> line) +:+ "]," +:+ NL +:+ txt) ""
        (rows ++ [line]) =
  foldr (fun line txt => "[" +:+ Py.join ", " (fmt <$> line) +:+ "]," +:+ NL +:+ txt) "" rows
  +:+ "[" +:+ Py.join ", " (fmt <$> line) +:+ "]," +:+ NL.
Proof.
  induction rows as [|r rows IH]; simpl.
  - by rewrite append_nil_r.
  - rewrite IH. by rewrite !append_assoc.
Qed.

(** The loop over the rows of an array of more than one column. *)
Lemma numpy_text_loop (d : ndarray A) (k : nat) :
  (k <= length (cells d))%nat ->
  foldM (fun (txt : string) t =>
           line ← Np.getrow d t;
           Ok (txt +:+ "[" +:+ Py.join ", " (fmt <$> line) +:+ "]," +:+ NL))
        (ProfilesModel.range (Z.of_nat k)) "[" =
  Ok ("[" +:+
      foldr (fun line txt => "[" +:+ Py.join ", " (fmt <$> line) +:+ "]," +:+ NL +:+ txt) ""
            (take k (cells d))).
Proof.
  induction k as [|k IH]; intros Hk; [done|].
  rewrite range_S, foldM_snoc, IH by lia. simpl.
  destruct (lookup_lt_is_Some_2 (cells d) k ltac:(lia)) as [line Hline].
  unfold Np.getrow. rewrite (getitem_nat _ _ _ Hline). simpl.
  rewrite (take_S_r _ _ _ Hline), numpy_rows_snoc. by rewrite !append_assoc.
Qed.

(** X28: on an array of two dimensions whose rows agree with its shape,
    [fast_data_to_numpy_text] writes an array of one column exactly as it
    writes the array of one dimension that holds the column; with more
    columns it writes each row between brackets followed by a comma and a
    newline, the last row too, inside one pair of brackets; and on an
    array without columns it raises [IndexError] at [data[:, 0]]. *)
Theorem X28_numpy_text_by_shape (d : ndarray A) :
  Np.wf d ->
  ((shape d).2 = 1 ->
   exists col, cells d = (fun x => [x]) <$> col /\
               fast_data_to_numpy_text fmt (Arr2 d) = fast_data_to_numpy_text fmt (Arr1 col)) /\
  (1 < (shape d).2 ->
   fast_data_to_numpy_text fmt (Arr2 d) =
     Ok ("[" +:+
         foldr (fun line txt => "[" +:+ Py.join ", " (fmt <$> line) +:+ "]," +:+ NL +:+ txt) ""
               (cells d) +:+ "]")) /\
  ((shape d).2 = 0 -> fast_data_to_numpy_text fmt (Arr2 d) = Raise IndexError).
Proof.
  intros [Hrows Hcols]. unfold fast_data_to_numpy_text. split; [|split].
  - intros Hone. rewrite Hone in *.
    destruct (rows_of_one_cell _ Hcols) as [col Hcol]. exists col. split; [done|].
    simpl. unfold first_column. rewrite Hone. simpl.
    by rewrite Hcol, first_column_loop.
  - intros Hmany.
    replace (1 <? (shape d).2) with true by (symmetry; by apply Z.ltb_lt).
    rewrite <- Hrows, numpy_text_loop by done. simpl.
    by rewrite firstn_all, !append_assoc.
  - intros Hzero. unfold first_column. by rewrite Hzero.
Qed.

End NumpyTextShape.

Lemma X28_numpy_text_by_shape_witness :
  exists col, cells (mkArray (2, 1) [[5]; [0]]) = (fun x => [x]) <$> col /\
              fast_data_to_numpy_text pretty (Arr2 (mkArray (2, 1) [[5]; [0]])) =
              fast_data_to_numpy_text pretty (Arr1 col).
Proof.
  apply (proj1 (X28_numpy_text_by_shape pretty (mkArray (2, 1) [[5]; [0]])
                  ltac:(split; [reflexivity|repeat constructor]))).
  reflexivity.
Defined.

(** ** List models and their checked rows *)

(** The loop of [get_checked_indices] over the first [k] rows, on a
    model whose items all have, or all lack, the checked state. *)
Lemma get_checked_indices_loop (mdl : list ItemModels.QStandardItem) (b : bool) (k : nat) :
  Forall (fun item => bool_decide (ItemModels.checkState item = ItemModels.Checked) = b) mdl ->
  (k <= length mdl)%nat ->
  foldM (fun idx row =>
           k ← Py.index (length mdl) row;
           item ← of_option AttributeError (mdl !! k);
           if bool_decide (ItemModels.checkState item = ItemModels.Checked)
           then Ok (idx ++ [row]) else Ok idx)
        (ProfilesModel.range (Z.of_nat k)) [] =
  Ok (if b then ProfilesModel.range (Z.of_nat k) else []).
Proof.
  intros Hall. induction k as [|k IH]; intros Hk.
  - by destruct b.
  - rewrite range_S, foldM_snoc, IH by lia. simpl.
    destruct (lookup_lt_is_Some_2 mdl k ltac:(lia)) as [item Hitem].
    rewrite index_nat by lia. simpl. rewrite Hitem. simpl.
    rewrite (proj1 (Forall_lookup _ _) Hall k item Hitem).
    by destruct b.
Qed.

(** X21: the rows of the model that [get_list_model] builds are the
    values of the list in order, shown through [str], and none is
    editable; [get_checked_indices] on that model returns every row when
    the model was built with [checks] and [check_value], and no row
    otherwise: [check_value] without [checks] checks nothing, and [None]
    for the list gives an empty model. *)
Theorem X21_checked_indices_of_list_model {V : Type} (str : V -> string)
    (lst : option (list V)) (checks check_value : bool) :
  ItemModels.text <$> ItemModels.get_list_model str lst checks check_value =
    str <$> default [] lst /\
  Forall (fun item => ItemModels.isEditable item = false)
         (ItemModels.get_list_model str lst checks check_value) /\
  ItemModels.get_checked_indices (ItemModels.get_list_model str lst checks check_value) =
    Ok (if checks && check_value
        then ProfilesModel.range (Z.of_nat (length (default [] lst)))
        else []).
Proof.
  assert (Hlen : length (ItemModels.get_list_model str lst checks check_value) =
                 length (default [] lst)).
  { destruct lst as [lst|]; [|done]. simpl. destruct checks; simpl; by rewrite length_fmap. }
  split; [|split].
  - destruct lst as [lst|]; [|done]. simpl. destruct checks; simpl;
      rewrite <- list_fmap_compose; apply list_fmap_ext; intros i x _; simpl; [|done].
    by destruct check_value.
  - destruct lst as [lst|]; [|by apply Forall_nil_2]. simpl.
    destruct checks; simpl; apply Forall_fmap, Forall_forall; intros x _; simpl; [|done].
    by destruct check_value.
  - unfold ItemModels.get_checked_indices.
    rewrite (get_checked_indices_loop _ (checks && check_value)); [by rewrite Hlen| |done].
    destruct lst as [lst|]; [|by apply Forall_nil_2]. simpl.
    destruct checks; simpl; apply Forall_fmap, Forall_forall; intros x _; simpl; [|done].
    by destruct check_value.
Qed.

(** ** [fill_model_from_dict] *)

Lemma pydata_nested_ind (P : ItemModels.pydata -> Prop) :
  (forall items, Forall (fun kv => P kv.2) items -> P (ItemModels.DDict items)) ->
  (forall l, Forall P l -> P (ItemModels.DList l)) ->
  (forall s, P (ItemModels.DLeaf s)) ->
  forall d, P d.
Proof.
  intros Hd Hl Hs. fix IH 1. intros [items|l|s].
  - apply Hd. induction items as [|[k v] items IHitems]; constructor; [apply IH|apply IHitems].
  - apply Hl. induction l as [|v l IHl]; constructor; [apply IH|apply IHl].
  - apply Hs.
Qed.

Lemma fill_DDict (items : list (string * ItemModels.pydata)) (editable : bool) :
  ItemModels.fill_model_from_dict (ItemModels.DDict items) editable =
  (fun kv => ItemModels.with_rows (ItemModels.setEditable (ItemModels.new_item kv.1) editable)
               (ItemModels.fill_model_from_dict kv.2 false)) <$> items.
Proof.
  simpl. induction items as [|[k v] items IH]; [done|]. simpl. by rewrite IH.
Qed.

Lemma fill_DList (l : list ItemModels.pydata) (editable : bool) :
  ItemModels.fill_model_from_dict (ItemModels.DList l) editable =
  concat ((fun v => ItemModels.fill_model_from_dict v false) <$> l).
Proof.
  simpl. induction l as [|v l IH]; [done|]. simpl. by rewrite IH.
Qed.

Lemma locked_unfold (text : string) (e c : bool) (s : ItemModels.CheckState)
    (rs : list ItemModels.QStandardItem) :
  ItemModels.locked (ItemModels.mkItem text e c s rs) =
  negb e && forallb ItemModels.locked rs.
Proof.
  reflexivity.
Qed.

Lemma fill_locked (d : ItemModels.pydata) :
  forallb ItemModels.locked (ItemModels.fill_model_from_dict d false) = true.
Proof.
  induction d as [items IH|l IH|s] using pydata_nested_ind.
  - rewrite fill_DDict. induction items as [|[k v] items IHitems]; [done|].
    apply Forall_cons in IH as [Hv IH]. rewrite fmap_cons.
    change (forallb ItemModels.locked (?x :: ?l))
      with (ItemModels.locked x && forallb ItemModels.locked l).
    unfold ItemModels.with_rows at 1. rewrite locked_unfold. cbn [snd fst] in *.
    rewrite Hv. simpl. by apply IHitems.
  - rewrite fill_DList. induction l as [|v l IHl]; [done|].
    apply Forall_cons in IH as [Hv IH]. simpl.
    rewrite forallb_app, Hv. simpl. by apply IHl.
  - reflexivity.
Qed.

(** X22: [fill_model_from_dict] honours [editable] only in the items it
    appends itself for the keys of a dict, or for a value that is neither
    a dict nor a list: the recursive calls leave the argument out, so
    every item below those, and every item made for a list, is not
    editable whatever [editable] is. The items made for a dict carry its
    keys in order. No item of the tree of [get_tree_model] is editable. *)
Theorem X22_editable_only_at_top_level (d : ItemModels.pydata) (editable : bool) :
  Forall (fun item => forallb ItemModels.locked (ItemModels.rows item) = true)
         (ItemModels.fill_model_from_dict d editable) /\
  (forall l, d = ItemModels.DList l ->
     forallb ItemModels.locked (ItemModels.fill_model_from_dict d editable) = true) /\
  (forall items, d = ItemModels.DDict items ->
     ItemModels.text <$> ItemModels.fill_model_from_dict d editable = items.*1 /\
     Forall (fun item => ItemModels.isEditable item = editable)
            (ItemModels.fill_model_from_dict d editable)) /\
  (forall top, forallb ItemModels.locked (ItemModels.get_tree_model d top).2 = true).
Proof.
  split; [|split; [|split]].
  - destruct d as [items|l|s].
    + rewrite fill_DDict. apply Forall_fmap, Forall_forall. intros [k v] _. simpl.
      apply fill_locked.
    + rewrite fill_DList.
      pose proof (fill_locked (ItemModels.DList l)) as H. rewrite fill_DList in H.
      apply Forall_forall. intros item Hin.
      assert (Hl : ItemModels.locked item = true).
      { apply list_elem_of_In in Hin. by apply (proj1 (forallb_forall _ _) H). }
      destruct item as [t e c s rs]. rewrite locked_unfold in Hl.
      by apply andb_prop in Hl as [_ Hl].
    + by apply Forall_singleton.
  - intros l ->. rewrite fill_DList.
    pose proof (fill_locked (ItemModels.DList l)) as H. by rewrite fill_DList in H.
  - intros items ->. rewrite fill_DDict. split.
    + rewrite <- list_fmap_compose. by apply list_fmap_ext.
    + apply Forall_fmap, Forall_forall. by intros [k v] _.
  - intros top. apply fill_locked.
Qed.

(** ** [ComboDelegate] *)




Lemma X22_editable_only_at_top_level_witness :
  ItemModels.text <$> ItemModels.fill_model_from_dict Examples.session_tree true =
    [("Power Flow", ItemModels.DList [ItemModels.DLeaf "Vm"; ItemModels.DLeaf "Va"])].*1 /\
  Forall (fun item => ItemModels.isEditable item = true)
         (ItemModels.fill_model_from_dict Examples.session_tree true).
Proof.
  apply (proj1 (proj2 (proj2 (X22_editable_only_at_top_level Examples.session_tree true)))).
  reflexivity.
Defined.


(** ** [ProfilesModel.paste_from_clipboard] *)

Lemma foldM_fixed {A B} (f : A -> B -> result A) (l : list B) (a : A) :
  (forall b, b ∈ l -> f a b = Ok a) -> foldM f l a = Ok a.
Proof.
  induction l as [|b l IH]; intros Hf; [done|]. simpl.
  rewrite Hf by apply list_elem_of_here. simpl.
  apply IH. intros b' Hb'. apply Hf. by apply list_elem_of_further.
Qed.

Lemma enumerate_nonneg {I} (l : list I) (t : Z) (x : I) :
  (t, x) ∈ enumerate l -> 0 <= t.
Proof.
  unfold enumerate. intros Hin. apply elem_of_zip_l in Hin.
  apply list_elem_of_fmap in Hin as (k & -> & _). lia.
Qed.

Section PasteBounds.

Context {V : Type} (formatter : string -> result V).

Implicit Types m : ProfilesModel.t V.

(** X24: a paste whose first column is at or past the number of
    elements, or whose first row is at or past the length of the time
    profile, writes no cell and adds no undo state, whatever the text of
    the clipboard is: the model is left as it was. *)
Theorem X24_paste_outside_the_table_writes_nothing m (text : string) (row_idx col_idx : Z) :
  Z.of_nat (length (ProfilesModel.elements m)) <= col_idx \/ ProfilesModel.r m <= row_idx ->
  (forall e0, ProfilesModel.elements m !! 0%nat = Some e0 ->
              is_Some (ProfilesModel.properties_with_profile e0 !! ProfilesModel.magnitude m)) ->
  ProfilesPaste.paste_from_clipboard formatter m text row_idx col_idx = Ok m.
Proof.
  intros Hout Hfirst. unfold ProfilesPaste.paste_from_clipboard.
  destruct (0 <? Z.of_nat (length (ProfilesModel.elements m))) eqn:Hn; [|done].
  apply Z.ltb_lt in Hn.
  destruct (lookup_lt_is_Some_2 (ProfilesModel.elements m) 0 ltac:(lia)) as [e0 He0].
  destruct (Hfirst e0 He0) as [p Hp].
  pose proof (getitem_nat _ 0 e0 He0) as Hget. change (Z.of_nat 0) with 0 in Hget.
  rewrite Hget. simpl. rewrite Hp. simpl.
  rewrite foldM_fixed.
  - simpl. by destruct m.
  - intros [r row] Hr. apply enumerate_nonneg in Hr.
    apply foldM_fixed. intros [c val] Hc. apply enumerate_nonneg in Hc.
    destruct (formatter val) as [val2|e]; [|done].
    replace ((c + col_idx <? Z.of_nat (length (ProfilesModel.elements m))) &&
             (r + row_idx <? ProfilesModel.r m)) with false; [done|].
    symmetry. apply andb_false_iff.
    destruct Hout; [left|right]; apply Z.ltb_ge; lia.
Qed.

(** [add_state] on one column of a model whose history can take a
    state. *)
Lemma profiles_add_state_single m (col : Z) (action : string) (a : ProfilesModel.addr)
    (arr : list V) :
  ProfilesModel.profile_ref m col = Ok a ->
  ProfilesModel.heap m !! a = Some arr ->
  -1 <= ObjectHistory.max_undo_states (ProfilesModel.history m) ->
  exists m2,
    ProfilesModel.add_state m [col] action = Ok m2 /\
    ProfilesModel.elements m2 = ProfilesModel.elements m /\
    ProfilesModel.magnitude m2 = ProfilesModel.magnitude m /\
    ProfilesModel.r m2 = ProfilesModel.r m /\
    ProfilesModel.c m2 = ProfilesModel.c m /\
    ProfilesModel.heap m2 = ProfilesModel.heap m ++ [arr] /\
    last (ObjectHistory.undo_stack (ProfilesModel.history m2)) =
      Some (action, [(col, length (ProfilesModel.heap m))]).
Proof.
  intros Href Harr Hmax. unfold ProfilesModel.add_state. simpl.
  rewrite Href. simpl. unfold ProfilesModel.deref. rewrite Harr. simpl.
  unfold ObjectHistory.add_state.
  destruct (_ <? _) eqn:Hguard.
  - apply Z.ltb_lt in Hguard.
    destruct (ObjectHistory.undo_stack (ProfilesModel.history m)) as [|s us];
      [simpl in Hguard; lia|].
    simpl. eexists. split; [reflexivity|]. simpl. by rewrite last_snoc.
  - simpl. eexists. split; [reflexivity|]. simpl. by rewrite last_snoc.
Qed.

Lemma split_no_separator (sep : Ascii.ascii) (s : string) :
  Forall (fun ch => ch <> sep) (String.list_ascii_of_string s) ->
  ProfilesPaste.split sep s = [s].
Proof.
  induction s as [|ch s IH]; intros Hs; [done|]. simpl in *.
  apply Forall_cons in Hs as [Hch Hs].
  destruct (Ascii.eqb_spec ch sep) as [->|_]; [done|]. by rewrite IH.
Qed.

(** X25: pasting a text of one value, without tab or newline, at a cell
    of the table writes the parsed value in the array of that column and
    then stores a state named [paste] whose copy of the column already
    holds the pasted value; the column is written whether or not it is
    among the non-editable indices, which [paste_from_clipboard] never
    reads. *)
Theorem X25_paste_one_value m (text : string) (value : V) (row_idx col_idx : Z)
    (e0 e : ProfilesModel.element) (p : string) (a : ProfilesModel.addr)
    (arr arr' : list V) :
  Forall (fun ch => ch <> Ascii.ascii_of_nat 9 /\ ch <> Ascii.ascii_of_nat 10)
         (String.list_ascii_of_string text) ->
  formatter text = Ok value ->
  0 <= col_idx < Z.of_nat (length (ProfilesModel.elements m)) ->
  0 <= row_idx < ProfilesModel.r m ->
  ProfilesModel.elements m !! 0%nat = Some e0 ->
  ProfilesModel.properties_with_profile e0 !! ProfilesModel.magnitude m = Some p ->
  ProfilesModel.elements m !! Z.to_nat col_idx = Some e ->
  ProfilesModel.properties_with_profile e !! ProfilesModel.magnitude m = Some p ->
  ProfilesModel.attrs e !! p = Some a ->
  ProfilesModel.heap m !! a = Some arr ->
  Py.setitem arr row_idx value = Ok arr' ->
  -1 <= ObjectHistory.max_undo_states (ProfilesModel.history m) ->
  exists m2 (a' : ProfilesModel.addr),
    ProfilesPaste.paste_from_clipboard formatter m text row_idx col_idx = Ok m2 /\
    ProfilesModel.profile_array m2 col_idx = Ok arr' /\
    last (ObjectHistory.undo_stack (ProfilesModel.history m2)) =
      Some ("paste", [(col_idx, a')]) /\
    ProfilesModel.heap m2 !! a' = Some arr' /\
    ProfilesModel.rowCount m2 = ProfilesModel.rowCount m /\
    ProfilesModel.columnCount m2 = ProfilesModel.columnCount m.
Proof.
  intros Htext Hvalue Hcol Hrow He0 Hp0 He Hp Ha Harr Hset Hmax.
  pose proof (lookup_lt_Some _ _ _ Harr) as Halt.
  assert (Hgetcol : Py.getitem (ProfilesModel.elements m) col_idx = Ok e).
  { rewrite <- (Z2Nat.id col_idx) by lia. by apply getitem_nat. }
  assert (Href : ProfilesModel.profile_ref
                   (ProfilesPaste.with_heap m (<[a:=arr']> (ProfilesModel.heap m))) col_idx =
                 Ok a).
  { unfold ProfilesModel.profile_ref. simpl. rewrite Hgetcol. simpl. rewrite Hp. simpl.
    by rewrite Ha. }
  destruct (profiles_add_state_single
              (ProfilesPaste.with_heap m (<[a:=arr']> (ProfilesModel.heap m)))
              col_idx "paste" a arr' Href)
    as (m2 & Hadd & Helms & Hmagn & Hr & Hc & Hheap & Hlast);
    [simpl; by rewrite list_lookup_insert_eq|done|].
  simpl in *. exists m2, (length (ProfilesModel.heap m)).
  split.
  - unfold ProfilesPaste.paste_from_clipboard.
    replace (0 <? Z.of_nat (length (ProfilesModel.elements m))) with true
      by (symmetry; apply Z.ltb_lt; lia).
    pose proof (getitem_nat _ 0 e0 He0) as Hget. change (Z.of_nat 0) with 0 in Hget.
    rewrite Hget. simpl. rewrite Hp0. simpl.
    rewrite (split_no_separator (Ascii.ascii_of_nat 10) text)
      by (eapply Forall_impl; [exact Htext|]; by intros ch [_ H]).
    unfold enumerate at 1. simpl.
    rewrite (split_no_separator (Ascii.ascii_of_nat 9) text)
      by (eapply Forall_impl; [exact Htext|]; by intros ch [H _]).
    unfold enumerate. simpl. rewrite Hvalue.
    change (Z.of_nat 0) with 0. rewrite !Z.add_0_l.
    replace ((col_idx <? Z.of_nat (length (ProfilesModel.elements m))) &&
             (row_idx <? ProfilesModel.r m)) with true
      by (symmetry; apply andb_true_intro; split; apply Z.ltb_lt; lia).
    rewrite Hgetcol. simpl. rewrite Ha. simpl. unfold ProfilesModel.deref. rewrite Harr.
    simpl. rewrite Hset. simpl. exact Hadd.
  - split.
    + unfold ProfilesModel.profile_array, ProfilesModel.profile_ref.
      rewrite Helms, Hmagn, Hgetcol. simpl. rewrite Hp. simpl. rewrite Ha. simpl.
      unfold ProfilesModel.deref. rewrite Hheap, length_insert in *.
      rewrite lookup_app_l by (by rewrite length_insert).
      by rewrite list_lookup_insert_eq.
    + rewrite length_insert in Hlast. split; [done|]. split.
      * rewrite Hheap. rewrite <- (length_insert (ProfilesModel.heap m) a arr') at 1.
        by rewrite list_lookup_middle.
      * unfold ProfilesModel.rowCount, ProfilesModel.columnCount. by rewrite Hr, Hc.
Qed.

End PasteBounds.

Lemma X24_paste_outside_the_table_writes_nothing_witness :
  ProfilesPaste.paste_from_clipboard (fun _ => Ok 7) Examples.profiles "4" 0 1 =
    Ok Examples.profiles.
Proof.
  apply X24_paste_outside_the_table_writes_nothing.
  - left. vm_compute. discriminate.
  - intros e0 He0. vm_compute in He0. simplify_eq. by eexists.
Defined.

Lemma X25_paste_one_value_witness :
  exists m2 (a' : ProfilesModel.addr),
    ProfilesPaste.paste_from_clipboard (fun _ => Ok 9) Examples.profiles "9" 1 0 = Ok m2 /\
    ProfilesModel.profile_array m2 0 = Ok [1; 9; 3] /\
    last (ObjectHistory.undo_stack (ProfilesModel.history m2)) = Some ("paste", [(0, a')]) /\
    ProfilesModel.heap m2 !! a' = Some [1; 9; 3] /\
    ProfilesModel.rowCount m2 = ProfilesModel.rowCount Examples.profiles /\
    ProfilesModel.columnCount m2 = ProfilesModel.columnCount Examples.profiles.
Proof.
  apply (X25_paste_one_value (fun _ => Ok 9) Examples.profiles "9" 9 1 0
           Examples.load Examples.load "P_prof" 0%nat [1; 2; 3] [1; 9; 3]).
  - apply Forall_cons. split; [|apply Forall_nil_2]. split; vm_compute; discriminate.
  - reflexivity.
  - vm_compute. split; [discriminate|reflexivity].
  - vm_compute. split; [discriminate|reflexivity].
  - vm_compute. reflexivity.
  - vm_compute. reflexivity.
  - vm_compute. reflexivity.
  - vm_compute. reflexivity.
  - vm_compute. reflexivity.
  - vm_compute. reflexivity.
  - vm_compute. reflexivity.
  - vm_compute. discriminate.
Defined.
